(** * benchmark.py: token/step benchmark of two code-search workflows

    A shallow embedding of [src/benchmark_tool/benchmark.py] and the
    properties of its specification.

    - Python [str] is a sequence of Unicode code points ([list N]).
    - Python [int] is [Z]; Python [float] is IEEE-754 binary64, taken from
      the Standard Library's executable specification [SpecFloat].
    - The interpreter state touched by the script (standard output, the
      calls made to [subprocess.run], the clock, the [BenchmarkResult]
      objects) is an explicit [World]; exceptions are values.
    - Everything outside the script (the processes, the filesystem, the
      clock, the optional libraries) is an [Env] of oracles. *)

From Stdlib Require Import String Ascii.
From Stdlib Require Import ZArith NArith List Bool Lia.
From Stdlib Require Import SpecFloat QArith Qpower.
From Stdlib Require DecimalN DecimalPos.
Import ListNotations.
Local Open Scope Z_scope.

(** ** Python strings *)

Module PyStr.

Definition char := N.
Definition str := list char.

(** A source literal (all literals of the script are ASCII). *)
Definition lit (s : string) : str := map N_of_ascii (list_ascii_of_string s).

(** [len(x)] *)
Definition len {A} (l : list A) : Z := Z.of_nat (length l).

(** The code points CPython treats as whitespace in [str.split()] and
    [str.strip()] ([_PyUnicode_IsWhitespace]). *)
Definition isspace (c : char) : bool :=
  ((9 <=? c) && (c <=? 13) || (28 <=? c) && (c <=? 32) ||
   (c =? 133) || (c =? 160) || (c =? 5760) ||
   (8192 <=? c) && (c <=? 8202) ||
   (c =? 8232) || (c =? 8233) || (c =? 8239) || (c =? 8287) ||
   (c =? 12288))%N.

(** [s.split()]: the maximal runs of non-whitespace, in order.  [cur] is
    the run being read, most recent character first. *)
Fixpoint split_from (cur : str) (s : str) : list str :=
  match s with
  | [] => match cur with [] => [] | _ => [rev cur] end
  | c :: s' =>
      if isspace c
      then match cur with
           | [] => split_from [] s'
           | _ => rev cur :: split_from [] s'
           end
      else split_from (c :: cur) s'
  end.

Definition split (s : str) : list str := split_from [] s.

(** [s.split(sep)] for a one-character separator: never empty. *)
Fixpoint split_on_from (sep : char) (cur : str) (s : str) : list str :=
  match s with
  | [] => [rev cur]
  | c :: s' =>
      if N.eqb c sep then rev cur :: split_on_from sep [] s'
      else split_on_from sep (c :: cur) s'
  end.

Definition split_on (sep : char) (s : str) : list str := split_on_from sep [] s.

Fixpoint lstrip (s : str) : str :=
  match s with
  | c :: s' => if isspace c then lstrip s' else s
  | [] => []
  end.

Definition rstrip (s : str) : str := rev (lstrip (rev s)).

(** [s.strip()] *)
Definition strip (s : str) : str := rstrip (lstrip s).

Fixpoint startswith (s p : str) : bool :=
  match p, s with
  | [], _ => true
  | x :: p', y :: s' => N.eqb x y && startswith s' p'
  | _ :: _, [] => false
  end.

(** [s.endswith(suffix)] *)
Definition endswith (s suffix : str) : bool := startswith (rev s) (rev suffix).

(** [s.ljust(width)], the effect of the format field [{:<width}]. *)
Definition ljust (width : nat) (s : str) : str :=
  s ++ repeat 32%N (width - length s).

(** [c * n] for a one-character string [c]. *)
Definition replicate (n : nat) (c : char) : str := repeat c n.

Definition newline : char := 10%N.

End PyStr.
Export PyStr.

(** ** Exceptions and results *)

Inductive exn :=
  | ZeroDivisionError
  | OverflowError
  | ValueError
  | IndexError
  | ExternalError (msg : str)   (* an [Exception] raised by an external call; [str(e) = msg] *)
  | SystemExit (code : Z).      (* a [BaseException], not an [Exception] *)

Inductive result (A : Type) :=
  | Ok (a : A)
  | Raise (e : exn).
Arguments Ok {A} a.
Arguments Raise {A} e.

Definition rbind {A B} (r : result A) (k : A -> result B) : result B :=
  match r with
  | Ok a => k a
  | Raise e => Raise e
  end.

(** ** Python numbers *)

Module PyNum.

Definition prec : Z := 53.
Definition emax : Z := 1024.
Definition float : Set := spec_float.

Definition fadd : float -> float -> float := SFadd prec emax.
Definition fsub : float -> float -> float := SFsub prec emax.
Definition fmul : float -> float -> float := SFmul prec emax.
Definition fdiv : float -> float -> float := SFdiv prec emax.

(** The float nearest to an integer (ties to even); an infinity when the
    integer is out of range. *)
Definition float_of_Z (z : Z) : float := binary_normalize prec emax z 0 false.

(** [float(z)]: [OverflowError] when [z] is too large. *)
Definition int_to_float (z : Z) : result float :=
  match float_of_Z z with
  | S754_infinity _ => Raise OverflowError
  | f => Ok f
  end.

(** The source literal [1.3]: 0x3FF4CCCCCCCCCCCD. *)
Definition float_1_3 : float := S754_finite false 5854679515581645 (-52).

(** [int(f)]: truncation toward zero. *)
Definition float_to_int (f : float) : result Z :=
  match f with
  | S754_zero _ => Ok 0
  | S754_finite s m e => Ok (cond_Zopp s (Z.shiftl (Zpos m) e))
  | S754_infinity _ => Raise OverflowError
  | S754_nan => Raise ValueError
  end.

(** A Python number as the script has them: [int] or [float]. *)
Inductive num :=
  | PInt (z : Z)
  | PFloat (f : float).

Definition to_float (x : num) : result float :=
  match x with
  | PInt z => int_to_float z
  | PFloat f => Ok f
  end.

Definition is_zero (f : float) : bool :=
  match f with S754_zero _ => true | _ => false end.

(** [a / b] on integers: the correctly rounded quotient. *)
Definition int_truediv (a b : Z) : result float :=
  match b with
  | 0 => Raise ZeroDivisionError
  | _ =>
    let s := xorb (a <? 0) (b <? 0) in
    match a with
    | 0 => Ok (S754_zero s)
    | _ =>
      let '(q, e, l) := SFdiv_core_binary prec emax (Z.abs a) 0 (Z.abs b) 0 in
      match binary_round_aux prec emax s q e l with
      | S754_infinity _ => Raise OverflowError
      | f => Ok f
      end
    end
  end.

Definition float_truediv (a b : float) : result float :=
  if is_zero b then Raise ZeroDivisionError else Ok (fdiv a b).

(** [x / y] *)
Definition py_truediv (x y : num) : result num :=
  match x, y with
  | PInt a, PInt b => rbind (int_truediv a b) (fun f => Ok (PFloat f))
  | _, _ =>
    rbind (to_float x) (fun a =>
    rbind (to_float y) (fun b =>
    rbind (float_truediv a b) (fun f => Ok (PFloat f))))
  end.

Definition arith (iop : Z -> Z -> Z) (fop : float -> float -> float)
    (x y : num) : result num :=
  match x, y with
  | PInt a, PInt b => Ok (PInt (iop a b))
  | _, _ =>
    rbind (to_float x) (fun a =>
    rbind (to_float y) (fun b => Ok (PFloat (fop a b))))
  end.

(** [x + y], [x - y], [x * y] *)
Definition py_add : num -> num -> result num := arith Z.add fadd.
Definition py_sub : num -> num -> result num := arith Z.sub fsub.
Definition py_mul : num -> num -> result num := arith Z.mul fmul.

(** Exact comparison of a float with an integer, as [float.__gt__] does. *)
Definition float_cmp_Z (f : float) (z : Z) : option comparison :=
  match f with
  | S754_nan => None
  | S754_infinity s => Some (if s then Lt else Gt)
  | S754_zero _ => Some (0 ?= z)
  | S754_finite s m e =>
      let v := cond_Zopp s (Zpos m) in
      Some (if 0 <=? e then (v * 2 ^ e ?= z) else (v ?= z * 2 ^ (- e)))
  end.

(** [x > y] *)
Definition py_gt (x y : num) : bool :=
  match x, y with
  | PInt a, PInt b => b <? a
  | PFloat a, PFloat b => SFltb b a
  | PFloat a, PInt b =>
      match float_cmp_Z a b with Some Gt => true | _ => false end
  | PInt a, PFloat b =>
      match float_cmp_Z b a with Some Lt => true | _ => false end
  end.

(** The exact value of a float, for stating properties. *)
Definition float_value (f : float) : Q :=
  match f with
  | S754_finite s m e => (inject_Z (cond_Zopp s (Zpos m)) * 2 ^ e)%Q
  | _ => 0%Q
  end.

(** [int(x)] *)
Definition py_int (x : num) : result Z :=
  match x with
  | PInt z => Ok z
  | PFloat f => float_to_int f
  end.

End PyNum.
Export PyNum.

(** ** Formatting numbers *)

Module PyFormat.

Fixpoint uint_str (u : Decimal.uint) : str :=
  (match u with
   | Decimal.Nil => []
   | Decimal.D0 u => 48 :: uint_str u
   | Decimal.D1 u => 49 :: uint_str u
   | Decimal.D2 u => 50 :: uint_str u
   | Decimal.D3 u => 51 :: uint_str u
   | Decimal.D4 u => 52 :: uint_str u
   | Decimal.D5 u => 53 :: uint_str u
   | Decimal.D6 u => 54 :: uint_str u
   | Decimal.D7 u => 55 :: uint_str u
   | Decimal.D8 u => 56 :: uint_str u
   | Decimal.D9 u => 57 :: uint_str u
   end)%N.

(** The decimal digits of a non-negative integer. *)
Definition digits (z : Z) : str := uint_str (N.to_uint (Z.to_N z)).

Definition minus_sign (s : bool) : str := if s then [45%N] else [].

(** [str(z)] *)
Definition str_of_int (z : Z) : str := minus_sign (z <? 0) ++ digits (Z.abs z).

(** A comma before every group of three digits, counted from the right. *)
Fixpoint commas (ds : str) : str :=
  match ds with
  | [] => []
  | d :: rest =>
      d :: (if (negb (Nat.eqb (length rest) 0) && Nat.eqb (length rest mod 3) 0)%nat
            then 44%N :: commas rest else commas rest)
  end.

(** [f"{z:,}"] *)
Definition format_int_commas (z : Z) : str :=
  minus_sign (z <? 0) ++ commas (digits (Z.abs z)).

(** [s.zfill(width)] on a string of digits. *)
Definition zfill (width : nat) (s : str) : str := repeat 48%N (width - length s) ++ s.

(** The quotient [n / d] rounded to the nearest integer, ties to even
    ([0 <= n], [0 < d]). *)
Definition round_half_even (n d : Z) : Z :=
  let q := n / d in
  match 2 * (n mod d) ?= d with
  | Lt => q
  | Gt => q + 1
  | Eq => if Z.even q then q else q + 1
  end.

(** [m * 2^e * 10^p], correctly rounded to an integer. *)
Definition scaled (p : nat) (m : positive) (e : Z) : Z :=
  if 0 <=? e then Zpos m * 2 ^ e * 10 ^ Z.of_nat p
  else round_half_even (Zpos m * 10 ^ Z.of_nat p) (2 ^ (- e)).

Definition fixed (p : nat) (n : Z) : str :=
  digits (n / 10 ^ Z.of_nat p) ++
  match p with
  | O => []
  | _ => 46%N :: zfill p (digits (n mod 10 ^ Z.of_nat p))
  end.

(** [f"{x:.pf}"] for a float [x]: the exact value, correctly rounded to
    [p] decimals. *)
Definition format_float_f (p : nat) (x : float) : str :=
  match x with
  | S754_nan => lit "nan"
  | S754_infinity s => minus_sign s ++ lit "inf"
  | S754_zero s => minus_sign s ++ fixed p 0
  | S754_finite s m e => minus_sign s ++ fixed p (scaled p m e)
  end.

(** [f"{x:.pf}"] for a number: an [int] is converted to [float] first. *)
Definition format_f (p : nat) (x : num) : result str :=
  rbind (to_float x) (fun f => Ok (format_float_f p f)).

(** [round(x)] for a float: nearest integer, ties to even. *)
Definition py_round (x : float) : result Z :=
  match x with
  | S754_zero _ => Ok 0
  | S754_finite s m e => Ok (cond_Zopp s (scaled 0 m e))
  | S754_infinity _ => Raise OverflowError
  | S754_nan => Raise ValueError
  end.

End PyFormat.
Export PyFormat.

(** ** The world of the script *)

(** One step record, the dict built in [add_step]. *)
Record Step := mkStep {
  tool : str;
  command : str;
  tokens : Z;
  duration : float;
  output_len : Z
}.

(** The attributes of a [BenchmarkResult] object. *)
Record BenchmarkResult := mkResult {
  name : str;
  steps : list Step;
  total_tokens : Z;
  total_time : num
}.

(** A reference to a [BenchmarkResult] object: its index in the heap. *)
Definition ref := nat.

Record World := mkWorld {
  stdout : list str;                  (* one entry per [print] call *)
  subprocess_calls : list (str * str); (* [(cwd, command)] of every [subprocess.run] *)
  ticks : nat;                        (* number of [time.time()] calls so far *)
  heap : list BenchmarkResult
}.

Inductive proc_outcome :=
  | Completed (out err : str)   (* the process ran: its stdout and stderr *)
  | Failed (msg : str).         (* [subprocess.run] raised [e], [str(e) = msg] *)

(** What the script does not define. *)
Record Env := mkEnv {
  (* [tiktoken]'s [enc.encode], when the import succeeds; it accepts any text *)
  tiktoken : option (str -> list Z);
  (* [tabulate.tabulate table headers] with [tablefmt="github"], when the import succeeds *)
  tabulate : option (list (list str) -> list str -> str);
  (* [os.path.exists] *)
  path_exists : str -> bool;
  (* the [k]-th call of [subprocess.run], in directory [cwd] *)
  spawn : nat -> str -> str -> proc_outcome;
  (* the value of the [k]-th call of [time.time()] *)
  clock : nat -> float;
  (* the decimal value of a code point that [\d] matches *)
  decimal_digit : char -> option Z;
  (* [sys.get_int_max_str_digits()]: the longest numeral [int()] converts,
     4300 by default since CPython 3.11; [0] when there is no limit *)
  int_max_str_digits : nat
}.

(** Computations of the script: a state and exception monad over [World]. *)
Definition M (A : Type) : Type := World -> result A * World.

Definition ret {A} (a : A) : M A := fun w => (Ok a, w).

Definition bind {A B} (m : M A) (k : A -> M B) : M B :=
  fun w =>
    match m w with
    | (Ok a, w') => k a w'
    | (Raise e, w') => (Raise e, w')
    end.

Definition raise {A} (e : exn) : M A := fun w => (Raise e, w).

Definition lift {A} (r : result A) : M A := fun w => (r, w).

Declare Scope py_scope.
Delimit Scope py_scope with py.
Notation "x <- m ;; k" := (bind m (fun x => k))
  (at level 100, m at next level, right associativity) : py_scope.
Notation "m ;; k" := (bind m (fun _ => k))
  (at level 100, right associativity) : py_scope.
Local Open Scope py_scope.

(** Every exception of the model but [SystemExit] derives from [Exception]. *)
Definition is_Exception (e : exn) : bool :=
  match e with SystemExit _ => false | _ => true end.

(** [str(e)] *)
Definition exn_str (e : exn) : str :=
  match e with
  | ExternalError msg => msg
  | ZeroDivisionError => lit "division by zero"
  | OverflowError => lit "int too large to convert to float"
  | ValueError => lit "cannot convert float NaN to integer"
  | IndexError => lit "list index out of range"
  | SystemExit c => str_of_int c
  end.

(** [try: body  except Exception as e: handler e] *)
Definition try_except {A} (body : M A) (handler : exn -> M A) : M A :=
  fun w =>
    match body w with
    | (Raise e, w') => if is_Exception e then handler e w' else (Raise e, w')
    | r => r
    end.

(** [print(s)] *)
Definition print (s : str) : M unit :=
  fun w => (Ok tt, mkWorld (stdout w ++ [s]) (subprocess_calls w) (ticks w) (heap w)).

(** [time.time()] *)
Definition time_time (env : Env) : M float :=
  fun w => (Ok (clock env (ticks w)),
            mkWorld (stdout w) (subprocess_calls w) (S (ticks w)) (heap w)).

(** [subprocess.run(cmd, shell=True, cwd=cwd, capture_output=True, text=True)] *)
Definition subprocess_run (env : Env) (cmd cwd : str) : M (str * str) :=
  fun w =>
    let w' := mkWorld (stdout w) (subprocess_calls w ++ [(cwd, cmd)]) (ticks w) (heap w) in
    match spawn env (length (subprocess_calls w)) cwd cmd with
    | Completed out err => (Ok (out, err), w')
    | Failed msg => (Raise (ExternalError msg), w')
    end.

(** [sys.exit(code)] *)
Definition sys_exit {A} (code : Z) : M A := raise (SystemExit code).

(** [l[0]] *)
Definition index0 {A} (l : list A) : result A :=
  match l with
  | x :: _ => Ok x
  | [] => Raise IndexError
  end.

(** *** Objects *)

Definition empty_result : BenchmarkResult := mkResult [] [] 0 (PInt 0).

(** Reading the attributes of the object behind [r]. *)
Definition load (r : ref) : M BenchmarkResult :=
  fun w => (Ok (nth r (heap w) empty_result), w).

Fixpoint update {A} (i : nat) (f : A -> A) (l : list A) : list A :=
  match l, i with
  | [], _ => []
  | x :: l', O => f x :: l'
  | x :: l', S i' => x :: update i' f l'
  end.

(** Assigning to attributes of the object behind [r]. *)
Definition modify (r : ref) (f : BenchmarkResult -> BenchmarkResult) : M unit :=
  fun w => (Ok tt, mkWorld (stdout w) (subprocess_calls w) (ticks w) (update r f (heap w))).

(** Allocating a new object. *)
Definition alloc (o : BenchmarkResult) : M ref :=
  fun w => (Ok (length (heap w)),
            mkWorld (stdout w) (subprocess_calls w) (ticks w) (heap w ++ [o])).

(** ** The script *)

(** *** count_tokens (lines 7-17) *)

(** The definition of the [except ImportError] branch. *)
Definition count_tokens_fallback (text : str) : result Z :=
  match text with
  | [] => Ok 0
  | _ => rbind (py_mul (PInt (len (split text))) (PFloat float_1_3)) py_int
  end.

Definition count_tokens (env : Env) (text : str) : result Z :=
  match tiktoken env with
  | Some encode => Ok (len (encode text))
  | None => count_tokens_fallback text
  end.

(** The module-level [try: import tiktoken ... except ImportError: ...]. *)
Definition import_tiktoken (env : Env) : M unit :=
  match tiktoken env with
  | Some _ => print (lit "[System] using tiktoken for counting.")
  | None => print (lit "[System] tiktoken not found, using simple word count approximation (words * 1.3). Install with 'pip install tiktoken'.")
  end.

(** *** class BenchmarkResult (lines 19-37) *)

Definition BenchmarkResult_init (name : str) : M ref :=
  alloc (mkResult name [] 0 (PInt 0)).

Definition append_step (s : Step) (r : BenchmarkResult) : BenchmarkResult :=
  mkResult (name r) (steps r ++ [s]) (total_tokens r) (total_time r).

Definition set_total_tokens (t : Z) (r : BenchmarkResult) : BenchmarkResult :=
  mkResult (name r) (steps r) t (total_time r).

Definition set_total_time (t : num) (r : BenchmarkResult) : BenchmarkResult :=
  mkResult (name r) (steps r) (total_tokens r) t.

Definition add_step (env : Env) (self : ref) (tool command output : str)
    (duration : float) : M unit :=
  tokens <- lift (count_tokens env output) ;;
  modify self (append_step (mkStep tool command tokens duration (len output))) ;;
  modify self (fun r => set_total_tokens (total_tokens r + tokens) r) ;;
  r <- load self ;;
  t <- lift (py_add (total_time r) (PFloat duration)) ;;
  modify self (set_total_time t) ;;
  r <- load self ;;
  print (lit "[Step " ++ str_of_int (len (steps r)) ++ lit "] Tool: " ++ tool ++
         lit ", Tokens: " ++ str_of_int tokens ++
         lit ", Time: " ++ format_float_f 4 duration ++
         lit "s, OutputLen: " ++ str_of_int (len output)).

(** *** class Runner (lines 39-59) *)

Record Runner := mkRunner { cwd : str }.

Definition Runner_init (cwd : str) : M Runner :=
  print (lit "[System] Target Directory: " ++ cwd) ;;
  ret (mkRunner cwd).

Definition run_cmd (env : Env) (self : Runner) (cmd_str : str)
    (result_tracker : ref) : M str :=
  print (lit "Running: " ++ cmd_str) ;;
  start <- time_time env ;;
  output <- try_except
    (res <- subprocess_run env cmd_str (cwd self) ;;
     let output := fst res in
     ret (match snd res with
          | [] => output
          | _ => output ++ (newline :: lit "[STDERR]") ++ [newline] ++ snd res
          end))
    (fun e => ret (exn_str e)) ;;
  stop <- time_time env ;;
  let duration := fsub stop start in
  tool_name <- lift (index0 (split cmd_str)) ;;
  add_step env result_tracker tool_name cmd_str output duration ;;
  ret output.

(** *** run_baseline (lines 61-104) *)

Definition rule : str := replicate 42 61%N.

Definition target_name : str := lit "SysUserServiceImpl.java".

Definition default_target_file : str :=
  lit "ruoyi-system/src/main/java/com/ruoyi/system/service/impl/SysUserServiceImpl.java".

Definition caller_file : str :=
  lit "ruoyi-admin/src/main/java/com/ruoyi/web/controller/system/SysUserController.java".

(** The longest prefix of decimal digits, as their values, and the rest. *)
Fixpoint span_digits (env : Env) (s : str) : list Z * str :=
  match s with
  | c :: s' =>
      match decimal_digit env c with
      | Some d => let '(ds, rest) := span_digits env s' in (d :: ds, rest)
      | None => ([], s)
      end
  | [] => ([], [])
  end.

(** [re.search(r'^(\d+):', out)]: the digits of group 1, as their values,
    when the text starts with decimal digits followed by a colon. *)
Definition match_line_num (env : Env) (out : str) : option (list Z) :=
  match span_digits env out with
  | (d :: ds, 58%N :: _) => Some (d :: ds)
  | _ => None
  end.

(** Whether [int()] refuses a string of [k] decimal digits: CPython checks
    strings of more than 640 digits against the limit of the interpreter,
    when there is one; leading zeros count. *)
Definition int_refuses (env : Env) (k : nat) : bool :=
  ((640 <? k) && negb (int_max_str_digits env =? 0) && (int_max_str_digits env <? k))%nat.

(** [int(s)] for a string [s] of decimal digits, given by their values. *)
Definition int_of_digits (env : Env) (ds : list Z) : result Z :=
  if int_refuses env (length ds) then Raise ValueError
  else Ok (fold_left (fun a x => 10 * a + x) ds 0).

(** Lines 83-86: the value of [line_num], [1] without a match. *)
Definition search_line_num (env : Env) (out : str) : result Z :=
  match match_line_num env out with
  | Some ds => int_of_digits env ds
  | None => Ok 1
  end.

(** The list comprehension of line 72. *)
Definition matching_paths (out1 : str) : list str :=
  filter (fun line => endswith (strip line) target_name) (split_on newline out1).

Definition run_baseline (env : Env) (runner : Runner) : M ref :=
  print (newline :: rule) ;;
  print (lit "  Starting Group A (Baseline: grep/ls/cat)") ;;
  print rule ;;
  res <- BenchmarkResult_init (lit "Baseline (grep/cat)") ;;
  print (lit ">>> Goal: Find 'SysUserServiceImpl.java'") ;;
  out1 <- run_cmd env runner (lit "find . -name SysUserServiceImpl.java") res ;;
  let paths := matching_paths out1 in
  target_file <-
    match paths with
    | [] => print (lit "!! File not found, using default assumption.") ;;
            ret default_target_file
    | p :: _ => ret (strip p)
    end ;;
  print (lit ">>> Goal: Find definition of 'selectUserList' in " ++ target_file) ;;
  out2 <- run_cmd env runner
            (lit "grep -n 'List<SysUser> selectUserList' " ++ target_file) res ;;
  line_num <- lift (search_line_num env out2) ;;
  print (lit ">>> Goal: Read file content " ++ target_file) ;;
  run_cmd env runner (lit "cat " ++ target_file) res ;;
  print (lit ">>> Goal: Find callers of 'selectUserList' in project") ;;
  run_cmd env runner (lit "grep -r 'selectUserList' . | head -n 20") res ;;
  print (lit ">>> Goal: Read caller context in " ++ caller_file) ;;
  run_cmd env runner (lit "cat " ++ caller_file) res ;;
  ret res.

(** *** run_git_ai (lines 106-131) *)

Definition run_git_ai (env : Env) (runner : Runner) : M ref :=
  print (newline :: rule) ;;
  print (lit "  Starting Group B (Experimental: git-ai)") ;;
  print rule ;;
  res <- BenchmarkResult_init (lit "Experimental (git-ai)") ;;
  print (lit ">>> Goal: Find definition of 'selectUserList' in 'SysUserServiceImpl'") ;;
  run_cmd env runner (lit "git-ai ai query 'SysUserServiceImpl selectUserList'") res ;;
  print (lit ">>> Goal: Find callers of 'selectUserList'") ;;
  run_cmd env runner (lit "git-ai ai graph callers selectUserList") res ;;
  print (lit ">>> Goal: Analyze call chain") ;;
  run_cmd env runner (lit "git-ai ai graph chain selectUserList") res ;;
  print (lit ">>> Goal: Semantic search for logic summary") ;;
  run_cmd env runner
    (lit "git-ai ai semantic 'How does selectUserList work in SysUserServiceImpl?' --topk 2")
    res ;;
  ret res.

(** *** print_report (lines 133-181) *)

(** The values computed by lines 141-163. *)
Record Metrics := mkMetrics {
  base_tok : Z;  exp_tok : Z;  diff_tok : num;
  base_steps : Z;  exp_steps : Z;  diff_steps : num;
  base_density : num;  exp_density : num;  diff_density : num
}.

Definition report_metrics (baseline experimental : BenchmarkResult) : result Metrics :=
  let base_tok := total_tokens baseline in
  let exp_tok := total_tokens experimental in
  rbind (if py_gt (PInt base_tok) (PInt 0)
         then rbind (py_sub (PInt exp_tok) (PInt base_tok)) (fun d =>
              rbind (py_truediv d (PInt base_tok)) (fun q => py_mul q (PInt 100)))
         else Ok (PInt 0)) (fun diff_tok =>
  let base_steps := len (steps baseline) in
  let exp_steps := len (steps experimental) in
  rbind (if py_gt (PInt base_steps) (PInt 0)
         then rbind (py_sub (PInt exp_steps) (PInt base_steps)) (fun d =>
              rbind (py_truediv d (PInt base_steps)) (fun q => py_mul q (PInt 100)))
         else Ok (PInt 0)) (fun diff_steps =>
  rbind (if py_gt (PInt base_steps) (PInt 0)
         then py_truediv (PInt base_tok) (PInt base_steps)
         else Ok (PInt 0)) (fun base_density =>
  rbind (if py_gt (PInt exp_steps) (PInt 0)
         then py_truediv (PInt exp_tok) (PInt exp_steps)
         else Ok (PInt 0)) (fun exp_density =>
  rbind (if py_gt base_density (PInt 0)
         then rbind (py_sub exp_density base_density) (fun d =>
              rbind (py_truediv d base_density) (fun q => py_mul q (PInt 100)))
         else Ok (PInt 0)) (fun diff_density =>
  Ok (mkMetrics base_tok exp_tok diff_tok base_steps exp_steps diff_steps
        base_density exp_density diff_density)))))).

Definition percent : str := [37%N].

Definition headers : list str :=
  [lit "Metric"; lit "Baseline (grep/cat)"; lit "Experimental (git-ai)"; lit "Improvement"].

(** The four rows, as both branches of the [try] build them. *)
Definition row_tokens (m : Metrics) : result (list str) :=
  rbind (format_f 1 (diff_tok m)) (fun d =>
  Ok [lit "Total Search Tokens"; format_int_commas (base_tok m);
      format_int_commas (exp_tok m); d ++ percent]).

Definition row_steps (m : Metrics) : result (list str) :=
  rbind (format_f 1 (diff_steps m)) (fun d =>
  Ok [lit "Steps to Solution"; str_of_int (base_steps m);
      str_of_int (exp_steps m); d ++ percent]).

Definition row_density (m : Metrics) : result (list str) :=
  rbind (format_f 1 (base_density m)) (fun b =>
  rbind (format_f 1 (exp_density m)) (fun e =>
  rbind (format_f 1 (diff_density m)) (fun d =>
  Ok [lit "Avg Tokens/Step"; b; e; d ++ percent]))).

Definition row_time (baseline experimental : BenchmarkResult) : result (list str) :=
  rbind (format_f 2 (total_time baseline)) (fun b =>
  rbind (format_f 2 (total_time experimental)) (fun e =>
  rbind (py_sub (total_time experimental) (total_time baseline)) (fun d =>
  rbind (format_f 2 d) (fun ds =>
  Ok [lit "Total Time (s)"; b; e; ds ++ lit "s"])))).

(** [row_format.format(a, b, c, d)] with
    [row_format = "{:<25} | {:<20} | {:<20} | {:<15}"]. *)
Definition row_format (cells : list str) : str :=
  ljust 25 (nth 0 cells []) ++ lit " | " ++ ljust 20 (nth 1 cells []) ++ lit " | " ++
  ljust 20 (nth 2 cells []) ++ lit " | " ++ ljust 15 (nth 3 cells []).

Definition print_report (env : Env) (baseline experimental : BenchmarkResult) : M unit :=
  print [newline; newline] ;;
  print (replicate 54 35%N) ;;
  print (lit "#                  BENCHMARK REPORT                  #") ;;
  print (replicate 54 35%N) ;;
  m <- lift (report_metrics baseline experimental) ;;
  match tabulate env with
  | Some tabulate =>
      r1 <- lift (row_tokens m) ;;
      r2 <- lift (row_steps m) ;;
      r3 <- lift (row_density m) ;;
      r4 <- lift (row_time baseline experimental) ;;
      print (tabulate [r1; r2; r3; r4] headers)
  | None =>
      print (row_format headers) ;;
      print (replicate 90 45%N) ;;
      r1 <- lift (row_tokens m) ;;
      print (row_format r1) ;;
      r2 <- lift (row_steps m) ;;
      print (row_format r2) ;;
      r3 <- lift (row_density m) ;;
      print (row_format r3) ;;
      r4 <- lift (row_time baseline experimental) ;;
      print (row_format r4)
  end.

(** *** The main entry (lines 183-200) *)

Definition default_target_dir : str := lit "/Users/mars/dev/ruoyi".

(** [sys.argv[1]] when present, else the default. *)
Definition target_dir_of (argv : list str) : str :=
  if 1 <? len argv then nth 1 argv [] else default_target_dir.

Definition main (env : Env) (argv : list str) : M unit :=
  let target_dir := target_dir_of argv in
  (if negb (path_exists env target_dir)
   then print (lit "Error: Target directory " ++ target_dir ++ lit " does not exist.") ;;
        sys_exit 1
   else ret tt) ;;
  runner <- Runner_init target_dir ;;
  base_res <- run_baseline env runner ;;
  exp_res <- run_git_ai env runner ;;
  b <- load base_res ;;
  e <- load exp_res ;;
  print_report env b e.

(** The whole script: the module-level import, then the main entry. *)
Definition script (env : Env) (argv : list str) : M unit :=
  import_tiktoken env ;;
  main env argv.

(** The world in which the interpreter starts. *)
Definition initial_world : World := mkWorld [] [] 0 [].

(** ** Concrete environments, for evaluating the script *)

Definition ascii_digit (c : char) : option Z :=
  if ((48 <=? c) && (c <=? 57))%N then Some (Z.of_N c - 48) else None.

(** The [k]-th reading of the clock is [k / 4] seconds. *)
Definition quarter_clock (k : nat) : float :=
  match int_truediv (Z.of_nat k) 4 with
  | Ok f => f
  | Raise _ => S754_zero false
  end.

(** No optional library; every path exists; [find] locates the file and
    [grep -n] finds the method; the [git-ai] executable is missing. *)
Definition demo_spawn (k : nat) (cwd cmd : str) : proc_outcome :=
  match k with
  | 0%nat => Completed (lit "./ruoyi-system/src/SysUserServiceImpl.java" ++ [newline]) []
  | 1%nat => Completed (lit "87:    public List<SysUser> selectUserList(SysUser user)" ++ [newline]) []
  | 2%nat => Completed (lit "package com.ruoyi.system.service.impl;") []
  | 3%nat => Completed [] (lit "grep: ./x: Permission denied")
  | 4%nat => Completed (lit "public class SysUserController") []
  | _ => Completed [] (lit "/bin/sh: 1: git-ai: not found" ++ [newline])
  end.

Definition demo_env : Env :=
  mkEnv None None (fun _ => true) demo_spawn quarter_clock ascii_digit 4300.

(** An empty directory tree: every command prints nothing. *)
Definition empty_env : Env :=
  mkEnv None None (fun _ => true) (fun _ _ _ => Completed [] []) quarter_clock ascii_digit
    4300.

(** No process can be started at all; nothing exists. *)
Definition broken_env : Env :=
  mkEnv None None (fun _ => false)
    (fun _ _ _ => Failed (lit "[Errno 2] No such file or directory"))
    quarter_clock ascii_digit 4300.

(** Every path exists and every command prints nothing, but the second
    one, [grep -n], which prints a run of 4301 digits and a colon. *)
Definition long_numeral_env : Env :=
  mkEnv None None (fun _ => true)
    (fun k _ _ =>
       match k with
       | 1%nat => Completed (repeat 49%N 4301 ++ lit ":") []
       | _ => Completed [] []
       end)
    quarter_clock ascii_digit 4300.

(** ** Vocabulary of the specification *)

(** [sys.maxsize]: no Python string or list is longer. *)
Definition sys_maxsize : Z := 2 ^ 63 - 1.

(** A finite float of sign [sx] and magnitude below [2^k]. *)
Definition bounded_by (k : Z) (sx : bool) (f : float) : Prop :=
  match f with
  | S754_zero s => s = sx
  | S754_finite s m e => s = sx /\ Zdigits2 (Zpos m) + e <= k
  | _ => False
  end.

(** The result of rounding the mantissa [mx] at exponent [ex], of
    magnitude below [2^K]: it is [mx] shifted right to the exponent [e],
    up to one unit in the last place. *)
Definition rounded (sx : bool) (mx ex K : Z) (f : float) : Prop :=
  match f with
  | S754_zero s => s = sx /\ mx < 2 ^ (Z.max ex (Z.max (K - 52) (-1074)) - ex)
  | S754_finite s m e =>
      s = sx /\
      Zdigits2 (Zpos m) + e <= K + 1 /\
      ex <= e <= Z.max ex (Z.max (K - 52) (-1074)) /\
      mx / 2 ^ (e - ex) <= Zpos m <= mx / 2 ^ (e - ex) + 1
  | _ => False
  end.

(** The number of whitespace-delimited words: the positions where a word
    starts.  [in_word] tells whether the previous character was part of a
    word. *)
Fixpoint word_starts (in_word : bool) (s : str) : nat :=
  match s with
  | [] => O
  | c :: s' =>
      if isspace c then word_starts false s'
      else ((if in_word then 0 else 1) + word_starts true s')%nat
  end.

Definition word_count (s : str) : Z := Z.of_nat (word_starts false s).

Definition nonspace (c : char) : bool := negb (isspace c).

(** [w] is the first whitespace-delimited token of [s]: only whitespace
    comes before it, it has no whitespace, and it ends at a whitespace
    or at the end of [s]. *)
Definition is_first_token (s w : str) : Prop :=
  exists pre post,
    s = pre ++ w ++ post /\
    forallb isspace pre = true /\
    w <> [] /\
    forallb nonspace w = true /\
    match post with
    | [] => True
    | c :: _ => isspace c = true
    end.

(** The text [run_cmd] captures from an outcome of [subprocess.run]. *)
Definition captured (o : proc_outcome) : str :=
  match o with
  | Completed out [] => out
  | Completed out err => out ++ (newline :: lit "[STDERR]") ++ [newline] ++ err
  | Failed msg => msg
  end.

(** The outcomes of the environment respect the limit on string sizes. *)
Definition env_wf (env : Env) : Prop :=
  forall k cwd cmd, len (captured (spawn env k cwd cmd)) <= sys_maxsize.

(** The object behind a reference. *)
Definition tracker_at (r : ref) (w : World) : BenchmarkResult :=
  nth r (heap w) empty_result.

(** [sum(...)] as Python computes it: from [0], left to right. *)
Definition sum_tokens (l : list Z) : Z := fold_left Z.add l 0.

Definition sum_durations (l : list float) : result num :=
  fold_left (fun acc d => rbind acc (fun a => py_add a (PFloat d))) l (Ok (PInt 0)).

(** The invariant of a tracker. *)
Definition tracker_inv (t : BenchmarkResult) : Prop :=
  total_tokens t = sum_tokens (map tokens (steps t)) /\
  sum_durations (map duration (steps t)) = Ok (total_time t).

(** One call of [add_step]: its arguments. *)
Record Call := mkCall {
  c_tool : str;
  c_command : str;
  c_output : str;
  c_duration : float
}.

(** A sequence of [add_step] calls on the same tracker; a call that raises
    leaves the world as it is at the [raise]. *)
Definition run_calls (env : Env) (self : ref) (calls : list Call) (w : World) : World :=
  fold_left
    (fun w c => snd (add_step env self (c_tool c) (c_command c) (c_output c) (c_duration c) w))
    calls w.

(** The step a call records, when its token count can be computed. *)
Definition step_of (env : Env) (c : Call) : list Step :=
  match count_tokens env (c_output c) with
  | Ok n => [mkStep (c_tool c) (c_command c) n (c_duration c) (len (c_output c))]
  | Raise _ => []
  end.

(** The commands of the two drivers. *)
Definition baseline_commands (target_file : str) : list str :=
  [lit "find . -name SysUserServiceImpl.java";
   lit "grep -n 'List<SysUser> selectUserList' " ++ target_file;
   lit "cat " ++ target_file;
   lit "grep -r 'selectUserList' . | head -n 20";
   lit "cat ruoyi-admin/src/main/java/com/ruoyi/web/controller/system/SysUserController.java"].

Definition git_ai_commands : list str :=
  [lit "git-ai ai query 'SysUserServiceImpl selectUserList'";
   lit "git-ai ai graph callers selectUserList";
   lit "git-ai ai graph chain selectUserList";
   lit "git-ai ai semantic 'How does selectUserList work in SysUserServiceImpl?' --topk 2"].

(** What the first command of the baseline driver captures in world [w]. *)
Definition find_output (env : Env) (runner : Runner) (w : World) : str :=
  captured (spawn env (length (subprocess_calls w)) (cwd runner)
              (lit "find . -name SysUserServiceImpl.java")).

(** The file the baseline driver works on. *)
Definition baseline_target (env : Env) (runner : Runner) (w : World) : str :=
  match matching_paths (find_output env runner w) with
  | [] => default_target_file
  | p :: _ => strip p
  end.

(** What the second command of the baseline driver, [grep -n], captures
    when the driver starts in world [w]. *)
Definition grep_output (env : Env) (runner : Runner) (w : World) : str :=
  captured (spawn env (S (length (subprocess_calls w))) (cwd runner)
              (lit "grep -n 'List<SysUser> selectUserList' " ++
               baseline_target env runner w)).

(** The commands the baseline driver has issued when it reads the line
    number. *)
Definition baseline_commands_2 (target_file : str) : list str :=
  [lit "find . -name SysUserServiceImpl.java";
   lit "grep -n 'List<SysUser> selectUserList' " ++ target_file].

(** An exception other than [SystemExit]. *)
Definition not_exit {A} (r : result A) : Prop :=
  match r with
  | Raise (SystemExit _) => False
  | _ => True
  end.

Definition not_zero_division {A} (r : result A) : Prop :=
  match r with
  | Raise ZeroDivisionError => False
  | _ => True
  end.

(** A total time that [add_step] can add a float to: the initial [0] or
    a float. *)
Definition time_ok (t : num) : bool :=
  match t with
  | PInt 0 | PFloat _ => true
  | PInt _ => false
  end.

Definition time_float (t : num) : float :=
  match t with
  | PFloat f => f
  | PInt _ => S754_zero false
  end.

(** The effect of a successful [add_step] on the attributes. *)
Definition record_step (s : Step) (b : BenchmarkResult) : BenchmarkResult :=
  mkResult (name b) (steps b ++ [s]) (total_tokens b + tokens s)
    (PFloat (fadd (time_float (total_time b)) (duration s))).

(** The progress line of [add_step] for the [n]-th step. *)
Definition step_line (n : Z) (s : Step) : str :=
  lit "[Step " ++ str_of_int n ++ lit "] Tool: " ++ tool s ++
  lit ", Tokens: " ++ str_of_int (tokens s) ++
  lit ", Time: " ++ format_float_f 4 (duration s) ++
  lit "s, OutputLen: " ++ str_of_int (output_len s).

(** What [run_cmd] captures for [cmd] in world [w]. *)
Definition cmd_output (env : Env) (self : Runner) (cmd : str) (w : World) : str :=
  captured (spawn env (length (subprocess_calls w)) (cwd self) cmd).

(** The step [run_cmd] records for [cmd] in world [w]. *)
Definition step_for (env : Env) (self : Runner) (cmd : str) (w : World) : Step :=
  mkStep (hd [] (split cmd)) cmd
    (match count_tokens env (cmd_output env self cmd w) with
     | Ok n => n
     | Raise _ => 0
     end)
    (fsub (clock env (S (ticks w))) (clock env (ticks w)))
    (len (cmd_output env self cmd w)).

(** The world after a [run_cmd] that returns. *)
Definition after_cmd (env : Env) (self : Runner) (cmd : str) (r : ref) (w : World) : World :=
  mkWorld
    (stdout w ++ [lit "Running: " ++ cmd;
                  step_line (len (steps (tracker_at r w)) + 1) (step_for env self cmd w)])
    (subprocess_calls w ++ [(cwd self, cmd)])
    (S (S (ticks w)))
    (update r (record_step (step_for env self cmd w)) (heap w)).

(** A driver at work: since world [w0] it has created the tracker [r] and
    issued the commands [cmds], in directory [dir]. *)
Definition progress (dir : str) (w0 : World) (r : ref) (cmds : list str)
    (w : World) : Prop :=
  r = length (heap w0) /\
  length (heap w) = S (length (heap w0)) /\
  subprocess_calls w = subprocess_calls w0 ++ map (pair dir) cmds /\
  map command (steps (tracker_at r w)) = cmds /\
  Forall2 is_first_token cmds (map tool (steps (tracker_at r w))) /\
  tracker_inv (tracker_at r w) /\
  (forall r', (r' < length (heap w0))%nat -> tracker_at r' w = tracker_at r' w0).

(** The percentage change of [exp] relative to [base], the expression of
    lines 144, 149 and 163:
    [(exp - base) / base * 100 if base > 0 else 0]. *)
Definition pct_change (base exp : num) : result num :=
  if py_gt base (PInt 0)
  then rbind (py_sub exp base) (fun d =>
       rbind (py_truediv d base) (fun q => py_mul q (PInt 100)))
  else Ok (PInt 0).

(** A result that is a value or an [OverflowError]. *)
Definition only_overflow {A} (r : result A) : Prop :=
  match r with
  | Ok _ | Raise OverflowError => True
  | Raise _ => False
  end.

(** A computation that only prints: it starts no process, touches no
    object, does not read the clock, and raises at most [OverflowError]. *)
Definition prints_only {A} (m : M A) : Prop :=
  forall w,
    only_overflow (fst (m w)) /\
    subprocess_calls (snd (m w)) = subprocess_calls w /\
    heap (snd (m w)) = heap w /\
    ticks (snd (m w)) = ticks w /\
    exists lines, stdout (snd (m w)) = stdout w ++ lines.

(** The token counter as the testable property words it:
    [round(word_count * 1.3)], and [0] on the empty text. *)
Definition count_tokens_rounded (text : str) : result Z :=
  match text with
  | [] => Ok 0
  | _ => rbind (int_to_float (word_count text)) (fun f => py_round (fmul f float_1_3))
  end.

(** Two trackers with token counts [100, 200, 50] and [30, 40]. *)
Definition baseline_example : BenchmarkResult :=
  mkResult (lit "Baseline (grep/cat)")
    [mkStep (lit "find") (lit "find . -name A.java") 100 (quarter_clock 1) 412;
     mkStep (lit "grep") (lit "grep -n f A.java") 200 (quarter_clock 2) 830;
     mkStep (lit "cat") (lit "cat A.java") 50 (quarter_clock 3) 207]
    350 (PFloat (quarter_clock 6)).

Definition experimental_example : BenchmarkResult :=
  mkResult (lit "Experimental (git-ai)")
    [mkStep (lit "git-ai") (lit "git-ai ai query f") 30 (quarter_clock 1) 120;
     mkStep (lit "git-ai") (lit "git-ai ai graph callers f") 40 (quarter_clock 1) 161]
    70 (PFloat (quarter_clock 2)).

(** A world with one freshly created tracker, at reference [0]. *)
Definition fresh_world : World :=
  snd (BenchmarkResult_init (lit "Baseline (grep/cat)") initial_world).

(** ** Vocabulary of the further properties *)

(** A float of sign [sx]: a zero, a finite float or an infinity, not a NaN. *)
Definition has_sign (sx : bool) (f : float) : Prop :=
  match f with
  | S754_zero s | S754_infinity s | S754_finite s _ _ => s = sx
  | S754_nan => False
  end.

(** The progress lines of consecutive steps, the first numbered [n]. *)
Fixpoint numbered_lines (n : Z) (l : list Step) : list str :=
  match l with
  | [] => []
  | s :: l' => step_line n s :: numbered_lines (n + 1) l'
  end.

(** A tracker as the drivers leave it: the total time is the initial [0]
    or a float, and the counts are far below the range of floats. *)
Definition reportable (t : BenchmarkResult) : Prop :=
  time_ok (total_time t) = true /\
  Z.abs (total_tokens t) < 2 ^ 970 /\
  len (steps t) <= sys_maxsize.

(** The tokenizer of the environment returns Python lists: no longer than
    [sys.maxsize]. *)
Definition encoder_wf (env : Env) : Prop :=
  forall enc text, tiktoken env = Some enc -> len (enc text) <= sys_maxsize.

(** Every recorded token count is in the range of [count_tokens] on a
    Python string. *)
Definition tokens_bounded (w : World) : Prop :=
  forall r, Forall (fun s => 0 <= tokens s < 2 ^ 66) (steps (tracker_at r w)).

(** A computation that keeps a property of the world, whatever its outcome. *)
Definition preserves (I : World -> Prop) {A} (m : M A) : Prop :=
  forall w, I w -> I (snd (m w)).

(** The values of the digits of a decimal numeral. *)
Fixpoint uint_values (u : Decimal.uint) : list Z :=
  match u with
  | Decimal.Nil => []
  | Decimal.D0 u => 0 :: uint_values u
  | Decimal.D1 u => 1 :: uint_values u
  | Decimal.D2 u => 2 :: uint_values u
  | Decimal.D3 u => 3 :: uint_values u
  | Decimal.D4 u => 4 :: uint_values u
  | Decimal.D5 u => 5 :: uint_values u
  | Decimal.D6 u => 6 :: uint_values u
  | Decimal.D7 u => 7 :: uint_values u
  | Decimal.D8 u => 8 :: uint_values u
  | Decimal.D9 u => 9 :: uint_values u
  end.

(** The environment reads the ASCII digits as [\d] does, and the colon
    is no digit. *)
Definition ascii_digits (env : Env) : Prop :=
  (forall c, (48 <= c <= 57)%N -> decimal_digit env c = Some (Z.of_N c - 48)) /\
  decimal_digit env 58%N = None.


(** The lines of the report for the four rows [rows]: the banner, then
    the table as the table library renders it, or the header, the rule
    and the four formatted rows. *)
Definition report_lines (env : Env) (rows : list (list str)) : list str :=
  [[newline; newline]; replicate 54 35%N;
   lit "#                  BENCHMARK REPORT                  #"; replicate 54 35%N] ++
  match tabulate env with
  | Some tabulate => [tabulate rows headers]
  | None => row_format headers :: replicate 90 45%N :: map row_format rows
  end.

(** * Properties *)

(** ** Floats: rounding stays in range *)

Section Rounding.

Lemma digits2_pos_log2 p : Zpos (digits2_pos p) = Z.log2 (Zpos p) + 1.
Proof.
  induction p as [p IH | p IH | ]; simpl digits2_pos.
  - rewrite Pos2Z.inj_succ, IH. simpl Z.log2. destruct p; simpl; lia.
  - rewrite Pos2Z.inj_succ, IH. simpl Z.log2. destruct p; simpl; lia.
  - reflexivity.
Qed.

(** [Zdigits2 m <= k] exactly when [m < 2^k]. *)
Lemma Zdigits2_le m k : 0 <= m -> 0 <= k -> (Zdigits2 m <= k <-> m < 2 ^ k).
Proof.
  intros Hm Hk. destruct m as [| p | p]; try lia.
  - simpl. split; intros _; [apply Z.pow_pos_nonneg|]; lia.
  - simpl Zdigits2. rewrite digits2_pos_log2.
    rewrite (Z.log2_lt_pow2 (Zpos p) k) by lia. lia.
Qed.

Lemma Zdigits2_nonneg m : 0 <= Zdigits2 m.
Proof. destruct m; simpl; lia. Qed.

Lemma Zdigits2_mono a b : 0 <= a <= b -> Zdigits2 a <= Zdigits2 b.
Proof.
  intros H. assert (0 <= Zdigits2 b) by apply Zdigits2_nonneg.
  apply Zdigits2_le; try lia.
  assert (Hb : Zdigits2 b <= Zdigits2 b) by lia.
  apply Zdigits2_le in Hb; lia.
Qed.

Lemma Zdigits2_succ m k : 0 <= m -> Zdigits2 m <= k -> Zdigits2 (m + 1) <= k + 1.
Proof.
  intros Hm Hk. assert (0 <= k) by (pose proof (Zdigits2_nonneg m); lia).
  apply Zdigits2_le; try lia. apply Zdigits2_le in Hk; try lia.
  rewrite Z.pow_add_r by lia. change (2 ^ 1) with 2. lia.
Qed.

Lemma Zdigits2_div_pow2 m n k : 0 <= m -> 0 <= n ->
  Zdigits2 m <= k -> Zdigits2 (m / 2 ^ n) <= Z.max 0 (k - n).
Proof.
  intros Hm Hn Hk.
  assert (0 <= Zdigits2 m) by apply Zdigits2_nonneg.
  apply Zdigits2_le; try lia.
  { apply Z.div_pos; [lia | apply Z.pow_pos_nonneg; lia]. }
  apply Zdigits2_le in Hk; try lia.
  apply Z.div_lt_upper_bound; [apply Z.pow_pos_nonneg; lia|].
  destruct (Z.le_gt_cases n k).
  - rewrite Z.max_r by lia. rewrite <- Z.pow_add_r by lia.
    replace (n + (k - n)) with k by lia. exact Hk.
  - rewrite Z.max_l by lia. rewrite Z.mul_1_r.
    eapply Z.lt_le_trans; [exact Hk|]. apply Z.pow_le_mono_r; lia.
Qed.

Lemma Zdigits2_mul a b : 0 <= a -> 0 <= b ->
  Zdigits2 (a * b) <= Zdigits2 a + Zdigits2 b.
Proof.
  intros Ha Hb.
  pose proof (Zdigits2_nonneg a). pose proof (Zdigits2_nonneg b).
  apply Zdigits2_le; try lia.
  assert (Ea : a < 2 ^ Zdigits2 a) by (apply Zdigits2_le; lia).
  assert (Eb : b < 2 ^ Zdigits2 b) by (apply Zdigits2_le; lia).
  rewrite Z.pow_add_r by lia. nia.
Qed.

Lemma shr_1_m mrs : 0 <= shr_m mrs -> shr_m (shr_1 mrs) = shr_m mrs / 2.
Proof.
  destruct mrs as [m r s]. simpl. intros Hm.
  destruct m as [| [p | p |] | p]; try lia; simpl shr_m.
  - reflexivity.
  - rewrite Pos2Z.inj_xI. apply Z.div_unique with 1; lia.
  - rewrite Pos2Z.inj_xO. apply Z.div_unique with 0; lia.
  - reflexivity.
Qed.

Lemma iter_shr_1_m p : forall mrs, 0 <= shr_m mrs ->
  shr_m (SpecFloat.iter_pos shr_1 p mrs) = shr_m mrs / 2 ^ Zpos p.
Proof.
  assert (Hpow : forall q, 0 < 2 ^ Zpos q) by (intros; apply Z.pow_pos_nonneg; lia).
  induction p as [p IH | p IH |]; intros mrs Hm; simpl SpecFloat.iter_pos.
  - assert (E : 2 ^ Zpos p~1 = 2 * 2 ^ Zpos p * 2 ^ Zpos p).
    { rewrite <- Z.pow_succ_r, <- Z.pow_add_r by lia. f_equal. lia. }
    assert (H1 : 0 <= shr_m (shr_1 mrs)) by (rewrite shr_1_m by lia; apply Z.div_pos; lia).
    assert (H2 : 0 <= shr_m (SpecFloat.iter_pos shr_1 p (shr_1 mrs)))
      by (rewrite IH by lia; apply Z.div_pos; [lia | apply Hpow]).
    rewrite IH, IH, shr_1_m by lia.
    specialize (Hpow p).
    rewrite !Z.div_div by lia. rewrite E. f_equal. lia.
  - assert (E : 2 ^ Zpos p~0 = 2 ^ Zpos p * 2 ^ Zpos p).
    { rewrite <- Z.pow_add_r by lia. f_equal. lia. }
    assert (H2 : 0 <= shr_m (SpecFloat.iter_pos shr_1 p mrs))
      by (rewrite IH by lia; apply Z.div_pos; [lia | apply Hpow]).
    rewrite IH, IH by lia.
    specialize (Hpow p).
    rewrite !Z.div_div by lia. rewrite E. reflexivity.
  - rewrite shr_1_m by lia. reflexivity.
Qed.

Lemma shr_record_of_loc_m m l : shr_m (shr_record_of_loc m l) = m.
Proof. destruct l as [| []]; reflexivity. Qed.

(** The mantissa and the exponent after [shr_fexp]. *)
Lemma shr_fexp_m m e l : 0 <= m ->
  let n := fexp prec emax (Zdigits2 m + e) - e in
  shr_fexp prec emax m e l =
    (fst (shr_fexp prec emax m e l), if 0 <? n then e + n else e) /\
  shr_m (fst (shr_fexp prec emax m e l)) = if 0 <? n then m / 2 ^ n else m.
Proof.
  intros Hm n. unfold shr_fexp. fold n. unfold shr.
  destruct n as [| p | p]; simpl; rewrite ?shr_record_of_loc_m; auto.
  split; [reflexivity|]. rewrite iter_shr_1_m by (rewrite shr_record_of_loc_m; lia).
  rewrite shr_record_of_loc_m. reflexivity.
Qed.

Lemma round_nearest_even_bounds m l : m <= round_nearest_even m l <= m + 1.
Proof. destruct l as [| []]; simpl; try destruct (Z.even m); lia. Qed.

Lemma div_succ_le a b : 0 <= a -> 0 < b -> (a + 1) / b <= a / b + 1.
Proof.
  intros Ha Hb.
  apply Z.div_le_upper_bound; [lia|].
  pose proof (Z.mul_div_le a b Hb). pose proof (Z.mod_pos_bound a b Hb).
  pose proof (Z.div_mod a b ltac:(lia)). nia.
Qed.

(** Rounding a mantissa of magnitude below [2^K], [K <= 971]: the result
    is the mantissa shifted right, up to one unit in the last place. *)
Lemma binary_round_aux_approx sx mx ex lx K :
  0 <= mx -> Zdigits2 mx + ex <= K -> -1074 <= K <= 971 ->
  rounded sx mx ex K (binary_round_aux prec emax sx mx ex lx).
Proof.
  intros Hm HD HK. unfold binary_round_aux.
  destruct (shr_fexp_m mx ex lx Hm) as [E1 M1]. cbv zeta in E1, M1.
  set (n1 := fexp prec emax (Zdigits2 mx + ex) - ex) in *.
  rewrite E1. set (mrs1 := fst (shr_fexp prec emax mx ex lx)) in *.
  set (e1 := if 0 <? n1 then ex + n1 else ex) in *.
  set (m1 := round_nearest_even (shr_m mrs1) (loc_of_shr_record mrs1)).
  pose proof (round_nearest_even_bounds (shr_m mrs1) (loc_of_shr_record mrs1)) as Hr.
  fold m1 in Hr.
  assert (Hn1 : n1 = Z.max (Zdigits2 mx + ex - 53) (-1074) - ex) by reflexivity.
  assert (He1 : ex <= e1 /\ shr_m mrs1 = mx / 2 ^ (e1 - ex)).
  { rewrite M1. unfold e1. destruct (Z.ltb_spec 0 n1).
    - split; [lia|]. f_equal. f_equal. lia.
    - rewrite Z.sub_diag, Z.div_1_r. split; [lia | reflexivity]. }
  destruct He1 as [He1 Hs1].
  assert (Hm1' : 0 <= shr_m mrs1).
  { rewrite Hs1. apply Z.div_pos; [lia | apply Z.pow_pos_nonneg; lia]. }
  assert (Hm1 : 0 <= m1) by lia.
  assert (Hd1 : Zdigits2 m1 + e1 <= K + 1 /\ e1 <= Z.max ex (Z.max (K - 53) (-1074))).
  { assert (Zdigits2 m1 <= Zdigits2 (shr_m mrs1 + 1)) by (apply Zdigits2_mono; lia).
    pose proof (Zdigits2_nonneg mx).
    pose proof (Zdigits2_succ (shr_m mrs1) (Zdigits2 (shr_m mrs1)) Hm1' ltac:(lia)).
    assert (Zdigits2 (shr_m mrs1) + e1 <= K /\ e1 <= Z.max ex (Z.max (K - 53) (-1074)));
      [|lia].
    rewrite M1. unfold e1. destruct (Z.ltb_spec 0 n1); [|lia].
    pose proof (Zdigits2_div_pow2 mx n1 (Zdigits2 mx) Hm ltac:(lia) ltac:(lia)). lia. }
  destruct (shr_fexp_m m1 e1 loc_Exact Hm1) as [E2 M2]. cbv zeta in E2, M2.
  set (n2 := fexp prec emax (Zdigits2 m1 + e1) - e1) in *.
  rewrite E2. set (mrs2 := fst (shr_fexp prec emax m1 e1 loc_Exact)) in *.
  set (e2 := if 0 <? n2 then e1 + n2 else e1) in *.
  assert (Hn2 : n2 = Z.max (Zdigits2 m1 + e1 - 53) (-1074) - e1) by reflexivity.
  assert (He2 : e1 <= e2 /\ shr_m mrs2 = m1 / 2 ^ (e2 - e1)).
  { rewrite M2. unfold e2. destruct (Z.ltb_spec 0 n2).
    - split; [lia|]. f_equal. f_equal. lia.
    - rewrite Z.sub_diag, Z.div_1_r. split; [lia | reflexivity]. }
  destruct He2 as [He2 Hs2].
  assert (Hp1 : 0 < 2 ^ (e1 - ex)) by (apply Z.pow_pos_nonneg; lia).
  assert (Hp2 : 0 < 2 ^ (e2 - e1)) by (apply Z.pow_pos_nonneg; lia).
  assert (Hq : mx / 2 ^ (e2 - ex) = mx / 2 ^ (e1 - ex) / 2 ^ (e2 - e1)).
  { rewrite Z.div_div by lia. rewrite <- Z.pow_add_r by lia. f_equal. f_equal. lia. }
  assert (Hfin : 0 <= shr_m mrs2 /\
                 Zdigits2 (shr_m mrs2) + e2 <= K + 1 /\
                 e2 <= Z.max ex (Z.max (K - 52) (-1074)) /\ e2 <= 971).
  { split; [rewrite Hs2; apply Z.div_pos; lia|].
    rewrite M2. unfold e2. destruct (Z.ltb_spec 0 n2).
    - pose proof (Zdigits2_div_pow2 m1 n2 (Zdigits2 m1) Hm1 ltac:(lia) ltac:(lia)).
      pose proof (Zdigits2_nonneg m1). lia.
    - pose proof (Zdigits2_nonneg mx). lia. }
  assert (Hq2 : mx / 2 ^ (e2 - ex) <= shr_m mrs2 <= mx / 2 ^ (e2 - ex) + 1).
  { rewrite Hs2, Hq, <- Hs1. split.
    - apply Z.div_le_mono; lia.
    - etransitivity; [apply Z.div_le_mono with (b := shr_m mrs1 + 1); lia|].
      apply div_succ_le; lia. }
  destruct Hfin as (H3 & H1 & H2 & H4).
  destruct (shr_m mrs2) as [| p | p] eqn:Em.
  - split; [reflexivity|].
    assert (Hlt : mx < 2 ^ (e2 - ex)).
    { destruct (Z.lt_ge_cases mx (2 ^ (e2 - ex))) as [|Hge]; [assumption|].
      assert (1 <= mx / 2 ^ (e2 - ex)); [|lia].
      apply Z.div_le_lower_bound; [apply Z.pow_pos_nonneg|]; lia. }
    eapply Z.lt_le_trans; [exact Hlt|]. apply Z.pow_le_mono_r; lia.
  - destruct (Z.leb_spec e2 (emax - prec)) as [_ | Hc].
    + cbn [rounded]. repeat split; try lia.
    + unfold emax, prec in Hc. lia.
  - lia.
Qed.

(** In particular it does not overflow and adds at most one binary digit. *)
Lemma binary_round_aux_bounded sx mx ex lx K :
  0 <= mx -> Zdigits2 mx + ex <= K -> -1074 <= K <= 971 ->
  bounded_by (K + 1) sx (binary_round_aux prec emax sx mx ex lx).
Proof.
  intros Hm HD HK. pose proof (binary_round_aux_approx sx mx ex lx K Hm HD HK) as H.
  destruct (binary_round_aux prec emax sx mx ex lx); cbn [rounded bounded_by] in *; tauto.
Qed.

Lemma iter_xO_digits d : forall m,
  Zpos (digits2_pos (Pos.iter xO m d)) = Zpos (digits2_pos m) + Zpos d.
Proof.
  induction d as [| d IH] using Pos.peano_ind; intros m.
  - simpl. lia.
  - rewrite Pos.iter_succ. simpl digits2_pos. rewrite Pos2Z.inj_succ, IH. lia.
Qed.

(** Aligning a mantissa keeps its magnitude. *)
Lemma shl_align_digits mx ex ex' :
  Zpos (digits2_pos (fst (shl_align mx ex ex'))) + snd (shl_align mx ex ex') =
  Zpos (digits2_pos mx) + ex.
Proof.
  unfold shl_align. destruct (ex' - ex) as [| d | d] eqn:E; cbn [fst snd]; try reflexivity.
  rewrite iter_xO_digits. lia.
Qed.

(** [float(n)] for [0 <= n < 2^K]. *)
Lemma float_of_Z_bounded n K :
  0 <= n -> Zdigits2 n <= K -> K <= 971 ->
  bounded_by (K + 1) false (float_of_Z n).
Proof.
  intros Hn Hd HK. unfold float_of_Z, binary_normalize.
  destruct n as [| p | p]; [reflexivity | | lia].
  unfold binary_round.
  pose proof (shl_align_digits p 0 (fexp prec emax (Zpos (digits2_pos p) + 0))) as Ha.
  destruct (shl_align p 0 (fexp prec emax (Zpos (digits2_pos p) + 0))) as [mz ez].
  simpl fst in Ha; simpl snd in Ha.
  apply binary_round_aux_bounded; simpl Zdigits2 in *; lia.
Qed.

(** The product of two floats in range. *)
Lemma fmul_bounded x y kx ky sx sy :
  bounded_by kx sx x -> bounded_by ky sy y -> -1074 <= kx + ky <= 971 ->
  bounded_by (kx + ky + 1) (xorb sx sy) (fmul x y).
Proof.
  intros Hx Hy HK.
  destruct x as [s1 | s1 | | s1 m1 e1]; cbn [bounded_by] in Hx; try contradiction;
  destruct y as [s2 | s2 | | s2 m2 e2]; cbn [bounded_by] in Hy; try contradiction.
  - subst. reflexivity.
  - destruct Hy; subst. reflexivity.
  - destruct Hx; subst. reflexivity.
  - destruct Hx as [-> Hx], Hy as [-> Hy].
    unfold fmul, SFmul. apply binary_round_aux_bounded; try lia.
    pose proof (Zdigits2_mul (Zpos m1) (Zpos m2) ltac:(lia) ltac:(lia)) as Hm.
    change (Zpos m1 * Zpos m2) with (Zpos (m1 * m2)) in Hm.
    cbv beta iota delta [Zdigits2] in *. lia.
Qed.

(** [int(f)] of a non-negative float in range. *)
Lemma float_to_int_bounded f k :
  bounded_by k false f -> exists n, float_to_int f = Ok n /\ 0 <= n.
Proof.
  destruct f as [s | s | | s m e]; simpl; try contradiction.
  - intros _. exists 0. split; [reflexivity | lia].
  - intros [-> _]. eexists. split; [reflexivity|].
    simpl. apply Z.shiftl_nonneg. lia.
Qed.

(** A mantissa already in canonical form is not changed by rounding. *)
Lemma binary_round_aux_canonical sx m e :
  fexp prec emax (Zpos (digits2_pos m) + e) = e -> e <= 971 ->
  binary_round_aux prec emax sx (Zpos m) e loc_Exact = S754_finite sx m e.
Proof.
  intros Hc He. unfold binary_round_aux, shr_fexp. cbn [Zdigits2 shr_record_of_loc].
  rewrite Hc, Z.sub_diag. cbn [shr shr_m loc_of_shr_record round_nearest_even Zdigits2].
  rewrite Hc, Z.sub_diag. cbn [shr shr_m shr_record_of_loc].
  destruct (Z.leb_spec e (emax - prec)) as [_ | H]; [reflexivity|].
  unfold emax, prec in H. lia.
Qed.

Lemma iter_xO_value d : forall m, Zpos (Pos.iter xO m d) = Zpos m * 2 ^ Zpos d.
Proof.
  induction d as [| d IH] using Pos.peano_ind; intros m.
  - simpl. lia.
  - rewrite Pos.iter_succ, Pos2Z.inj_xO, IH, Pos2Z.inj_succ, Z.pow_succ_r by lia. lia.
Qed.

(** [float(n)] is exact for [0 < n < 2^53]. *)
Lemma float_of_Z_exact p :
  Zpos (digits2_pos p) <= 53 ->
  exists m e,
    float_of_Z (Zpos p) = S754_finite false m e /\
    Zpos m = Zpos p * 2 ^ (- e) /\
    e = Zpos (digits2_pos p) - 53 /\
    Zpos (digits2_pos m) = 53.
Proof.
  intros Hd. unfold float_of_Z, binary_normalize, binary_round.
  assert (Hf : fexp prec emax (Zpos (digits2_pos p) + 0) = Zpos (digits2_pos p) - 53).
  { unfold fexp, SpecFloat.emin, prec, emax. lia. }
  rewrite Hf. unfold shl_align.
  destruct (Zpos (digits2_pos p) - 53 - 0) as [| k | k] eqn:Ek; try lia.
  - assert (E53 : Zpos (digits2_pos p) = 53) by lia.
    exists p, 0. rewrite binary_round_aux_canonical.
    + repeat split; try lia. 
    + rewrite Hf. lia.
    + lia.
  - exists (Pos.iter xO p k), (Zpos (digits2_pos p) - 53).
    assert (Hk : Zpos (digits2_pos (Pos.iter xO p k)) = 53) by (rewrite iter_xO_digits; lia).
    rewrite binary_round_aux_canonical.
    + repeat split; try lia. rewrite iter_xO_value. f_equal. f_equal. lia.
    + rewrite Hk. unfold fexp, SpecFloat.emin, prec, emax. lia.
    + lia.
Qed.

Lemma div_between a b q : 0 < b -> q * b <= a < (q + 1) * b -> a / b = q.
Proof.
  intros Hb [H1 H2]. symmetry. apply Z.div_unique with (a - b * q); lia.
Qed.

(** For counts below [2^47], [int(n * 1.3)] is the integer part of
    [13 n / 10]: the rounding of the binary product never reaches the
    next integer. *)
Lemma int_of_product_1_3 n :
  0 <= n < 2 ^ 47 ->
  float_to_int (fmul (float_of_Z n) float_1_3) = Ok (13 * n / 10).
Proof.
  intros [Hn0 Hn]. destruct n as [| p | p]; [reflexivity | | lia].
  set (d := Zpos (digits2_pos p)).
  assert (Hd : 1 <= d <= 47).
  { split; [unfold d; lia|]. apply (Zdigits2_le (Zpos p) 47); lia. }
  assert (Hd' : Zpos p < 2 ^ d) by (apply (Zdigits2_le (Zpos p) d); unfold d; simpl; lia).
  destruct (float_of_Z_exact p) as (m & e & -> & Hm & He & Hdm); [fold d; lia|].
  fold d in He. subst e.
  unfold fmul, SFmul, float_1_3. cbn [xorb].
  set (M := 5854679515581645%positive).
  pose proof (binary_round_aux_approx false (Zpos (m * M)) (d - 53 + -52) loc_Exact (d + 1)
                ltac:(lia)) as Hr.
  assert (HdM : Zdigits2 (Zpos (m * M)) <= 106).
  { pose proof (Zdigits2_mul (Zpos m) (Zpos M) ltac:(lia) ltac:(lia)) as H.
    change (Zpos m * Zpos M) with (Zpos (m * M)) in H.
    change (Zdigits2 (Zpos m)) with (Zpos (digits2_pos m)) in H.
    rewrite Hdm in H. change (Zdigits2 (Zpos M)) with 53 in H. lia. }
  specialize (Hr ltac:(lia) ltac:(lia)).
  replace (- (d - 53)) with (53 - d) in Hm by lia.
  set (A := 2 ^ (53 - d)) in *.
  assert (HA : 64 <= A).
  { unfold A. change 64 with (2 ^ 6). apply Z.pow_le_mono_r; lia. }
  assert (HAd : A * 2 ^ d = 2 ^ 53).
  { unfold A. rewrite <- Z.pow_add_r by lia. f_equal. lia. }
  assert (HX : Zpos m < 2 ^ 53) by (rewrite Hm; nia).
  assert (Hmx : Zpos (m * M) = Zpos p * A * Zpos M) by (rewrite Pos2Z.inj_mul, Hm; reflexivity).
  assert (Hmx52 : 2 ^ 52 * 2 ^ 52 <= Zpos (m * M)).
  { assert (2 ^ 52 <= Zpos m).
    { assert (H : ~ Zpos m < 2 ^ 52); [|lia]. intros H.
      apply (Zdigits2_le (Zpos m) 52) in H; try lia.
      change (Zdigits2 (Zpos m)) with (Zpos (digits2_pos m)) in H. lia. }
    rewrite Pos2Z.inj_mul. unfold M. nia. }
  destruct (binary_round_aux prec emax false (Zpos (m * M)) (d - 53 + -52) loc_Exact)
    as [s | s | | s m2 e2]; cbn [rounded] in Hr; try contradiction.
  - destruct Hr as [_ Hr]. exfalso.
    assert (Hb : 2 ^ (Z.max (d - 53 + -52) (Z.max (d + 1 - 52) (-1074)) - (d - 53 + -52))
                 = 2 ^ 54) by (f_equal; lia).
    rewrite Hb in Hr. change (2 ^ 54) with 18014398509481984 in Hr.
    change (2 ^ 52) with 4503599627370496 in Hmx52. lia.
  - destruct Hr as (-> & _ & [He2 He2'] & [HQ1 HQ2]).
    cbn [float_to_int cond_Zopp]. f_equal.
    rewrite Z.shiftl_div_pow2 by lia.
    set (T := 2 ^ (e2 - (d - 53 + -52))) in *.
    set (G := 2 ^ (- e2)).
    assert (HT : 0 < T) by (apply Z.pow_pos_nonneg; lia).
    assert (HG : 0 < G) by (apply Z.pow_pos_nonneg; lia).
    assert (HGT : G * T = A * 2 ^ 52).
    { unfold G, T, A. rewrite <- !Z.pow_add_r by lia. f_equal. lia. }
    assert (HT54 : T <= 2 ^ 54) by (apply Z.pow_le_mono_r; lia).
    set (a := 13 * Zpos p / 10).
    assert (Ha : 10 * a <= 13 * Zpos p <= 10 * a + 9).
    { pose proof (Z.div_mod (13 * Zpos p) 10 ltac:(lia)).
      pose proof (Z.mod_pos_bound (13 * Zpos p) 10 ltac:(lia)). unfold a. lia. }
    assert (Ha0 : 0 <= a) by (unfold a; apply Z.div_pos; lia).
    set (mx := Zpos (m * M)) in *.
    pose proof (Z.mul_div_le mx T HT) as Hq1.
    pose proof (Z.mul_succ_div_gt mx T HT) as Hq2.
    set (Q := mx / T) in *.
    set (X := Zpos p * A) in *.
    assert (HX' : 0 <= X < 2 ^ 53) by (unfold X; nia).
    assert (HmxX : mx = X * Zpos M) by (unfold X; exact Hmx).
    set (Y := a * A).
    assert (HY : 10 * Y <= 13 * X <= 10 * Y + 9 * A) by (unfold X, Y; nia).
    assert (HaGT : a * G * T = Y * 2 ^ 52) by (unfold Y; rewrite <- Z.mul_assoc, HGT; lia).
    assert (HaGT' : (a + 1) * G * T = (Y + A) * 2 ^ 52)
      by (unfold Y; rewrite <- Z.mul_assoc, HGT; lia).
    change (2 ^ 52) with 4503599627370496 in *.
    change (2 ^ 53) with 9007199254740992 in *.
    change (2 ^ 54) with 18014398509481984 in *.
    change (Zpos M) with 5854679515581645 in *.
    apply div_between; [exact HG|]. split.
    + (* a * G <= m2 *)
      assert (a * G <= Q); [|lia].
      apply Z.div_le_lower_bound; [exact HT|].
      replace (T * (a * G)) with (a * G * T) by lia. rewrite HaGT, HmxX. lia.
    + (* m2 < (a + 1) * G *)
      assert (Q + 1 < (a + 1) * G); [|lia].
      assert (Q < (a + 1) * G - 1); [|lia].
      apply Z.div_lt_upper_bound; [exact HT|].
      replace (T * ((a + 1) * G - 1)) with ((a + 1) * G * T - T) by lia.
      rewrite HaGT', HmxX. lia.
Qed.

End Rounding.

(** ** Strings *)

Section Strings.

(** The words [split] returns are counted by [word_starts]. *)
Lemma split_from_count s : forall cur,
  length (split_from cur s) =
  match cur with
  | [] => word_starts false s
  | _ => S (word_starts true s)
  end.
Proof.
  induction s as [| c s IH]; intros cur; simpl.
  - destruct cur; reflexivity.
  - destruct (isspace c).
    + destruct cur; simpl; rewrite IH; reflexivity.
    + rewrite IH. destruct cur; reflexivity.
Qed.

Lemma split_count s : len (split s) = word_count s.
Proof. unfold len, split, word_count. rewrite split_from_count. reflexivity. Qed.

Lemma word_starts_le s : forall b, (word_starts b s <= length s)%nat.
Proof.
  induction s as [| c s IH]; intros b; simpl; [lia|].
  destruct (isspace c); [specialize (IH false) | specialize (IH true); destruct b]; lia.
Qed.

Lemma word_count_le s : 0 <= word_count s <= len s.
Proof. unfold word_count, len. pose proof (word_starts_le s false). lia. Qed.

(** A word being read ends at the next whitespace. *)
Lemma split_from_word s : forall cur, cur <> [] ->
  exists w post rest,
    split_from cur s = (rev cur ++ w) :: rest /\
    s = w ++ post /\
    forallb nonspace w = true /\
    match post with [] => True | c :: _ => isspace c = true end.
Proof.
  induction s as [| c s IH]; intros cur Hcur.
  - exists [], [], []. simpl. rewrite app_nil_r.
    destruct cur; [contradiction | auto].
  - simpl. destruct (isspace c) eqn:Ec.
    + exists [], (c :: s), (split_from [] s). rewrite app_nil_r.
      destruct cur; [contradiction | auto].
    + destruct (IH (c :: cur)) as (w & post & rest & E & Es & Hw & Hp); [discriminate|].
      exists (c :: w), post, rest. rewrite E. simpl. rewrite <- app_assoc. simpl.
      unfold nonspace at 1. rewrite Ec. subst s. auto.
Qed.

(** The head of [s.split()] is the first token of [s]. *)
Lemma split_head s : forall w rest, split s = w :: rest -> is_first_token s w.
Proof.
  unfold split. induction s as [| c s IH]; intros w rest E; simpl in E; [discriminate|].
  destruct (isspace c) eqn:Ec.
  - destruct (IH _ _ E) as (pre & post & Es & Hpre & Hw & Hns & Hpost).
    exists (c :: pre), post. simpl. rewrite Ec, Hpre. subst s. auto.
  - destruct (split_from_word s [c]) as (w' & post & rest' & E' & Es & Hw & Hp); [discriminate|].
    rewrite E' in E. injection E as <- _.
    exists [], post. simpl. unfold nonspace at 1. rewrite Ec. subst s.
    repeat split; auto. discriminate.
Qed.

(** [s.split()] is empty exactly when [s] is empty or all whitespace. *)
Lemma split_nil s : split s = [] <-> forallb isspace s = true.
Proof.
  unfold split. induction s as [| c s IH]; simpl; [tauto|].
  destruct (isspace c) eqn:Ec; simpl; [exact IH|].
  split; [|discriminate]. intros E.
  destruct (split_from_word s [c]) as (w & post & rest & E' & _); [discriminate|].
  rewrite E' in E. discriminate.
Qed.

(** The first token is unique. *)
Lemma is_first_token_unique s w1 w2 :
  is_first_token s w1 -> is_first_token s w2 -> w1 = w2.
Proof.
  revert w1 w2. induction s as [| c s IH]; intros w1 w2
    (pre1 & post1 & E1 & Hp1 & Hn1 & Hw1 & He1) (pre2 & post2 & E2 & Hp2 & Hn2 & Hw2 & He2).
  - destruct pre1, w1; simpl in E1; try discriminate; contradiction.
  - destruct (isspace c) eqn:Ec.
    + destruct pre1 as [| a pre1].
      { destruct w1 as [| a w1]; [contradiction|]. simpl in E1. injection E1 as <- _.
        simpl in Hw1. unfold nonspace at 1 in Hw1. rewrite Ec in Hw1. discriminate. }
      destruct pre2 as [| b pre2].
      { destruct w2 as [| b w2]; [contradiction|]. simpl in E2. injection E2 as <- _.
        simpl in Hw2. unfold nonspace at 1 in Hw2. rewrite Ec in Hw2. discriminate. }
      simpl in E1, E2, Hp1, Hp2. injection E1 as <- E1. injection E2 as <- E2.
      apply andb_true_iff in Hp1, Hp2.
      apply IH; [exists pre1, post1 | exists pre2, post2]; tauto.
    + destruct pre1 as [| a pre1].
      2:{ simpl in E1, Hp1. injection E1 as <- _. rewrite Ec in Hp1. discriminate. }
      destruct pre2 as [| b pre2].
      2:{ simpl in E2, Hp2. injection E2 as <- _. rewrite Ec in Hp2. discriminate. }
      simpl in E1, E2. clear IH Hp1 Hp2 Ec Hn1 Hn2. rewrite E1 in E2. clear E1 c s.
      revert w2 Hw2 E2. induction w1 as [| a w1 IHw]; intros w2 Hw2 E2.
      * destruct w2 as [| b w2]; [reflexivity|]. simpl in E2. subst post1.
        simpl in Hw2. unfold nonspace at 1 in Hw2. rewrite He1 in Hw2. discriminate.
      * destruct w2 as [| b w2].
        { simpl in E2. subst post2. simpl in Hw1. unfold nonspace at 1 in Hw1.
          rewrite He2 in Hw1. discriminate. }
        simpl in E2, Hw1, Hw2. injection E2 as <- E2.
        apply andb_true_iff in Hw1, Hw2. f_equal. apply IHw; tauto.
Qed.

(** A command that begins with a word and a space has that word as its tool. *)
Lemma split_word_space w c s :
  w <> [] -> forallb nonspace w = true -> isspace c = true ->
  exists rest, split (w ++ c :: s) = w :: rest.
Proof.
  intros Hw Hn Hc.
  destruct (split (w ++ c :: s)) as [| t rest] eqn:E.
  - apply split_nil in E. rewrite forallb_app in E. apply andb_true_iff in E as [E _].
    destruct w as [| a w]; [contradiction|]. simpl in Hn, E.
    unfold nonspace at 1 in Hn. destruct (isspace a); discriminate.
  - exists rest. f_equal. apply (is_first_token_unique (w ++ c :: s)).
    + eapply split_head; eassumption.
    + exists [], (c :: s). simpl. auto.
Qed.

(** The comprehension of line 72 keeps nothing when no line matches. *)
Lemma matching_paths_nil out1 :
  (forall line, In line (split_on newline out1) ->
                endswith (strip line) target_name = false) ->
  matching_paths out1 = [].
Proof.
  unfold matching_paths. generalize (split_on newline out1). intros l H.
  induction l as [| x l IH]; simpl; [reflexivity|].
  rewrite (H x) by (left; reflexivity). apply IH. intros y Hy. apply H. right. exact Hy.
Qed.

End Strings.

(** ** The heap *)

Section Heap.

Context {A : Type}.

Lemma update_length i (f : A -> A) l : length (update i f l) = length l.
Proof.
  revert i. induction l as [| x l IH]; intros [| i]; simpl; auto.
Qed.

Lemma nth_update_same i (f : A -> A) l d :
  (i < length l)%nat -> nth i (update i f l) d = f (nth i l d).
Proof.
  revert i. induction l as [| x l IH]; intros [| i] H; simpl in *; try lia; auto.
  apply IH. lia.
Qed.

Lemma nth_update_other i j (f : A -> A) l d :
  i <> j -> nth j (update i f l) d = nth j l d.
Proof.
  revert i j. induction l as [| x l IH]; intros [| i] [| j] H; simpl; auto.
  contradiction.
Qed.

Lemma update_update i (f g : A -> A) l :
  update i f (update i g l) = update i (fun x => f (g x)) l.
Proof.
  revert i. induction l as [| x l IH]; intros [| i]; simpl; auto.
  f_equal. apply IH.
Qed.

Lemma update_ext_nth i (f g : A -> A) l d :
  f (nth i l d) = g (nth i l d) -> update i f l = update i g l.
Proof.
  revert i. induction l as [| x l IH]; intros [| i] H; simpl in *; auto.
  - f_equal. exact H.
  - f_equal. apply IH. exact H.
Qed.

End Heap.

(** ** The monad *)

Lemma bind_ok {A B} (m : M A) (k : A -> M B) w a w' :
  m w = (Ok a, w') -> bind m k w = k a w'.
Proof. intros E. unfold bind. rewrite E. reflexivity. Qed.

Lemma bind_raise {A B} (m : M A) (k : A -> M B) w e w' :
  m w = (Raise e, w') -> bind m k w = (Raise e, w').
Proof. intros E. unfold bind. rewrite E. reflexivity. Qed.

Lemma bind_lift_ok {A B} (a : A) (k : A -> M B) w : bind (lift (Ok a)) k w = k a w.
Proof. reflexivity. Qed.

Lemma bind_lift_raise {A B} (e : exn) (k : A -> M B) w :
  bind (lift (Raise e)) k w = (Raise e, w).
Proof. reflexivity. Qed.

(** ** ResultTracker *)

Section Tracker.

Variable env : Env.

Lemma py_add_time_ok t d :
  time_ok t = true -> py_add t (PFloat d) = Ok (PFloat (fadd (time_float t) d)).
Proof.
  destruct t as [[| p | p] | f]; simpl; try discriminate; reflexivity.
Qed.

Lemma py_add_float_result a d t : py_add a (PFloat d) = Ok t -> time_ok t = true.
Proof.
  unfold py_add, arith. destruct a as [z | f]; simpl.
  - destruct (int_to_float z); simpl; [|discriminate]. intros E. injection E as <-. reflexivity.
  - intros E. injection E as <-. reflexivity.
Qed.

Lemma sum_durations_snoc l d :
  sum_durations (l ++ [d]) = rbind (sum_durations l) (fun a => py_add a (PFloat d)).
Proof. unfold sum_durations. rewrite fold_left_app. reflexivity. Qed.

Lemma sum_tokens_snoc l x : sum_tokens (l ++ [x]) = sum_tokens l + x.
Proof. unfold sum_tokens. rewrite fold_left_app. reflexivity. Qed.

Lemma sum_durations_time_ok l t : sum_durations l = Ok t -> time_ok t = true.
Proof.
  destruct l as [| d l] using rev_ind.
  - intros E. injection E as <-. reflexivity.
  - rewrite sum_durations_snoc. destruct (sum_durations l) as [a |]; simpl; [|discriminate].
    apply py_add_float_result.
Qed.

Lemma tracker_inv_time_ok t : tracker_inv t -> time_ok (total_time t) = true.
Proof. intros [_ H]. eapply sum_durations_time_ok; eassumption. Qed.

(** The constructor establishes the invariant. *)
Lemma tracker_inv_init name : tracker_inv (mkResult name [] 0 (PInt 0)).
Proof. split; reflexivity. Qed.

(** Recording a step keeps the invariant. *)
Lemma tracker_inv_record s t : tracker_inv t -> tracker_inv (record_step s t).
Proof.
  intros [Ht Hd]. split; cbn [record_step steps total_tokens total_time].
  - rewrite map_app. cbn [map]. rewrite sum_tokens_snoc, Ht. reflexivity.
  - rewrite map_app. cbn [map]. rewrite sum_durations_snoc, Hd. cbn [rbind].
    apply py_add_time_ok. eapply sum_durations_time_ok; eassumption.
Qed.

(** A call of [add_step] whose token count is computed. *)
Lemma add_step_ok self tl cmd output d w toks :
  count_tokens env output = Ok toks ->
  (self < length (heap w))%nat ->
  time_ok (total_time (tracker_at self w)) = true ->
  let s := mkStep tl cmd toks d (len output) in
  add_step env self tl cmd output d w =
    (Ok tt,
     mkWorld (stdout w ++ [step_line (len (steps (tracker_at self w)) + 1) s])
             (subprocess_calls w) (ticks w)
             (update self (record_step s) (heap w))).
Proof.
  intros Hc Hr Ht s. unfold add_step, bind, lift, modify, load, print. rewrite Hc.
  cbn [heap stdout subprocess_calls ticks fst snd].
  rewrite !update_update.
  rewrite nth_update_same by exact Hr. cbn [total_time set_total_tokens append_step].
  fold (tracker_at self w). rewrite py_add_time_ok by exact Ht.
  rewrite update_update. rewrite nth_update_same by exact Hr.
  cbn [steps set_total_time set_total_tokens append_step name total_tokens].
  fold (tracker_at self w).
  f_equal. f_equal.
  - f_equal. f_equal. unfold step_line. cbn [tool tokens duration output_len].
    unfold len. rewrite length_app. simpl length. f_equal. f_equal. f_equal. lia.
  - apply update_ext_nth with (d := empty_result). reflexivity.
Qed.

(** A call of [add_step] whose token count cannot be computed changes nothing. *)
Lemma add_step_raise self tl cmd output d w e :
  count_tokens env output = Raise e ->
  add_step env self tl cmd output d w = (Raise e, w).
Proof. intros Hc. unfold add_step, bind, lift. rewrite Hc. reflexivity. Qed.

(** One call, whatever its outcome, on a tracker that satisfies the invariant. *)
Lemma add_step_inv self c w :
  (self < length (heap w))%nat ->
  tracker_inv (tracker_at self w) ->
  let w' := snd (add_step env self (c_tool c) (c_command c) (c_output c) (c_duration c) w) in
  length (heap w') = length (heap w) /\
  tracker_inv (tracker_at self w') /\
  steps (tracker_at self w') = steps (tracker_at self w) ++ step_of env c /\
  (forall r, r <> self -> tracker_at r w' = tracker_at r w).
Proof.
  intros Hr Hinv. unfold step_of.
  destruct (count_tokens env (c_output c)) as [toks | e] eqn:Hc.
  - rewrite (add_step_ok _ _ _ _ _ _ _ Hc Hr (tracker_inv_time_ok _ Hinv)).
    cbn [snd]. unfold tracker_at. cbn [heap].
    rewrite update_length, nth_update_same by exact Hr.
    repeat split.
    + apply tracker_inv_record, Hinv.
    + apply tracker_inv_record, Hinv.
    + intros r Hne. apply nth_update_other. auto.
  - rewrite (add_step_raise _ _ _ _ _ _ _ Hc). cbn [snd]. rewrite app_nil_r. auto.
Qed.

Lemma run_calls_inv self calls : forall w,
  (self < length (heap w))%nat ->
  tracker_inv (tracker_at self w) ->
  let w' := run_calls env self calls w in
  length (heap w') = length (heap w) /\
  tracker_inv (tracker_at self w') /\
  steps (tracker_at self w') = steps (tracker_at self w) ++ flat_map (step_of env) calls /\
  (forall r, r <> self -> tracker_at r w' = tracker_at r w).
Proof.
  induction calls as [| c calls IH]; intros w Hr Hinv.
  - simpl. rewrite app_nil_r. auto.
  - simpl. destruct (add_step_inv self c w Hr Hinv) as (Hl & Hi & Hs & Ho).
    cbv zeta in Hl, Hi, Hs, Ho.
    set (w1 := snd (add_step env self (c_tool c) (c_command c) (c_output c) (c_duration c) w)) in *.
    destruct (IH w1) as (Hl' & Hi' & Hs' & Ho'); [lia | exact Hi |].
    cbv zeta in Hl', Hi', Hs', Ho'. unfold run_calls in *.
    repeat split.
    + lia.
    + apply Hi'.
    + apply Hi'.
    + rewrite Hs', Hs, <- app_assoc. reflexivity.
    + intros r Hne. rewrite Ho', Ho by exact Hne. reflexivity.
Qed.

End Tracker.

(** ** TokenCounter *)

Section TokenCounter.

Lemma int_to_float_bounded n K :
  0 <= n -> Zdigits2 n <= K -> K <= 971 ->
  int_to_float n = Ok (float_of_Z n) /\ bounded_by (K + 1) false (float_of_Z n).
Proof.
  intros Hn Hd HK. pose proof (float_of_Z_bounded n K Hn Hd HK) as Hb.
  split; [|exact Hb]. unfold int_to_float.
  destruct (float_of_Z n); simpl in Hb; try contradiction; reflexivity.
Qed.

Lemma float_1_3_bounded : bounded_by 1 false float_1_3.
Proof. split; [reflexivity | vm_compute; discriminate]. Qed.

(** The product [n * 1.3] for a count [n] of at most [sys.maxsize]. *)
Lemma count_times_1_3 n :
  0 <= n <= sys_maxsize ->
  py_mul (PInt n) (PFloat float_1_3) = Ok (PFloat (fmul (float_of_Z n) float_1_3)) /\
  bounded_by 66 false (fmul (float_of_Z n) float_1_3).
Proof.
  intros Hn.
  assert (Hd : Zdigits2 n <= 63).
  { apply Zdigits2_le; try lia. unfold sys_maxsize in Hn. lia. }
  destruct (int_to_float_bounded n 63) as [E Hb]; try lia.
  split.
  - unfold py_mul, arith. cbn [to_float]. rewrite E. reflexivity.
  - apply (fmul_bounded _ _ (63 + 1) 1 false false Hb float_1_3_bounded). lia.
Qed.

(** The fallback counter is [int(words * 1.3)], and it is total on Python
    strings. *)
Lemma count_tokens_fallback_eq text :
  len text <= sys_maxsize ->
  exists k,
    count_tokens_fallback text = Ok k /\ 0 <= k /\
    float_to_int (fmul (float_of_Z (word_count text)) float_1_3) = Ok k.
Proof.
  intros Hlen. pose proof (word_count_le text) as Hw.
  destruct (count_times_1_3 (word_count text)) as [E Hb]; [lia|].
  destruct (float_to_int_bounded _ _ Hb) as (k & Ek & Hk).
  exists k. split; [|split; [exact Hk | exact Ek]].
  destruct text as [| c text]; [|unfold count_tokens_fallback].
  - vm_compute in Ek. injection Ek as <-. reflexivity.
  - rewrite split_count, E. exact Ek.
Qed.

Lemma count_tokens_total env text :
  len text <= sys_maxsize -> exists k, count_tokens env text = Ok k /\ 0 <= k.
Proof.
  intros Hlen. unfold count_tokens. destruct (tiktoken env) as [enc |].
  - eexists. split; [reflexivity | unfold len; lia].
  - destruct (count_tokens_fallback_eq text Hlen) as (k & E & Hk & _). eauto.
Qed.

Local Open Scope Q_scope.

Lemma Qpower_2_pos e : (0 <= e)%Z -> 2 ^ e == inject_Z (2 ^ e).
Proof. intros He. rewrite Zpower_Qpower by exact He. reflexivity. Qed.

(** Truncation of a non-negative float is the floor of its value. *)
Lemma float_to_int_floor f k j :
  bounded_by j false f -> float_to_int f = Ok k ->
  inject_Z k <= float_value f /\ float_value f < inject_Z k + 1.
Proof.
  destruct f as [s | s | | s m e]; cbn [bounded_by]; try contradiction.
  - intros _ E. injection E as <-. simpl. split; [apply Qle_refl | reflexivity].
  - intros [-> _] E. injection E as <-. cbn [cond_Zopp float_value].
    destruct (Z.le_gt_cases 0 e) as [He | He].
    + rewrite Z.shiftl_mul_pow2 by exact He.
      rewrite Qpower_2_pos by exact He. rewrite <- inject_Z_mult.
      split; [apply Qle_refl|]. change 1 with (inject_Z 1).
      rewrite <- inject_Z_plus, <- Zlt_Qlt. lia.
    + rewrite Z.shiftl_div_pow2 by lia.
      replace (2 ^ e) with (2 ^ (- (- e))) by (f_equal; lia).
      rewrite Qpower_opp, Qpower_2_pos by lia.
      assert (HD : (0 < 2 ^ (- e))%Z) by (apply Z.pow_pos_nonneg; lia).
      set (D := (2 ^ (- e))%Z) in *.
      assert (HDq : 0 < inject_Z D) by (change 0 with (inject_Z 0); rewrite <- Zlt_Qlt; exact HD).
      pose proof (Z.div_mod (Zpos m) D ltac:(lia)) as Hdm.
      pose proof (Z.mod_pos_bound (Zpos m) D HD) as Hmod.
      split.
      * apply Qle_shift_div_l; [exact HDq|].
        rewrite <- inject_Z_mult, <- Zle_Qle. lia.
      * apply Qlt_shift_div_r; [exact HDq|]. change 1 with (inject_Z 1).
        rewrite <- inject_Z_plus, <- inject_Z_mult, <- Zlt_Qlt. lia.
Qed.

End TokenCounter.

(** ** CommandRunner *)

Section CommandRunner.

Variable env : Env.

Lemma bind_print {B} s (k : unit -> M B) w :
  bind (print s) k w =
  k tt (mkWorld (stdout w ++ [s]) (subprocess_calls w) (ticks w) (heap w)).
Proof. reflexivity. Qed.

Lemma bind_time {B} (k : float -> M B) w :
  bind (time_time env) k w =
  k (clock env (ticks w)) (mkWorld (stdout w) (subprocess_calls w) (S (ticks w)) (heap w)).
Proof. reflexivity. Qed.

Lemma bind_ret {A B} (a : A) (k : A -> M B) w : bind (ret a) k w = k a w.
Proof. reflexivity. Qed.

(** The [try] block of [run_cmd] always yields a text. *)
Lemma capture_ok self cmd w :
  try_except
    (res <- subprocess_run env cmd (cwd self) ;;
     let output := fst res in
     ret (match snd res with
          | [] => output
          | _ => output ++ (newline :: lit "[STDERR]") ++ [newline] ++ snd res
          end))
    (fun e => ret (exn_str e)) w =
  (Ok (cmd_output env self cmd w),
   mkWorld (stdout w) (subprocess_calls w ++ [(cwd self, cmd)]) (ticks w) (heap w)).
Proof.
  unfold try_except, bind, subprocess_run, ret, cmd_output.
  destruct (spawn env _ _ _) as [out [| c err] | msg]; reflexivity.
Qed.

(** [run_cmd] on a command with a first token, when the captured text can
    be counted. *)
Lemma run_cmd_ok self cmd r w tok rest toks :
  split cmd = tok :: rest ->
  count_tokens env (cmd_output env self cmd w) = Ok toks ->
  (r < length (heap w))%nat ->
  time_ok (total_time (tracker_at r w)) = true ->
  run_cmd env self cmd r w = (Ok (cmd_output env self cmd w), after_cmd env self cmd r w).
Proof.
  intros Hs Hc Hr Ht. unfold run_cmd.
  rewrite bind_print, bind_time.
  erewrite bind_ok by apply capture_ok.
  rewrite bind_time. rewrite Hs. cbn [index0].
  erewrite (bind_ok (lift (Ok tok))) by reflexivity.
  cbn [stdout subprocess_calls ticks heap].
  erewrite bind_ok; [unfold ret | apply add_step_ok with (toks := toks)].
  - unfold after_cmd, step_for, cmd_output, tracker_at in *.
    cbn [stdout subprocess_calls ticks heap]. rewrite Hs, Hc. cbn [hd].
    rewrite <- app_assoc. reflexivity.
  - exact Hc.
  - exact Hr.
  - exact Ht.
Qed.

(** [run_cmd] on a command without a first token: [cmd_str.split()[0]] raises
    after the process has run, and no step is recorded. *)
Lemma run_cmd_no_token self cmd r w :
  split cmd = [] ->
  run_cmd env self cmd r w =
    (Raise IndexError,
     mkWorld (stdout w ++ [lit "Running: " ++ cmd])
       (subprocess_calls w ++ [(cwd self, cmd)]) (S (S (ticks w))) (heap w)).
Proof.
  intros Hs. unfold run_cmd.
  rewrite bind_print, bind_time.
  erewrite bind_ok by apply capture_ok.
  rewrite bind_time. rewrite Hs. reflexivity.
Qed.

Hypothesis wf : env_wf env.

(** What a returning [run_cmd] leaves behind. *)
Lemma run_cmd_spec self cmd r w tok rest :
  split cmd = tok :: rest ->
  (r < length (heap w))%nat ->
  tracker_inv (tracker_at r w) ->
  run_cmd env self cmd r w = (Ok (cmd_output env self cmd w), after_cmd env self cmd r w) /\
  tracker_inv (tracker_at r (after_cmd env self cmd r w)) /\
  steps (tracker_at r (after_cmd env self cmd r w)) =
    steps (tracker_at r w) ++ [step_for env self cmd w] /\
  count_tokens env (cmd_output env self cmd w) = Ok (tokens (step_for env self cmd w)) /\
  tool (step_for env self cmd w) = tok.
Proof.
  intros Hs Hr Hinv.
  destruct (count_tokens_total env (cmd_output env self cmd w)) as (toks & Hc & _).
  { apply wf. }
  split; [|split; [|split; [|split]]].
  - eapply run_cmd_ok; eauto using tracker_inv_time_ok.
  - unfold after_cmd, tracker_at. cbn [heap]. rewrite nth_update_same by exact Hr.
    apply tracker_inv_record, Hinv.
  - unfold after_cmd, tracker_at. cbn [heap]. rewrite nth_update_same by exact Hr.
    reflexivity.
  - unfold step_for. cbn [tokens]. rewrite Hc. reflexivity.
  - unfold step_for. cbn [tool]. rewrite Hs. reflexivity.
Qed.

End CommandRunner.

(** ** WorkflowDrivers *)

Section Drivers.

Variable env : Env.
Hypothesis wf : env_wf env.

Lemma bind_alloc {B} o (k : ref -> M B) w :
  bind (alloc o) k w =
  k (length (heap w))
    (mkWorld (stdout w) (subprocess_calls w) (ticks w) (heap w ++ [o])).
Proof. reflexivity. Qed.

Lemma progress_init dir w out t name :
  progress dir w (length (heap w)) []
    (mkWorld out (subprocess_calls w) t (heap w ++ [mkResult name [] 0 (PInt 0)])).
Proof.
  unfold progress, tracker_at. cbn [heap subprocess_calls]. repeat split.
  - rewrite length_app. simpl. lia.
  - rewrite app_nil_r. reflexivity.
  - rewrite app_nth2, Nat.sub_diag by lia. reflexivity.
  - rewrite app_nth2, Nat.sub_diag by lia. constructor.
  - rewrite app_nth2, Nat.sub_diag by lia. reflexivity.
  - rewrite app_nth2, Nat.sub_diag by lia. reflexivity.
  - intros r' Hr. rewrite app_nth1 by exact Hr. reflexivity.
Qed.

Lemma progress_print dir w0 r cmds w s :
  progress dir w0 r cmds w ->
  progress dir w0 r cmds
    (mkWorld (stdout w ++ [s]) (subprocess_calls w) (ticks w) (heap w)).
Proof. intros H. exact H. Qed.

(** One more command of a driver. *)
Lemma progress_cmd self w0 r cmds w cmd tok rest :
  progress (cwd self) w0 r cmds w ->
  split cmd = tok :: rest ->
  run_cmd env self cmd r w = (Ok (cmd_output env self cmd w), after_cmd env self cmd r w) /\
  progress (cwd self) w0 r (cmds ++ [cmd]) (after_cmd env self cmd r w).
Proof.
  intros (Hr & Hl & Hc & Hs & Ht & Hi & Hf) Hsplit.
  assert (Hr' : (r < length (heap w))%nat) by lia.
  destruct (run_cmd_spec env wf self cmd r w tok rest Hsplit Hr' Hi)
    as (E & Hi' & Hs' & _ & Htool).
  split; [exact E|]. unfold progress. rewrite Hs'.
  repeat split.
  - exact Hr.
  - unfold after_cmd. cbn [heap]. rewrite update_length. exact Hl.
  - unfold after_cmd. cbn [subprocess_calls]. rewrite Hc, map_app, <- app_assoc. reflexivity.
  - rewrite map_app, Hs. reflexivity.
  - rewrite map_app. apply Forall2_app; [exact Ht|]. constructor; [|constructor].
    cbn [map]. rewrite Htool. eapply split_head; eassumption.
  - apply Hi'.
  - apply Hi'.
  - intros r' Hlt. unfold after_cmd, tracker_at. cbn [heap].
    rewrite nth_update_other by lia. apply Hf, Hlt.
Qed.

(** The literal commands have a first token. *)
Lemma split_grep_n target :
  exists rest, split (lit "grep -n 'List<SysUser> selectUserList' " ++ target)
               = lit "grep" :: rest.
Proof.
  change (lit "grep -n 'List<SysUser> selectUserList' " ++ target)
    with (lit "grep" ++ 32%N :: (lit "-n 'List<SysUser> selectUserList' " ++ target)).
  apply (split_word_space (lit "grep") 32%N); [discriminate | reflexivity..].
Qed.

Lemma split_cat target : exists rest, split (lit "cat " ++ target) = lit "cat" :: rest.
Proof.
  change (lit "cat " ++ target) with (lit "cat" ++ 32%N :: target).
  apply (split_word_space (lit "cat") 32%N); [discriminate | reflexivity..].
Qed.

Lemma cmd_output_calls self cmd w1 w2 :
  subprocess_calls w1 = subprocess_calls w2 ->
  cmd_output env self cmd w1 = cmd_output env self cmd w2.
Proof. intros E. unfold cmd_output. rewrite E. reflexivity. Qed.

Ltac step_print P :=
  rewrite bind_print;
  match goal with
  | |- context [mkWorld (stdout ?w ++ [?s]) (subprocess_calls ?w) (ticks ?w) (heap ?w)] =>
      apply (progress_print _ _ _ _ w s) in P;
      let w' := fresh "w" in
      set (w' := mkWorld (stdout w ++ [s]) (subprocess_calls w) (ticks w) (heap w)) in *;
      clearbody w'
  end.

Ltac step_cmd P H :=
  match goal with
  | |- context [bind (run_cmd env ?self ?cmd ?r) _ ?w] =>
      let E := fresh "E" in
      let P' := fresh "P" in
      destruct (progress_cmd self _ r _ w cmd _ _ P H) as [E P'];
      rewrite (bind_ok _ _ _ _ _ E); clear E P; rename P' into P;
      let w' := fresh "w" in
      set (w' := after_cmd env self cmd r w) in *;
      clearbody w'
  end.

Lemma split_find :
  exists rest, split (lit "find . -name SysUserServiceImpl.java") = lit "find" :: rest.
Proof. eexists. vm_compute. reflexivity. Qed.

Lemma split_grep_r :
  exists rest, split (lit "grep -r 'selectUserList' . | head -n 20") = lit "grep" :: rest.
Proof. eexists. vm_compute. reflexivity. Qed.

(** The conversion of the line number raises [ValueError] or nothing. *)
Lemma search_line_num_raises out e : search_line_num env out = Raise e -> e = ValueError.
Proof.
  unfold search_line_num, int_of_digits. destruct (match_line_num env out) as [ds |].
  - destruct (int_refuses env (length ds)); [|discriminate]. congruence.
  - discriminate.
Qed.

(** The baseline driver, up to its end or to the [ValueError] of line 86. *)
Lemma run_baseline_cases runner w :
  match search_line_num env (grep_output env runner w) with
  | Ok _ =>
      exists w',
        run_baseline env runner w = (Ok (length (heap w)), w') /\
        progress (cwd runner) w (length (heap w))
          (baseline_commands (baseline_target env runner w)) w'
  | Raise e =>
      exists w',
        run_baseline env runner w = (Raise e, w') /\
        progress (cwd runner) w (length (heap w))
          (baseline_commands_2 (baseline_target env runner w)) w'
  end.
Proof.
  pose (Q := fun x : result ref * World =>
    match search_line_num env (grep_output env runner w) with
    | Ok _ =>
        exists w',
          x = (Ok (length (heap w)), w') /\
          progress (cwd runner) w (length (heap w))
            (baseline_commands (baseline_target env runner w)) w'
    | Raise e =>
        exists w',
          x = (Raise e, w') /\
          progress (cwd runner) w (length (heap w))
            (baseline_commands_2 (baseline_target env runner w)) w'
    end).
  change (Q (run_baseline env runner w)).
  unfold run_baseline.
  rewrite !bind_print. unfold BenchmarkResult_init. rewrite bind_alloc.
  cbn [heap stdout subprocess_calls ticks].
  match goal with |- context [mkWorld ?a (subprocess_calls w) ?c (heap w ++ [?o])] =>
    pose proof (progress_init (cwd runner) w a c (name o)) as P;
    cbn [name] in P;
    set (w1 := mkWorld a (subprocess_calls w) c (heap w ++ [o])) in *
  end.
  assert (Hc1 : subprocess_calls w1 = subprocess_calls w) by reflexivity.
  clearbody w1.
  step_print P.
  assert (Hc2 : subprocess_calls w0 = subprocess_calls w) by (destruct P as (_ & _ & -> & _); apply app_nil_r).
  destruct split_find as [rest1 Hfind].
  step_cmd P Hfind.
  rewrite (cmd_output_calls runner _ w0 w Hc2).
  change (cmd_output env runner (lit "find . -name SysUserServiceImpl.java") w)
    with (find_output env runner w).
  assert (Htarget : exists w3,
    (match matching_paths (find_output env runner w) with
     | [] => print (lit "!! File not found, using default assumption.") ;; ret default_target_file
     | p :: _ => ret (strip p)
     end) w2 = (Ok (baseline_target env runner w), w3) /\
    progress (cwd runner) w (length (heap w))
      ([] ++ [lit "find . -name SysUserServiceImpl.java"]) w3).
  { unfold baseline_target. destruct (matching_paths (find_output env runner w)).
    - rewrite bind_print. eexists. split; [reflexivity | exact P].
    - eexists. split; [reflexivity | exact P]. }
  destruct Htarget as (w3 & Et & P3). rewrite (bind_ok _ _ _ _ _ Et). clear Et P.
  set (target := baseline_target env runner w) in *.
  step_print P3.
  match goal with |- context [bind (run_cmd env runner _ _) _ ?wx] =>
    assert (Hout2 : cmd_output env runner
                      (lit "grep -n 'List<SysUser> selectUserList' " ++ target) wx =
                    grep_output env runner w)
  end.
  { unfold cmd_output, grep_output. fold target.
    pose proof P3 as (_ & _ & Hc3 & _). cbn [subprocess_calls] in Hc3 |- *.
    rewrite Hc3, length_app. cbn [map app length]. rewrite Nat.add_1_r. reflexivity. }
  destruct (split_grep_n target) as [rest2 Hgrep].
  step_cmd P3 Hgrep.
  rewrite Hout2. unfold Q.
  destruct (search_line_num env (grep_output env runner w)) as [line_num | e].
  - rewrite bind_lift_ok.
    step_print P3.
    destruct (split_cat target) as [rest3 Hcat].
    step_cmd P3 Hcat.
    step_print P3.
    destruct split_grep_r as [rest4 Hg].
    step_cmd P3 Hg.
    step_print P3.
    destruct (split_cat caller_file) as [rest5 Hcat5].
    step_cmd P3 Hcat5.
    eexists. split; [reflexivity | exact P3].
  - rewrite bind_lift_raise. eexists. split; [reflexivity | exact P3].
Qed.

(** The baseline driver when [int()] accepts the line number. *)
Lemma run_baseline_spec runner w n :
  search_line_num env (grep_output env runner w) = Ok n ->
  exists w',
    run_baseline env runner w = (Ok (length (heap w)), w') /\
    progress (cwd runner) w (length (heap w))
      (baseline_commands (baseline_target env runner w)) w'.
Proof. intros H. pose proof (run_baseline_cases runner w) as C. rewrite H in C. exact C. Qed.

(** The baseline driver when [int()] refuses it: two commands, then the
    exception. *)
Lemma run_baseline_stops runner w e :
  search_line_num env (grep_output env runner w) = Raise e ->
  exists w',
    run_baseline env runner w = (Raise e, w') /\
    progress (cwd runner) w (length (heap w))
      (baseline_commands_2 (baseline_target env runner w)) w'.
Proof. intros H. pose proof (run_baseline_cases runner w) as C. rewrite H in C. exact C. Qed.

Lemma run_git_ai_spec runner w :
  exists w',
    run_git_ai env runner w = (Ok (length (heap w)), w') /\
    progress (cwd runner) w (length (heap w)) git_ai_commands w'.
Proof.
  unfold run_git_ai.
  rewrite !bind_print. unfold BenchmarkResult_init. rewrite bind_alloc.
  cbn [heap stdout subprocess_calls ticks].
  match goal with |- context [mkWorld ?a (subprocess_calls w) ?c (heap w ++ [?o])] =>
    pose proof (progress_init (cwd runner) w a c (name o)) as P;
    cbn [name] in P;
    set (w1 := mkWorld a (subprocess_calls w) c (heap w ++ [o])) in *
  end.
  clearbody w1.
  assert (H1 : exists rest, split (lit "git-ai ai query 'SysUserServiceImpl selectUserList'") = lit "git-ai" :: rest)
    by (eexists; vm_compute; reflexivity).
  assert (H2 : exists rest, split (lit "git-ai ai graph callers selectUserList") = lit "git-ai" :: rest)
    by (eexists; vm_compute; reflexivity).
  assert (H3 : exists rest, split (lit "git-ai ai graph chain selectUserList") = lit "git-ai" :: rest)
    by (eexists; vm_compute; reflexivity).
  assert (H4 : exists rest, split (lit "git-ai ai semantic 'How does selectUserList work in SysUserServiceImpl?' --topk 2") = lit "git-ai" :: rest)
    by (eexists; vm_compute; reflexivity).
  destruct H1 as [r1 H1], H2 as [r2 H2], H3 as [r3 H3], H4 as [r4 H4].
  step_print P. step_cmd P H1.
  step_print P. step_cmd P H2.
  step_print P. step_cmd P H3.
  step_print P. step_cmd P H4.
  eexists. split; [reflexivity | exact P].
Qed.

End Drivers.

(** ** ReportPrinter *)

Create HintDb overflow.

Section Report.

Lemma only_overflow_rbind {A B} (r : result A) (k : A -> result B) :
  only_overflow r -> (forall a, r = Ok a -> only_overflow (k a)) ->
  only_overflow (rbind r k).
Proof. destruct r as [a | e]; simpl; auto. Qed.

Lemma only_overflow_not_zero_division {A} (r : result A) :
  only_overflow r -> not_zero_division r.
Proof. destruct r as [a | []]; simpl; auto. Qed.

Lemma only_overflow_not_exit {A} (r : result A) : only_overflow r -> not_exit r.
Proof. destruct r as [a | []]; simpl; auto. Qed.

Lemma int_to_float_oo z : only_overflow (int_to_float z).
Proof. unfold int_to_float. destruct (float_of_Z z); exact I. Qed.

Lemma to_float_oo x : only_overflow (to_float x).
Proof. destruct x; [apply int_to_float_oo | exact I]. Qed.

Lemma arith_oo iop fop x y : only_overflow (arith iop fop x y).
Proof.
  unfold arith. destruct x as [a | a], y as [b | b]; try exact I;
    (apply only_overflow_rbind; [apply to_float_oo | intros; apply only_overflow_rbind;
       [apply to_float_oo | intros; exact I]]).
Qed.

Lemma int_truediv_oo a b : b <> 0 -> only_overflow (int_truediv a b).
Proof.
  intros Hb. unfold int_truediv.
  destruct b as [| q | q]; [contradiction | |];
    (destruct a as [| p | p]; [exact I | |];
     destruct (SFdiv_core_binary _ _ _ _ _ _) as [[q0 e0] l0];
     destruct (binary_round_aux _ _ _ _ _ _); exact I).
Qed.

Lemma format_f_oo p x : only_overflow (format_f p x).
Proof.
  unfold format_f. apply only_overflow_rbind; [apply to_float_oo | intros; exact I].
Qed.

(** A float that compares greater than [0] is not a zero. *)
Lemma py_gt_float_nonzero f : py_gt (PFloat f) (PInt 0) = true -> is_zero f = false.
Proof. destruct f; simpl; try reflexivity. discriminate. Qed.

Lemma py_truediv_float_oo x f :
  is_zero f = false -> only_overflow (py_truediv x (PFloat f)).
Proof.
  intros Hf. unfold py_truediv.
  assert (H : only_overflow
    (rbind (to_float x) (fun a =>
     rbind (to_float (PFloat f)) (fun b =>
     rbind (float_truediv a b) (fun q => Ok (PFloat q)))))).
  { apply only_overflow_rbind; [apply to_float_oo | intros a _].
    simpl. unfold float_truediv. rewrite Hf. exact I. }
  destruct x; exact H.
Qed.

(** The percentage change never divides by zero. *)
Lemma pct_change_int_oo b e : only_overflow (pct_change (PInt b) (PInt e)).
Proof.
  unfold pct_change. destruct (py_gt (PInt b) (PInt 0)) eqn:G; [|exact I].
  simpl in G. apply Z.ltb_lt in G.
  cbn [py_sub arith rbind py_truediv].
  apply only_overflow_rbind.
  - apply only_overflow_rbind; [apply int_truediv_oo; lia | intros; exact I].
  - intros q _. apply arith_oo.
Qed.

Lemma pct_change_float_oo f x : only_overflow (pct_change (PFloat f) x).
Proof.
  unfold pct_change. destruct (py_gt (PFloat f) (PInt 0)) eqn:G; [|exact I].
  apply py_gt_float_nonzero in G.
  apply only_overflow_rbind; [apply arith_oo | intros d _].
  apply only_overflow_rbind; [apply py_truediv_float_oo, G | intros q _].
  apply arith_oo.
Qed.

(** The average of line 154 and 155 is the integer [0] or a float. *)
Lemma density_cases tok n :
  (if py_gt (PInt n) (PInt 0) then py_truediv (PInt tok) (PInt n) else Ok (PInt 0))
    = Ok (PInt 0) \/
  (exists f, (if py_gt (PInt n) (PInt 0) then py_truediv (PInt tok) (PInt n)
              else Ok (PInt 0)) = Ok (PFloat f)) \/
  (if py_gt (PInt n) (PInt 0) then py_truediv (PInt tok) (PInt n) else Ok (PInt 0))
    = Raise OverflowError.
Proof.
  destruct (py_gt (PInt n) (PInt 0)) eqn:G; [|left; reflexivity].
  simpl in G. apply Z.ltb_lt in G. cbn [py_truediv].
  pose proof (int_truediv_oo tok n ltac:(lia)) as H.
  destruct (int_truediv tok n) as [f | []]; simpl in *; try contradiction; eauto.
Qed.

(** [report_metrics] in terms of [pct_change]. *)
Lemma report_metrics_eq b e :
  report_metrics b e =
  rbind (pct_change (PInt (total_tokens b)) (PInt (total_tokens e))) (fun dt =>
  rbind (pct_change (PInt (len (steps b))) (PInt (len (steps e)))) (fun ds =>
  rbind (if py_gt (PInt (len (steps b))) (PInt 0)
         then py_truediv (PInt (total_tokens b)) (PInt (len (steps b)))
         else Ok (PInt 0)) (fun bd =>
  rbind (if py_gt (PInt (len (steps e))) (PInt 0)
         then py_truediv (PInt (total_tokens e)) (PInt (len (steps e)))
         else Ok (PInt 0)) (fun ed =>
  rbind (pct_change bd ed) (fun dd =>
  Ok (mkMetrics (total_tokens b) (total_tokens e) dt (len (steps b)) (len (steps e)) ds
        bd ed dd)))))).
Proof. reflexivity. Qed.

Lemma report_metrics_oo b e : only_overflow (report_metrics b e).
Proof.
  rewrite report_metrics_eq.
  apply only_overflow_rbind; [apply pct_change_int_oo | intros dt _].
  apply only_overflow_rbind; [apply pct_change_int_oo | intros ds _].
  destruct (density_cases (total_tokens b) (len (steps b))) as [-> | [[f ->] | ->]];
    cbn [rbind]; try exact I;
  (destruct (density_cases (total_tokens e) (len (steps e))) as [-> | [[g ->] | ->]];
    cbn [rbind]; try exact I;
   (apply only_overflow_rbind; [| intros; exact I]));
  first [apply pct_change_float_oo | exact I].
Qed.

#[local] Hint Resolve only_overflow_rbind to_float_oo arith_oo format_f_oo : overflow.
#[local] Hint Extern 1 (only_overflow (Ok _)) => exact I : overflow.

Lemma row_tokens_oo m : only_overflow (row_tokens m).
Proof. unfold row_tokens. auto with overflow. Qed.

Lemma row_steps_oo m : only_overflow (row_steps m).
Proof. unfold row_steps. auto with overflow. Qed.

Lemma row_density_oo m : only_overflow (row_density m).
Proof. unfold row_density. auto 8 with overflow. Qed.

Lemma row_time_oo b e : only_overflow (row_time b e).
Proof. unfold row_time, py_sub. auto 10 with overflow. Qed.

Lemma prints_only_print s : prints_only (print s).
Proof. intros w. simpl. repeat split; eauto. Qed.

Lemma prints_only_lift {A} (r : result A) : only_overflow r -> prints_only (lift r).
Proof.
  intros H w. simpl. repeat split; auto. exists []. rewrite app_nil_r. reflexivity.
Qed.

Lemma prints_only_bind {A B} (m : M A) (k : A -> M B) :
  prints_only m -> (forall a, prints_only (k a)) -> prints_only (bind m k).
Proof.
  intros Hm Hk w. unfold bind. specialize (Hm w).
  destruct (m w) as [[a | e] w1]; cbn [fst snd] in *.
  - destruct Hm as (_ & Hc & Hh & Ht & l1 & Hl).
    destruct (Hk a w1) as (Ho & Hc' & Hh' & Ht' & l2 & Hl').
    repeat split; try congruence.
    exists (l1 ++ l2). rewrite Hl', Hl, app_assoc. reflexivity.
  - exact Hm.
Qed.

Lemma print_report_prints_only env b e : prints_only (print_report env b e).
Proof.
  unfold print_report.
  repeat (apply prints_only_bind; [apply prints_only_print | intros _]).
  apply prints_only_bind; [apply prints_only_lift, report_metrics_oo | intros m].
  destruct (tabulate env) as [tab |].
  - apply prints_only_bind; [apply prints_only_lift, row_tokens_oo | intros r1].
    apply prints_only_bind; [apply prints_only_lift, row_steps_oo | intros r2].
    apply prints_only_bind; [apply prints_only_lift, row_density_oo | intros r3].
    apply prints_only_bind; [apply prints_only_lift, row_time_oo | intros r4].
    apply prints_only_print.
  - repeat (apply prints_only_bind; [apply prints_only_print | intros _]).
    apply prints_only_bind; [apply prints_only_lift, row_tokens_oo | intros r1].
    apply prints_only_bind; [apply prints_only_print | intros _].
    apply prints_only_bind; [apply prints_only_lift, row_steps_oo | intros r2].
    apply prints_only_bind; [apply prints_only_print | intros _].
    apply prints_only_bind; [apply prints_only_lift, row_density_oo | intros r3].
    apply prints_only_bind; [apply prints_only_print | intros _].
    apply prints_only_bind; [apply prints_only_lift, row_time_oo | intros r4].
    apply prints_only_print.
Qed.

(** A number the report can format: the integer [0] or a float. *)
Lemma format_f_ok p x : time_ok x = true -> exists s, format_f p x = Ok s.
Proof.
  destruct x as [[| z | z] | f]; try discriminate; intros _; eexists; reflexivity.
Qed.

Lemma py_sub_time_ok x y :
  time_ok x = true -> time_ok y = true ->
  exists d, py_sub x y = Ok d /\ time_ok d = true.
Proof.
  destruct x as [[| ? | ?] | f], y as [[| ? | ?] | g]; try discriminate; intros _ _;
    eexists; split; reflexivity.
Qed.

(** What [print_report] prints once the metrics and the rows are computed. *)
Lemma print_report_rows env b e w m r1 r2 r3 r4 :
  report_metrics b e = Ok m ->
  row_tokens m = Ok r1 -> row_steps m = Ok r2 -> row_density m = Ok r3 ->
  row_time b e = Ok r4 ->
  print_report env b e w =
    (Ok tt,
     mkWorld (stdout w ++ report_lines env [r1; r2; r3; r4])
       (subprocess_calls w) (ticks w) (heap w)).
Proof.
  intros Em E1 E2 E3 E4.
  unfold print_report, report_lines. rewrite !bind_print, Em, bind_lift_ok.
  cbn [stdout subprocess_calls ticks heap].
  destruct (tabulate env) as [tab |].
  - rewrite E1, bind_lift_ok, E2, bind_lift_ok, E3, bind_lift_ok, E4, bind_lift_ok.
    unfold print. cbn [stdout subprocess_calls ticks heap].
    rewrite <- !app_assoc. reflexivity.
  - rewrite !bind_print, E1, bind_lift_ok, bind_print, E2, bind_lift_ok, bind_print,
      E3, bind_lift_ok, bind_print, E4, bind_lift_ok.
    unfold print. cbn [stdout subprocess_calls ticks heap].
    rewrite <- !app_assoc. reflexivity.
Qed.

End Report.

(** ** The main entry *)

Section Main.

Variable env : Env.
Hypothesis wf : env_wf env.

Lemma bind_load {B} r (k : BenchmarkResult -> M B) w :
  bind (load r) k w = k (tracker_at r w) w.
Proof. reflexivity. Qed.

(** With a missing target directory nothing runs. *)
Lemma main_missing_dir argv w :
  path_exists env (target_dir_of argv) = false ->
  main env argv w =
    (Raise (SystemExit 1),
     mkWorld
       (stdout w ++ [lit "Error: Target directory " ++ target_dir_of argv ++
                     lit " does not exist."])
       (subprocess_calls w) (ticks w) (heap w)).
Proof. intros H. unfold main. cbv zeta. rewrite H. reflexivity. Qed.

(** The main entry up to the baseline driver. *)
Lemma main_baseline argv w :
  path_exists env (target_dir_of argv) = true ->
  let runner := mkRunner (target_dir_of argv) in
  exists w0,
    subprocess_calls w0 = subprocess_calls w /\ heap w0 = heap w /\
    main env argv w =
      bind (run_baseline env runner) (fun base_res =>
        exp_res <- run_git_ai env runner ;;
        b <- load base_res ;;
        e <- load exp_res ;;
        print_report env b e) w0.
Proof.
  intros H runner. unfold main. cbv zeta. rewrite H. cbn [negb].
  rewrite bind_ret. unfold Runner_init.
  eexists (mkWorld _ (subprocess_calls w) (ticks w) (heap w)).
  split; [reflexivity|]. split; reflexivity.
Qed.

Lemma grep_output_calls runner w1 w2 :
  subprocess_calls w1 = subprocess_calls w2 ->
  grep_output env runner w1 = grep_output env runner w2.
Proof.
  intros E. unfold grep_output, baseline_target, find_output. rewrite E. reflexivity.
Qed.

Lemma baseline_target_calls runner w1 w2 :
  subprocess_calls w1 = subprocess_calls w2 ->
  baseline_target env runner w1 = baseline_target env runner w2.
Proof. intros E. unfold baseline_target, find_output. rewrite E. reflexivity. Qed.

(** With an existing target directory and a line number that [int()]
    accepts, both drivers run to their end. *)
Lemma main_existing_dir argv w n :
  path_exists env (target_dir_of argv) = true ->
  let dir := target_dir_of argv in
  let runner := mkRunner dir in
  search_line_num env (grep_output env runner w) = Ok n ->
  let base_res := length (heap w) in
  let exp_res := S (length (heap w)) in
  let w' := snd (main env argv w) in
  only_overflow (fst (main env argv w)) /\
  subprocess_calls w' =
    subprocess_calls w ++
    map (pair dir) (baseline_commands (baseline_target env runner w) ++ git_ai_commands) /\
  map command (steps (tracker_at base_res w')) =
    baseline_commands (baseline_target env runner w) /\
  map command (steps (tracker_at exp_res w')) = git_ai_commands /\
  (forall r, (r < length (heap w))%nat -> tracker_at r w' = tracker_at r w).
Proof.
  intros H dir runner Hn base_res exp_res.
  destruct (main_baseline argv w H) as (w0 & Hc0 & Hh0 & ->). fold dir runner.
  rewrite <- (grep_output_calls runner w0 w Hc0) in Hn.
  destruct (run_baseline_spec env wf runner w0 n Hn) as (w1 & E1 & P1).
  rewrite (bind_ok _ _ _ _ _ E1).
  destruct (run_git_ai_spec env wf runner w1) as (w2 & E2 & P2).
  rewrite (bind_ok _ _ _ _ _ E2).
  rewrite !bind_load.
  destruct (print_report_prints_only env (tracker_at (length (heap w0)) w2)
              (tracker_at (length (heap w1)) w2) w2) as (Ho & Hc & Hh & _ & _).
  destruct P1 as (_ & Hl1 & Hc1 & Hs1 & _ & _ & Hf1).
  destruct P2 as (_ & Hl2 & Hc2 & Hs2 & _ & _ & Hf2).
  rewrite (baseline_target_calls runner w0 w Hc0) in *.
  rewrite Hh0, Hc0 in *.
  change (cwd runner) with dir in *.
  unfold tracker_at in *.
  split; [exact Ho|]. rewrite Hc, Hh.
  split; [rewrite Hc2, Hc1, map_app, app_assoc; reflexivity|].
  split; [unfold base_res; rewrite Hf2 by lia; exact Hs1|].
  split; [unfold exp_res; rewrite <- Hl1; exact Hs2|].
  intros r Hr. rewrite Hf2 by lia. rewrite Hf1 by exact Hr. rewrite Hh0. reflexivity.
Qed.

(** With an existing target directory and a line number that [int()]
    refuses, the main entry stops in the baseline driver: two commands
    have run, the experimental driver has not started and nothing is
    reported. *)
Lemma main_stops argv w e :
  path_exists env (target_dir_of argv) = true ->
  let dir := target_dir_of argv in
  let runner := mkRunner dir in
  search_line_num env (grep_output env runner w) = Raise e ->
  let w' := snd (main env argv w) in
  fst (main env argv w) = Raise e /\
  subprocess_calls w' =
    subprocess_calls w ++
    map (pair dir) (baseline_commands_2 (baseline_target env runner w)) /\
  length (heap w') = S (length (heap w)) /\
  map command (steps (tracker_at (length (heap w)) w')) =
    baseline_commands_2 (baseline_target env runner w).
Proof.
  intros H dir runner He.
  destruct (main_baseline argv w H) as (w0 & Hc0 & Hh0 & ->). fold dir runner.
  rewrite <- (grep_output_calls runner w0 w Hc0) in He.
  destruct (run_baseline_stops env wf runner w0 e He) as (w1 & E1 & P1).
  rewrite (bind_raise _ _ _ _ _ E1). cbn [fst snd].
  destruct P1 as (_ & Hl1 & Hc1 & Hs1 & _).
  rewrite (baseline_target_calls runner w0 w Hc0) in *. rewrite Hh0, Hc0 in *.
  split; [reflexivity|]. split; [exact Hc1|]. split; [exact Hl1 | exact Hs1].
Qed.

End Main.

(** ** Evaluation *)

(** [f"{x:.2f}"] rounds the exact binary value, ties to even. *)
Example format_ties_to_even :
  rbind (int_truediv 1 8) (fun x => Ok (format_float_f 2 x)) = Ok (lit "0.12") /\
  rbind (int_truediv 3 8) (fun x => Ok (format_float_f 2 x)) = Ok (lit "0.38") /\
  rbind (int_truediv (-1) 200) (fun x => Ok (format_float_f 1 x)) = Ok (lit "-0.0") /\
  format_int_commas 1234567 = lit "1,234,567" /\
  format_f 1 (PInt 0) = Ok (lit "0.0").
Proof. repeat split; vm_compute; reflexivity. Qed.

(** The literal [1.3] is the float nearest to [13 / 10]. *)
Example float_1_3_nearest : int_truediv 13 10 = Ok float_1_3.
Proof. vm_compute. reflexivity. Qed.

(** Beyond the range of [int_of_product_1_3] the binary product can round
    up to the next integer: the bound on the count is needed. *)
Example product_rounds_up_for_huge_counts :
  float_to_int (fmul (float_of_Z 866076851417353) float_1_3) = Ok 1125899906842559 /\
  13 * 866076851417353 / 10 = 1125899906842558.
Proof. split; vm_compute; reflexivity. Qed.

(** The whole script in the demonstration environment: nine steps, then
    the report. *)
Example script_demo_run :
  let w := snd (script demo_env [lit "benchmark.py"; lit "/srv/ruoyi"] initial_world) in
  fst (script demo_env [lit "benchmark.py"; lit "/srv/ruoyi"] initial_world) = Ok tt /\
  map (fun t => (total_tokens t, map tokens (steps t))) (heap w) =
    [(18, [1; 6; 2; 6; 3]); (28, [7; 7; 7; 7])] /\
  nth 7 (stdout w) [] = lit "[Step 1] Tool: find, Tokens: 1, Time: 0.2500s, OutputLen: 43" /\
  last (stdout w) [] =
    lit "Total Time (s)            | 1.25                 | 1.00                 | -0.25s         ".
Proof. repeat split; vm_compute; reflexivity. Qed.

(** Without a target directory the script stops after two lines. *)
Example script_missing_dir_run :
  script broken_env [lit "benchmark.py"] initial_world =
  (Raise (SystemExit 1),
   mkWorld
     [lit "[System] tiktoken not found, using simple word count approximation (words * 1.3). Install with 'pip install tiktoken'.";
      lit "Error: Target directory /Users/mars/dev/ruoyi does not exist."]
     [] 0 []).
Proof. vm_compute. reflexivity. Qed.

(** * The claims *)

(** ** C1 *)

(** C1. A tracker is created by the constructor and then receives any
    finite sequence of [add_step] calls ([history], then [calls]); a call
    may return or raise.  Afterwards [total_tokens] is the sum of the token
    counts of the recorded steps and [total_time] is the sum (from [0], in
    recording order) of their durations; the steps recorded before [calls]
    are still there, unchanged and in the same order, followed by the steps
    of [calls] in call order. *)
Theorem add_step_totals_and_order env name history calls w0 :
  let self := length (heap w0) in
  let w1 := snd (BenchmarkResult_init name w0) in
  let w2 := run_calls env self history w1 in
  let w3 := run_calls env self calls w2 in
  let t := tracker_at self w3 in
  fst (BenchmarkResult_init name w0) = Ok self /\
  total_tokens t = sum_tokens (map tokens (steps t)) /\
  sum_durations (map duration (steps t)) = Ok (total_time t) /\
  steps (tracker_at self w2) = flat_map (step_of env) history /\
  steps t = steps (tracker_at self w2) ++ flat_map (step_of env) calls.
Proof.
  intros self w1 w2 w3 t.
  assert (Hr1 : (self < length (heap w1))%nat).
  { unfold w1, BenchmarkResult_init, alloc, self. cbn [snd heap].
    rewrite length_app. simpl. lia. }
  assert (Ht1 : tracker_at self w1 = mkResult name [] 0 (PInt 0)).
  { unfold w1, BenchmarkResult_init, alloc, self, tracker_at. cbn [snd heap].
    rewrite app_nth2, Nat.sub_diag by lia. reflexivity. }
  assert (Hi1 : tracker_inv (tracker_at self w1)) by (rewrite Ht1; apply tracker_inv_init).
  destruct (run_calls_inv env self history w1 Hr1 Hi1) as (Hl2 & Hi2 & Hs2 & _).
  fold w2 in Hl2, Hi2, Hs2.
  destruct (run_calls_inv env self calls w2 ltac:(lia) Hi2) as (Hl3 & [Hi3 Hi3'] & Hs3 & _).
  fold w3 in Hl3, Hi3, Hi3', Hs3. fold t in Hi3, Hi3', Hs3.
  rewrite Ht1 in Hs2. cbn [steps app] in Hs2.
  repeat split; auto.
Qed.

(** ** C2 *)

(** Rounding to nearest is the quotient or the next integer. *)
Lemma round_half_even_bounds n d : n / d <= round_half_even n d <= n / d + 1.
Proof.
  unfold round_half_even. destruct (2 * (n mod d) ?= d); [destruct (Z.even (n / d)) | |]; lia.
Qed.

(** [round(f)] is [int(f)] or one more, for a non-negative float. *)
Lemma py_round_near_trunc f j k :
  bounded_by j false f -> float_to_int f = Ok k ->
  exists r, py_round f = Ok r /\ k <= r <= k + 1.
Proof.
  destruct f as [s | s | | s m e]; cbn [bounded_by]; try contradiction.
  - intros _ E. injection E as <-. exists 0. split; [reflexivity | lia].
  - intros [-> _] E. injection E as <-. eexists. split; [reflexivity|].
    cbn [cond_Zopp]. unfold scaled. change (10 ^ Z.of_nat 0) with 1.
    destruct (Z.leb_spec 0 e).
    + rewrite Z.shiftl_mul_pow2 by lia. lia.
    + rewrite Z.shiftl_div_pow2 by lia. rewrite Z.mul_1_r.
      apply round_half_even_bounds.
Qed.

(** C2, as the code has it.  The fallback counter returns the product
    [word_count * 1.3] truncated toward zero, [int(...)], not rounded: its
    result [k] is the rounded product [r] or one less; it is the integer
    part of [13 * word_count / 10] for every count below [2^47]; and it is
    [0] on the empty text. *)
Theorem count_tokens_fallback_truncates_not_rounds text :
  len text <= sys_maxsize ->
  exists k r,
    count_tokens_fallback text = Ok k /\
    float_to_int (fmul (float_of_Z (word_count text)) float_1_3) = Ok k /\
    (word_count text < 2 ^ 47 -> k = 13 * word_count text / 10) /\
    count_tokens_rounded text = Ok r /\
    k <= r <= k + 1 /\
    (text = [] -> k = 0).
Proof.
  intros Hlen. pose proof (word_count_le text) as Hw.
  destruct (count_tokens_fallback_eq text Hlen) as (k & E & Hk & Et).
  destruct (count_times_1_3 (word_count text)) as [_ Hb]; [lia|].
  destruct (py_round_near_trunc _ _ _ Hb Et) as (r & Er & Hr).
  assert (Hx : word_count text < 2 ^ 47 -> k = 13 * word_count text / 10).
  { intros H47. rewrite int_of_product_1_3 in Et by lia. injection Et as <-. reflexivity. }
  destruct text as [| c text].
  - exists 0, 0. vm_compute in E. injection E as <-.
    repeat split; try reflexivity; lia.
  - exists k, r. repeat split; try tauto; try lia.
    + unfold count_tokens_rounded.
      destruct (int_to_float_bounded (word_count (c :: text)) 63) as [-> _]; try lia.
      * apply Zdigits2_le; try lia. unfold sys_maxsize in Hlen. lia.
      * exact Er.
    + discriminate.
Qed.

(** C2 does not hold as stated: two words give [int(2.6) = 2], while
    [round(2.6) = 3]. *)
Lemma count_tokens_fallback_is_not_round :
  count_tokens_fallback (lit "selectUserList user") = Ok 2 /\
  count_tokens_rounded (lit "selectUserList user") = Ok 3 /\
  count_tokens_fallback (lit "selectUserList user") <>
    count_tokens_rounded (lit "selectUserList user").
Proof. repeat split; vm_compute; try reflexivity; discriminate. Qed.

(** An instance: three words. *)
Lemma count_tokens_fallback_truncates_not_rounds_witness :
  exists k r,
    count_tokens_fallback (lit "one two three") = Ok k /\
    float_to_int (fmul (float_of_Z (word_count (lit "one two three"))) float_1_3) = Ok k /\
    (word_count (lit "one two three") < 2 ^ 47 ->
     k = 13 * word_count (lit "one two three") / 10) /\
    count_tokens_rounded (lit "one two three") = Ok r /\
    k <= r <= k + 1 /\
    (lit "one two three" = [] -> k = 0).
Proof.
  apply (count_tokens_fallback_truncates_not_rounds (lit "one two three")).
  vm_compute. discriminate.
Defined.

(** ** C3 *)

(** C3. The fallback counter splits the text on whitespace, counts the
    words (the places where a word starts), multiplies the count by the
    float [1.3] and truncates the product: the result [k] is the integer
    with [k <= product < k + 1], which for every count below [2^47] is the
    integer part of [13 * count / 10].  The empty text gives [0]. *)
Theorem count_tokens_fallback_spec text :
  len text <= sys_maxsize ->
  count_tokens_fallback [] = Ok 0 /\
  len (split text) = word_count text /\
  exists k,
    count_tokens_fallback text = Ok k /\
    let product := fmul (float_of_Z (len (split text))) float_1_3 in
    float_to_int product = Ok k /\
    (inject_Z k <= float_value product)%Q /\
    (float_value product < inject_Z k + 1)%Q /\
    (len (split text) < 2 ^ 47 -> k = 13 * len (split text) / 10).
Proof.
  intros Hlen. pose proof (word_count_le text) as Hw.
  split; [reflexivity|]. split; [apply split_count|].
  destruct (count_tokens_fallback_eq text Hlen) as (k & E & Hk & Et).
  destruct (count_times_1_3 (word_count text)) as [_ Hb]; [lia|].
  exists k. split; [exact E|]. cbv zeta. rewrite split_count.
  split; [exact Et|].
  destruct (float_to_int_floor _ _ _ Hb Et) as [H1 H2].
  split; [exact H1|]. split; [exact H2|].
  intros H47. rewrite int_of_product_1_3 in Et by lia. injection Et as <-. reflexivity.
Qed.

(** An instance: a text with leading, doubled and trailing spaces. *)
Lemma count_tokens_fallback_spec_witness :
  count_tokens_fallback [] = Ok 0 /\
  len (split (lit "  public  List<SysUser> selectUserList ")) =
    word_count (lit "  public  List<SysUser> selectUserList ") /\
  exists k,
    count_tokens_fallback (lit "  public  List<SysUser> selectUserList ") = Ok k /\
    let product :=
      fmul (float_of_Z (len (split (lit "  public  List<SysUser> selectUserList "))))
        float_1_3 in
    float_to_int product = Ok k /\
    (inject_Z k <= float_value product)%Q /\
    (float_value product < inject_Z k + 1)%Q /\
    (len (split (lit "  public  List<SysUser> selectUserList ")) < 2 ^ 47 ->
     k = 13 * len (split (lit "  public  List<SysUser> selectUserList ")) / 10).
Proof.
  apply (count_tokens_fallback_spec (lit "  public  List<SysUser> selectUserList ")).
  vm_compute. discriminate.
Defined.

(** ** C4 *)

(** C4. Each percentage change of the report is [0], with no division,
    when its baseline is [0]: the token change when the baseline has no
    tokens, the step change when it has no steps, the density change when
    the baseline has no steps or no tokens (its density is then the
    integer [0] or the float [0.0]).  No division by zero can be reached:
    for every pair of trackers the metrics and the whole of [print_report]
    never raise [ZeroDivisionError]. *)
Theorem percentage_changes_guard_zero :
  (forall e, pct_change (PInt 0) e = Ok (PInt 0)) /\
  (forall s e, pct_change (PFloat (S754_zero s)) e = Ok (PInt 0)) /\
  (forall b e, not_zero_division (report_metrics b e)) /\
  (forall b e m, report_metrics b e = Ok m ->
     pct_change (PInt (total_tokens b)) (PInt (total_tokens e)) = Ok (diff_tok m) /\
     pct_change (PInt (len (steps b))) (PInt (len (steps e))) = Ok (diff_steps m) /\
     pct_change (base_density m) (exp_density m) = Ok (diff_density m) /\
     (total_tokens b = 0 -> diff_tok m = PInt 0) /\
     (steps b = [] -> diff_steps m = PInt 0) /\
     (steps b = [] \/ total_tokens b = 0 -> diff_density m = PInt 0)) /\
  (forall env b e w, not_zero_division (fst (print_report env b e w))).
Proof.
  split; [reflexivity|]. split; [reflexivity|].
  split; [intros; apply only_overflow_not_zero_division, report_metrics_oo|].
  split.
  - intros b e m. rewrite report_metrics_eq.
    destruct (pct_change (PInt (total_tokens b)) (PInt (total_tokens e))) as [dt |] eqn:Et;
      [|discriminate]. cbn [rbind].
    destruct (pct_change (PInt (len (steps b))) (PInt (len (steps e)))) as [ds |] eqn:Es;
      [|discriminate]. cbn [rbind].
    destruct (if py_gt (PInt (len (steps b))) (PInt 0)
              then py_truediv (PInt (total_tokens b)) (PInt (len (steps b)))
              else Ok (PInt 0)) as [bd |] eqn:Eb; [|discriminate]. cbn [rbind].
    destruct (if py_gt (PInt (len (steps e))) (PInt 0)
              then py_truediv (PInt (total_tokens e)) (PInt (len (steps e)))
              else Ok (PInt 0)) as [ed |]; [|discriminate]. cbn [rbind].
    destruct (pct_change bd ed) as [dd |] eqn:Ed; [|discriminate]. cbn [rbind].
    intros E. injection E as <-.
    cbn [diff_tok diff_steps diff_density base_density exp_density].
    split; [reflexivity|]. split; [reflexivity|]. split; [exact Ed|].
    split; [|split].
    + intros H0. rewrite H0 in Et. cbn in Et. congruence.
    + intros H0. rewrite H0 in Es. cbn in Es. congruence.
    + intros [H0 | H0].
      * rewrite H0 in Eb. cbn in Eb. injection Eb as <-. cbn in Ed. congruence.
      * rewrite H0 in Eb. destruct (py_gt (PInt (len (steps b))) (PInt 0)) eqn:G.
        -- cbn in G. apply Z.ltb_lt in G. cbn [py_truediv] in Eb.
           unfold int_truediv in Eb.
           destruct (len (steps b)) as [| q | q]; try lia.
           cbn in Eb. injection Eb as <-. cbn in Ed. congruence.
        -- injection Eb as <-. cbn in Ed. congruence.
  - intros env b e w.
    apply only_overflow_not_zero_division, print_report_prints_only.
Qed.

(** An instance: an empty baseline against the experimental example. *)
Lemma percentage_changes_guard_zero_witness :
  report_metrics (mkResult (lit "Baseline (grep/cat)") [] 0 (PInt 0)) experimental_example =
    Ok (mkMetrics 0 70 (PInt 0) 0 2 (PInt 0) (PInt 0)
          (PFloat (S754_finite false 4925812092436480 (-47))) (PInt 0)) /\
  pct_change (PInt 0) (PInt 70) = Ok (PInt 0) /\
  pct_change (PInt 0) (PFloat (S754_finite false 4925812092436480 (-47))) = Ok (PInt 0) /\
  not_zero_division
    (fst (print_report demo_env (mkResult (lit "Baseline (grep/cat)") [] 0 (PInt 0))
            experimental_example initial_world)).
Proof.
  assert (E : report_metrics (mkResult (lit "Baseline (grep/cat)") [] 0 (PInt 0))
                experimental_example =
              Ok (mkMetrics 0 70 (PInt 0) 0 2 (PInt 0) (PInt 0)
                    (PFloat (S754_finite false 4925812092436480 (-47))) (PInt 0)))
    by (vm_compute; reflexivity).
  destruct percentage_changes_guard_zero as (_ & _ & _ & H & Hp).
  destruct (H _ _ _ E) as (H1 & _ & H3 & _).
  split; [exact E|]. split; [exact H1|]. split; [exact H3|]. apply Hp.
Defined.

(** ** C5 *)

(** C5. For a baseline tracker whose steps have token counts
    [100, 200, 50] and an experimental tracker with [30, 40], both as
    [add_step] builds them (the totals being the sums), [print_report]
    raises nothing and prints the banner and the table of four rows: total
    tokens 350 and 70 with -80.0%, steps 3 and 2 with -33.3%, average
    tokens per step 116.7 and 35.0 with -70.0%, and the row of the times.
    Without the table library the lines printed are the ones displayed
    below; with it, these cells are what the library is given, and the
    one table printed is its rendering of them, which is the library's
    own. *)
Theorem report_rows_example env b e w :
  map tokens (steps b) = [100; 200; 50] ->
  map tokens (steps e) = [30; 40] ->
  tracker_inv b -> tracker_inv e ->
  exists time_row,
    let rows :=
      [[lit "Total Search Tokens"; lit "350"; lit "70"; lit "-80.0%"];
       [lit "Steps to Solution"; lit "3"; lit "2"; lit "-33.3%"];
       [lit "Avg Tokens/Step"; lit "116.7"; lit "35.0"; lit "-70.0%"];
       time_row] in
    row_time b e = Ok time_row /\
    print_report env b e w =
      (Ok tt,
       mkWorld (stdout w ++ report_lines env rows)
         (subprocess_calls w) (ticks w) (heap w)) /\
    (tabulate env = None ->
     report_lines env rows =
       [[newline; newline];
        lit "######################################################";
        lit "#                  BENCHMARK REPORT                  #";
        lit "######################################################";
        lit "Metric                    | Baseline (grep/cat)  | Experimental (git-ai) | Improvement    ";
        lit "------------------------------------------------------------------------------------------";
        lit "Total Search Tokens       | 350                  | 70                   | -80.0%         ";
        lit "Steps to Solution         | 3                    | 2                    | -33.3%         ";
        lit "Avg Tokens/Step           | 116.7                | 35.0                 | -70.0%         ";
        row_format time_row]) /\
    (forall table, tabulate env = Some table ->
     report_lines env rows =
       [[newline; newline];
        lit "######################################################";
        lit "#                  BENCHMARK REPORT                  #";
        lit "######################################################";
        table rows headers]).
Proof.
  intros Hb He Ib Ie.
  assert (Lb : len (steps b) = 3).
  { unfold len. rewrite <- (length_map tokens), Hb. reflexivity. }
  assert (Le : len (steps e) = 2).
  { unfold len. rewrite <- (length_map tokens), He. reflexivity. }
  pose proof Ib as [Tb _]. pose proof Ie as [Te _].
  rewrite Hb in Tb. rewrite He in Te.
  change (sum_tokens [100; 200; 50]) with 350 in Tb.
  change (sum_tokens [30; 40]) with 70 in Te.
  assert (Hm : exists m,
    report_metrics b e = Ok m /\
    row_tokens m = Ok [lit "Total Search Tokens"; lit "350"; lit "70"; lit "-80.0%"] /\
    row_steps m = Ok [lit "Steps to Solution"; lit "3"; lit "2"; lit "-33.3%"] /\
    row_density m = Ok [lit "Avg Tokens/Step"; lit "116.7"; lit "35.0"; lit "-70.0%"]).
  { rewrite report_metrics_eq, Lb, Le, Tb, Te.
    eexists. split; [vm_compute; reflexivity|].
    repeat split; vm_compute; reflexivity. }
  destruct Hm as (m & Em & E1 & E2 & E3).
  apply tracker_inv_time_ok in Ib, Ie.
  assert (R4 : exists r, row_time b e = Ok r).
  { unfold row_time. destruct (format_f_ok 2 _ Ib) as [s1 ->].
    destruct (format_f_ok 2 _ Ie) as [s2 ->]. cbn [rbind].
    destruct (py_sub_time_ok _ _ Ie Ib) as (d & -> & Hd). cbn [rbind].
    destruct (format_f_ok 2 _ Hd) as [s3 ->]. eexists. reflexivity. }
  destruct R4 as [r4 E4]. exists r4. cbv zeta.
  split; [exact E4|].
  split; [exact (print_report_rows env b e w m _ _ _ r4 Em E1 E2 E3 E4)|].
  split.
  - intros Ht. unfold report_lines. rewrite Ht. vm_compute. reflexivity.
  - intros table Ht. unfold report_lines. rewrite Ht. vm_compute. reflexivity.
Qed.

(** An instance: the two example trackers, reported without the table
    library. *)
Lemma report_rows_example_witness :
  exists time_row,
    row_time baseline_example experimental_example = Ok time_row /\
    print_report demo_env baseline_example experimental_example initial_world =
      (Ok tt,
       mkWorld
         (stdout initial_world ++
          report_lines demo_env
            [[lit "Total Search Tokens"; lit "350"; lit "70"; lit "-80.0%"];
             [lit "Steps to Solution"; lit "3"; lit "2"; lit "-33.3%"];
             [lit "Avg Tokens/Step"; lit "116.7"; lit "35.0"; lit "-70.0%"];
             time_row])
         (subprocess_calls initial_world) (ticks initial_world) (heap initial_world)).
Proof.
  destruct (report_rows_example demo_env baseline_example experimental_example
              initial_world) as (r & E & P & _).
  - reflexivity.
  - reflexivity.
  - split; vm_compute; reflexivity.
  - split; vm_compute; reflexivity.
  - exists r. split; [exact E | exact P].
Defined.

(** The report for the two example trackers, as the fallback renderer
    prints it. *)
Example report_example_printed :
  print_report demo_env baseline_example experimental_example initial_world =
  (Ok tt,
   mkWorld
     [[newline; newline];
      lit "######################################################";
      lit "#                  BENCHMARK REPORT                  #";
      lit "######################################################";
      lit "Metric                    | Baseline (grep/cat)  | Experimental (git-ai) | Improvement    ";
      lit "------------------------------------------------------------------------------------------";
      lit "Total Search Tokens       | 350                  | 70                   | -80.0%         ";
      lit "Steps to Solution         | 3                    | 2                    | -33.3%         ";
      lit "Avg Tokens/Step           | 116.7                | 35.0                 | -70.0%         ";
      lit "Total Time (s)            | 1.50                 | 0.50                 | -1.00s         "]
     [] 0 []).
Proof. vm_compute. reflexivity. Qed.

(** ** C6 *)

(** C6, as the code has it.  The experimental driver issues exactly its
    four [git-ai] commands, in order (symbol query, graph callers, graph
    chain, semantic query with [--topk 2]).  The baseline driver issues
    its five commands, in order (find by name, [grep -n] for the
    signature, [cat] of the target file, recursive [grep] through
    [head -n 20], [cat] of the fixed caller file), when [int()] accepts
    the line number that the [grep -n] output starts with; when [int()]
    refuses it, the driver raises [ValueError] after the second command,
    with two steps recorded.  A driver that returns, returns a tracker of
    its own, holding one step per command in execution order; the other
    trackers are left as they were. *)
Theorem drivers_issue_fixed_commands env runner w :
  env_wf env ->
  (forall n, search_line_num env (grep_output env runner w) = Ok n ->
   exists w',
     run_baseline env runner w = (Ok (length (heap w)), w') /\
     let cmds := baseline_commands (baseline_target env runner w) in
     length cmds = 5%nat /\
     subprocess_calls w' = subprocess_calls w ++ map (pair (cwd runner)) cmds /\
     map command (steps (tracker_at (length (heap w)) w')) = cmds /\
     Forall2 is_first_token cmds (map tool (steps (tracker_at (length (heap w)) w'))) /\
     (forall r, (r < length (heap w))%nat -> tracker_at r w' = tracker_at r w)) /\
  (search_line_num env (grep_output env runner w) = Raise ValueError ->
   exists w',
     run_baseline env runner w = (Raise ValueError, w') /\
     let cmds := baseline_commands_2 (baseline_target env runner w) in
     length cmds = 2%nat /\
     subprocess_calls w' = subprocess_calls w ++ map (pair (cwd runner)) cmds /\
     map command (steps (tracker_at (length (heap w)) w')) = cmds /\
     Forall2 is_first_token cmds (map tool (steps (tracker_at (length (heap w)) w'))) /\
     (forall r, (r < length (heap w))%nat -> tracker_at r w' = tracker_at r w)) /\
  ((exists n, search_line_num env (grep_output env runner w) = Ok n) \/
   search_line_num env (grep_output env runner w) = Raise ValueError) /\
  (exists w',
     run_git_ai env runner w = (Ok (length (heap w)), w') /\
     length git_ai_commands = 4%nat /\
     subprocess_calls w' = subprocess_calls w ++ map (pair (cwd runner)) git_ai_commands /\
     map command (steps (tracker_at (length (heap w)) w')) = git_ai_commands /\
     Forall2 is_first_token git_ai_commands
       (map tool (steps (tracker_at (length (heap w)) w'))) /\
     (forall r, (r < length (heap w))%nat -> tracker_at r w' = tracker_at r w)).
Proof.
  intros wf. split; [|split; [|split]].
  - intros n Hn.
    destruct (run_baseline_spec env wf runner w n Hn)
      as (w' & E & _ & _ & Hc & Hs & Ht & _ & Hf).
    exists w'. cbv zeta.
    split; [exact E|]. split; [reflexivity|]. split; [exact Hc|]. split; [exact Hs|].
    split; [exact Ht | exact Hf].
  - intros He.
    destruct (run_baseline_stops env wf runner w ValueError He)
      as (w' & E & _ & _ & Hc & Hs & Ht & _ & Hf).
    exists w'. cbv zeta.
    split; [exact E|]. split; [reflexivity|]. split; [exact Hc|]. split; [exact Hs|].
    split; [exact Ht | exact Hf].
  - destruct (search_line_num env (grep_output env runner w)) as [n | e] eqn:E.
    + left. exists n. reflexivity.
    + right. rewrite (search_line_num_raises env _ _ E). reflexivity.
  - destruct (run_git_ai_spec env wf runner w) as (w' & E & _ & _ & Hc & Hs & Ht & _ & Hf).
    exists w'.
    split; [exact E|]. split; [reflexivity|]. split; [exact Hc|]. split; [exact Hs|].
    split; [exact Ht | exact Hf].
Qed.

(** An instance: both drivers in the demonstration environment, where the
    [grep -n] output starts with [87:]. *)
Lemma drivers_issue_fixed_commands_witness :
  search_line_num demo_env
    (grep_output demo_env (mkRunner (lit "/srv/ruoyi")) initial_world) = Ok 87 /\
  (exists w',
     run_baseline demo_env (mkRunner (lit "/srv/ruoyi")) initial_world = (Ok 0%nat, w') /\
     subprocess_calls w' =
       map (pair (lit "/srv/ruoyi"))
         (baseline_commands (lit "./ruoyi-system/src/SysUserServiceImpl.java")) /\
     map command (steps (tracker_at 0%nat w')) =
       baseline_commands (lit "./ruoyi-system/src/SysUserServiceImpl.java")) /\
  (exists w',
     run_git_ai demo_env (mkRunner (lit "/srv/ruoyi")) initial_world = (Ok 0%nat, w') /\
     subprocess_calls w' = map (pair (lit "/srv/ruoyi")) git_ai_commands /\
     map command (steps (tracker_at 0%nat w')) = git_ai_commands).
Proof.
  assert (wf : env_wf demo_env).
  { intros k dir cmd. do 5 (destruct k as [| k]; [vm_compute; discriminate|]).
    vm_compute. discriminate. }
  assert (Hn : search_line_num demo_env
                 (grep_output demo_env (mkRunner (lit "/srv/ruoyi")) initial_world) = Ok 87)
    by (vm_compute; reflexivity).
  destruct (drivers_issue_fixed_commands demo_env (mkRunner (lit "/srv/ruoyi"))
              initial_world wf) as (H1 & _ & _ & (w2 & E2 & _ & C2 & S2 & _)).
  destruct (H1 87 Hn) as (w1 & E1 & _ & C1 & S1 & _).
  split; [exact Hn|].
  split; [exists w1 | exists w2]; repeat split; assumption.
Defined.

(** C6 does not hold for every output of [grep -n]: when it starts with a
    run of 4301 digits and a colon, [int(match.group(1))] on line 86
    raises [ValueError]; the baseline driver has then issued two commands
    and recorded two steps, and returns no tracker. *)
Lemma baseline_driver_stops_at_long_line_number :
  env_wf long_numeral_env /\
  fst (run_baseline long_numeral_env (mkRunner (lit "/srv/ruoyi")) initial_world) =
    Raise ValueError /\
  subprocess_calls
    (snd (run_baseline long_numeral_env (mkRunner (lit "/srv/ruoyi")) initial_world)) =
    map (pair (lit "/srv/ruoyi")) (baseline_commands_2 default_target_file) /\
  length (steps (tracker_at 0%nat
    (snd (run_baseline long_numeral_env (mkRunner (lit "/srv/ruoyi")) initial_world)))) =
    2%nat.
Proof.
  split.
  - intros k dir cmd. do 2 (destruct k as [| k]; [vm_compute; discriminate|]).
    vm_compute. discriminate.
  - repeat split; vm_compute; reflexivity.
Qed.

(** ** C7 *)

(** C7, as the code has it.  When no line of the first command's output,
    stripped, ends with [SysUserServiceImpl.java], and [int()] accepts the
    line number that the [grep -n] output starts with, the baseline driver
    takes the default path for the [grep] step and the [cat] step, raises
    nothing and completes its five steps. *)
Theorem baseline_falls_back_to_default_path env runner w n :
  env_wf env ->
  (forall line, In line (split_on newline (find_output env runner w)) ->
                endswith (strip line) target_name = false) ->
  search_line_num env (grep_output env runner w) = Ok n ->
  exists w',
    run_baseline env runner w = (Ok (length (heap w)), w') /\
    map command (steps (tracker_at (length (heap w)) w')) =
      [lit "find . -name SysUserServiceImpl.java";
       lit "grep -n 'List<SysUser> selectUserList' ruoyi-system/src/main/java/com/ruoyi/system/service/impl/SysUserServiceImpl.java";
       lit "cat ruoyi-system/src/main/java/com/ruoyi/system/service/impl/SysUserServiceImpl.java";
       lit "grep -r 'selectUserList' . | head -n 20";
       lit "cat ruoyi-admin/src/main/java/com/ruoyi/web/controller/system/SysUserController.java"] /\
    subprocess_calls w' =
      subprocess_calls w ++
      map (pair (cwd runner)) (baseline_commands default_target_file).
Proof.
  intros wf Hno Hn.
  destruct (run_baseline_spec env wf runner w n Hn) as (w' & E & _ & _ & Hc & Hs & _).
  assert (Ht : baseline_target env runner w = default_target_file).
  { unfold baseline_target. rewrite (matching_paths_nil _ Hno). reflexivity. }
  rewrite Ht in Hc, Hs.
  exists w'. split; [exact E|]. split; [|exact Hc].
  rewrite Hs. vm_compute. reflexivity.
Qed.

(** An instance: a directory tree where [find] and [grep] print nothing. *)
Lemma baseline_falls_back_to_default_path_witness :
  exists w',
    run_baseline empty_env (mkRunner (lit "/tmp/empty")) initial_world = (Ok 0%nat, w') /\
    map command (steps (tracker_at 0%nat w')) =
      [lit "find . -name SysUserServiceImpl.java";
       lit "grep -n 'List<SysUser> selectUserList' ruoyi-system/src/main/java/com/ruoyi/system/service/impl/SysUserServiceImpl.java";
       lit "cat ruoyi-system/src/main/java/com/ruoyi/system/service/impl/SysUserServiceImpl.java";
       lit "grep -r 'selectUserList' . | head -n 20";
       lit "cat ruoyi-admin/src/main/java/com/ruoyi/web/controller/system/SysUserController.java"] /\
    subprocess_calls w' =
      map (pair (lit "/tmp/empty")) (baseline_commands default_target_file).
Proof.
  apply (baseline_falls_back_to_default_path empty_env (mkRunner (lit "/tmp/empty"))
           initial_world 1).
  - intros k dir cmd. vm_compute. discriminate.
  - intros line [<- | []]. vm_compute. reflexivity.
  - vm_compute. reflexivity.
Defined.

(** C7 does not hold for every output of [grep -n]: here [find] prints
    nothing, so that no line matches and the default path is taken, and
    [grep -n] prints a run of 4301 digits and a colon; the driver raises
    [ValueError], and the [cat] step of the default path is never
    reached. *)
Lemma baseline_fallback_raises_at_long_line_number :
  env_wf long_numeral_env /\
  (forall line,
     In line (split_on newline
                (find_output long_numeral_env (mkRunner (lit "/tmp/empty")) initial_world)) ->
     endswith (strip line) target_name = false) /\
  fst (run_baseline long_numeral_env (mkRunner (lit "/tmp/empty")) initial_world) =
    Raise ValueError /\
  map command (steps (tracker_at 0%nat
    (snd (run_baseline long_numeral_env (mkRunner (lit "/tmp/empty")) initial_world)))) =
    [lit "find . -name SysUserServiceImpl.java";
     lit "grep -n 'List<SysUser> selectUserList' ruoyi-system/src/main/java/com/ruoyi/system/service/impl/SysUserServiceImpl.java"].
Proof.
  split; [|split; [|split]].
  - intros k dir cmd. do 2 (destruct k as [| k]; [vm_compute; discriminate|]).
    vm_compute. discriminate.
  - intros line [<- | []]. vm_compute. reflexivity.
  - vm_compute. reflexivity.
  - vm_compute. reflexivity.
Qed.

(** ** C8 *)

(** A command with a non-whitespace character has a first token. *)
Lemma has_first_token cmd :
  forallb isspace cmd = false -> exists tok rest, split cmd = tok :: rest.
Proof.
  intros H. destruct (split cmd) as [| tok rest] eqn:E; [|eauto].
  apply split_nil in E. congruence.
Qed.

(** C8, as the code has it.  When the process invocation of a command
    raises, and the command has a first token, [run_cmd] returns the
    description of the failure as the captured text and records one more
    step, with the token count and the length of that text. *)
Theorem run_cmd_absorbs_spawn_failure env self cmd r w msg :
  env_wf env ->
  (r < length (heap w))%nat ->
  tracker_inv (tracker_at r w) ->
  forallb isspace cmd = false ->
  spawn env (length (subprocess_calls w)) (cwd self) cmd = Failed msg ->
  exists tok toks w',
    run_cmd env self cmd r w = (Ok msg, w') /\
    is_first_token cmd tok /\
    count_tokens env msg = Ok toks /\
    steps (tracker_at r w') =
      steps (tracker_at r w) ++
      [mkStep tok cmd toks (fsub (clock env (S (ticks w))) (clock env (ticks w)))
         (len msg)] /\
    total_tokens (tracker_at r w') = total_tokens (tracker_at r w) + toks /\
    subprocess_calls w' = subprocess_calls w ++ [(cwd self, cmd)].
Proof.
  intros wf Hr Hinv Hcmd Hfail.
  destruct (has_first_token cmd Hcmd) as (tok & rest & Hs).
  destruct (run_cmd_spec env wf self cmd r w tok rest Hs Hr Hinv)
    as (E & _ & Hsteps & Hc & Htool).
  assert (Hout : cmd_output env self cmd w = msg).
  { unfold cmd_output. rewrite Hfail. reflexivity. }
  exists tok, (tokens (step_for env self cmd w)), (after_cmd env self cmd r w).
  rewrite Hout in E, Hc.
  split; [exact E|]. split; [eapply split_head; eassumption|]. split; [exact Hc|].
  split; [|split; [|reflexivity]].
  - rewrite Hsteps. f_equal. f_equal. unfold step_for. rewrite Hs, Hout. reflexivity.
  - unfold after_cmd, tracker_at. cbn [heap]. rewrite nth_update_same by exact Hr.
    reflexivity.
Qed.

(** An instance: a command whose process cannot be started. *)
Lemma run_cmd_absorbs_spawn_failure_witness :
  exists tok toks w',
    run_cmd broken_env (mkRunner (lit "/srv/ruoyi"))
      (lit "git-ai ai graph callers selectUserList") 0%nat fresh_world
      = (Ok (lit "[Errno 2] No such file or directory"), w') /\
    is_first_token (lit "git-ai ai graph callers selectUserList") tok /\
    count_tokens broken_env (lit "[Errno 2] No such file or directory") = Ok toks /\
    steps (tracker_at 0%nat w') =
      steps (tracker_at 0%nat fresh_world) ++
      [mkStep tok (lit "git-ai ai graph callers selectUserList") toks
         (fsub (clock broken_env (S (ticks fresh_world))) (clock broken_env (ticks fresh_world)))
         (len (lit "[Errno 2] No such file or directory"))] /\
    total_tokens (tracker_at 0%nat w') = total_tokens (tracker_at 0%nat fresh_world) + toks /\
    subprocess_calls w' =
      subprocess_calls fresh_world ++
      [(lit "/srv/ruoyi", lit "git-ai ai graph callers selectUserList")].
Proof.
  apply (run_cmd_absorbs_spawn_failure broken_env (mkRunner (lit "/srv/ruoyi"))
           (lit "git-ai ai graph callers selectUserList") 0%nat fresh_world
           (lit "[Errno 2] No such file or directory")).
  - intros k dir cmd. vm_compute. discriminate.
  - vm_compute. lia.
  - split; reflexivity.
  - reflexivity.
  - reflexivity.
Defined.

(** C8 does not hold for every command: the process invocation of the
    empty command raises, the failure is caught, and then
    [cmd_str.split()[0]] raises [IndexError]; no step is recorded and
    nothing is returned. *)
Lemma run_cmd_empty_command_propagates :
  spawn broken_env (length (subprocess_calls fresh_world)) (lit "/srv/ruoyi") [] =
    Failed (lit "[Errno 2] No such file or directory") /\
  fst (run_cmd broken_env (mkRunner (lit "/srv/ruoyi")) [] 0%nat fresh_world) =
    Raise IndexError /\
  steps (tracker_at 0%nat
           (snd (run_cmd broken_env (mkRunner (lit "/srv/ruoyi")) [] 0%nat fresh_world))) = [].
Proof. repeat split; vm_compute; reflexivity. Qed.

(** ** C9 *)

(** C9, as the code has it.  When the target directory does not exist,
    the main entry prints the error message and exits with status [1]; no
    process has been started and no tracker created.  When it exists, the
    main entry does not exit; and when [int()] accepts the line number
    that the [grep -n] output starts with, both drivers run, the
    baseline's five commands then the four [git-ai] commands, each on its
    own tracker. *)
Theorem main_exits_only_without_target_dir env argv w :
  env_wf env ->
  let dir := target_dir_of argv in
  (path_exists env dir = false ->
     main env argv w =
       (Raise (SystemExit 1),
        mkWorld
          (stdout w ++ [lit "Error: Target directory " ++ dir ++ lit " does not exist."])
          (subprocess_calls w) (ticks w) (heap w)) /\
     1 <> 0) /\
  (path_exists env dir = true ->
     not_exit (fst (main env argv w)) /\
     forall n, search_line_num env (grep_output env (mkRunner dir) w) = Ok n ->
       let w' := snd (main env argv w) in
       let target := baseline_target env (mkRunner dir) w in
       subprocess_calls w' =
         subprocess_calls w ++
         map (pair dir) (baseline_commands target ++ git_ai_commands) /\
       map command (steps (tracker_at (length (heap w)) w')) = baseline_commands target /\
       map command (steps (tracker_at (S (length (heap w))) w')) = git_ai_commands).
Proof.
  intros wf dir. split.
  - intros H. split; [apply main_missing_dir; exact H | discriminate].
  - intros H. split.
    + destruct (search_line_num env (grep_output env (mkRunner dir) w)) as [n | e] eqn:E.
      * destruct (main_existing_dir env wf argv w n H E) as (Ho & _).
        apply only_overflow_not_exit, Ho.
      * destruct (main_stops env wf argv w e H E) as (Hr & _).
        rewrite Hr, (search_line_num_raises env _ _ E). exact I.
    + intros n E.
      destruct (main_existing_dir env wf argv w n H E) as (_ & Hc & Hb & He & _).
      cbv zeta. split; [exact Hc|]. split; [exact Hb | exact He].
Qed.

(** Two instances: a missing directory, and the demonstration environment. *)
Lemma main_exits_only_without_target_dir_witness :
  main broken_env [lit "benchmark.py"; lit "/nonexistent"] initial_world =
    (Raise (SystemExit 1),
     mkWorld [lit "Error: Target directory /nonexistent does not exist."] [] 0%nat []) /\
  not_exit (fst (main demo_env [lit "benchmark.py"; lit "/srv/ruoyi"] initial_world)) /\
  subprocess_calls (snd (main demo_env [lit "benchmark.py"; lit "/srv/ruoyi"] initial_world)) =
    map (pair (lit "/srv/ruoyi"))
      (baseline_commands (lit "./ruoyi-system/src/SysUserServiceImpl.java") ++
       git_ai_commands).
Proof.
  split.
  - apply (main_exits_only_without_target_dir broken_env
             [lit "benchmark.py"; lit "/nonexistent"] initial_world).
    + intros k dir cmd. vm_compute. discriminate.
    + reflexivity.
  - assert (wf : env_wf demo_env).
    { intros k dir cmd. do 5 (destruct k as [| k]; [vm_compute; discriminate|]).
      vm_compute. discriminate. }
    destruct (main_exits_only_without_target_dir demo_env
                [lit "benchmark.py"; lit "/srv/ruoyi"] initial_world wf) as [_ H].
    destruct (H eq_refl) as (H1 & H2).
    destruct (H2 87 ltac:(vm_compute; reflexivity)) as (H3 & _).
    split; [exact H1 | exact H3].
Defined.

(** C9 does not hold for every existing directory: when the [grep -n]
    output starts with a run of 4301 digits and a colon, the main entry
    ends with [ValueError] inside the baseline driver; two commands have
    run, the experimental driver has not started (one tracker exists, no
    [git-ai] command was issued) and nothing has been reported. *)
Lemma main_stops_at_long_line_number :
  env_wf long_numeral_env /\
  path_exists long_numeral_env (target_dir_of [lit "benchmark.py"; lit "/srv/ruoyi"]) = true /\
  fst (main long_numeral_env [lit "benchmark.py"; lit "/srv/ruoyi"] initial_world) =
    Raise ValueError /\
  subprocess_calls
    (snd (main long_numeral_env [lit "benchmark.py"; lit "/srv/ruoyi"] initial_world)) =
    map (pair (lit "/srv/ruoyi")) (baseline_commands_2 default_target_file) /\
  length (heap (snd (main long_numeral_env [lit "benchmark.py"; lit "/srv/ruoyi"]
                       initial_world))) = 1%nat.
Proof.
  split; [|split; [|split; [|split]]].
  - intros k dir cmd. do 2 (destruct k as [| k]; [vm_compute; discriminate|]).
    vm_compute. discriminate.
  - reflexivity.
  - vm_compute. reflexivity.
  - vm_compute. reflexivity.
  - vm_compute. reflexivity.
Qed.

(** ** C10 *)

(** C10, as the code has it.  For a command string with a non-whitespace
    character, the tool name of the recorded step is the first
    whitespace-delimited token of the command.  An empty or all-whitespace
    command has no such token: [cmd_str.split()[0]] raises [IndexError]
    once the process has run, and no step is recorded. *)
Theorem run_cmd_tool_name env self cmd r w :
  env_wf env ->
  (r < length (heap w))%nat ->
  tracker_inv (tracker_at r w) ->
  (forallb isspace cmd = false ->
     exists s w',
       run_cmd env self cmd r w = (Ok (cmd_output env self cmd w), w') /\
       steps (tracker_at r w') = steps (tracker_at r w) ++ [s] /\
       command s = cmd /\
       is_first_token cmd (tool s) /\
       index0 (split cmd) = Ok (tool s)) /\
  (forallb isspace cmd = true ->
     fst (run_cmd env self cmd r w) = Raise IndexError /\
     heap (snd (run_cmd env self cmd r w)) = heap w).
Proof.
  intros wf Hr Hinv. split.
  - intros Hcmd. destruct (has_first_token cmd Hcmd) as (tok & rest & Hs).
    destruct (run_cmd_spec env wf self cmd r w tok rest Hs Hr Hinv)
      as (E & _ & Hsteps & _ & Htool).
    exists (step_for env self cmd w), (after_cmd env self cmd r w).
    split; [exact E|]. split; [exact Hsteps|]. split; [reflexivity|].
    rewrite Htool, Hs. split; [eapply split_head; eassumption | reflexivity].
  - intros Hcmd. apply split_nil in Hcmd.
    rewrite (run_cmd_no_token env self cmd r w Hcmd). split; reflexivity.
Qed.

(** Two instances: a command with spaces around its tool, and a blank one. *)
Lemma run_cmd_tool_name_witness :
  (exists s w',
     run_cmd demo_env (mkRunner (lit "/srv/ruoyi")) (lit "  cat   A.java") 0%nat fresh_world =
       (Ok (cmd_output demo_env (mkRunner (lit "/srv/ruoyi")) (lit "  cat   A.java")
              fresh_world), w') /\
     steps (tracker_at 0%nat w') = steps (tracker_at 0%nat fresh_world) ++ [s] /\
     command s = lit "  cat   A.java" /\
     is_first_token (lit "  cat   A.java") (tool s) /\
     index0 (split (lit "  cat   A.java")) = Ok (tool s)) /\
  fst (run_cmd demo_env (mkRunner (lit "/srv/ruoyi")) (lit "   ") 0%nat fresh_world) =
    Raise IndexError.
Proof.
  assert (wf : env_wf demo_env).
  { intros k dir cmd. do 5 (destruct k as [| k]; [vm_compute; discriminate|]).
    vm_compute. discriminate. }
  assert (Hr : (0 < length (heap fresh_world))%nat) by (vm_compute; lia).
  assert (Hi : tracker_inv (tracker_at 0%nat fresh_world)) by (split; reflexivity).
  split.
  - apply (run_cmd_tool_name demo_env (mkRunner (lit "/srv/ruoyi")) (lit "  cat   A.java")
             0%nat fresh_world wf Hr Hi). reflexivity.
  - apply (run_cmd_tool_name demo_env (mkRunner (lit "/srv/ruoyi")) (lit "   ")
             0%nat fresh_world wf Hr Hi). reflexivity.
Defined.

(** C10 does not hold for the empty and the all-whitespace command: the
    process runs and prints nothing, then the derivation of the tool name
    raises [IndexError] instead of recording a step. *)
Lemma tool_name_of_blank_command_raises :
  index0 (split []) = Raise IndexError /\
  index0 (split (lit "   ")) = Raise IndexError /\
  fst (run_cmd empty_env (mkRunner (lit "/srv/ruoyi")) [] 0%nat fresh_world) =
    Raise IndexError /\
  fst (run_cmd empty_env (mkRunner (lit "/srv/ruoyi")) (lit "   ") 0%nat fresh_world) =
    Raise IndexError /\
  steps (tracker_at 0%nat
           (snd (run_cmd empty_env (mkRunner (lit "/srv/ruoyi")) (lit "   ") 0%nat
                   fresh_world))) = [].
Proof. repeat split; vm_compute; reflexivity. Qed.

(** * Further properties *)

(** The demonstration environment respects the limit on string sizes. *)
Lemma demo_env_wf : env_wf demo_env.
Proof.
  intros k dir cmd. do 5 (destruct k as [| k]; [vm_compute; discriminate|]).
  vm_compute. discriminate.
Qed.

Lemma long_numeral_env_wf : env_wf long_numeral_env.
Proof.
  intros k dir cmd. do 2 (destruct k as [| k]; [vm_compute; discriminate|]).
  vm_compute. discriminate.
Qed.


(** ** Words of a text *)

Lemma split_from_app_space a : forall cur c b,
  isspace c = true ->
  split_from cur (a ++ c :: b) = split_from cur a ++ split b.
Proof.
  induction a as [| x a IH]; intros cur c b Hc.
  - simpl. rewrite Hc. destruct cur; reflexivity.
  - simpl. destruct (isspace x).
    + destruct cur; simpl; rewrite IH by exact Hc; reflexivity.
    + apply IH, Hc.
Qed.

(** Splitting distributes over a whitespace character. *)
Lemma split_app_space a c b :
  isspace c = true -> split (a ++ c :: b) = split a ++ split b.
Proof. apply split_from_app_space. Qed.

(** The words of the text captured from a process that wrote to its
    standard error: the words of its standard output, the marker
    [[STDERR]] as one word, and the words of its standard error. *)
Lemma captured_words out err :
  err <> [] ->
  split (captured (Completed out err)) = split out ++ [lit "[STDERR]"] ++ split err /\
  len (captured (Completed out err)) = len out + 10 + len err /\
  word_count (captured (Completed out err)) = word_count out + 1 + word_count err.
Proof.
  intros Herr.
  assert (E : captured (Completed out err) =
              out ++ newline :: (lit "[STDERR]" ++ newline :: err)).
  { destruct err; [contradiction | reflexivity]. }
  assert (S : split (captured (Completed out err)) =
              split out ++ [lit "[STDERR]"] ++ split err).
  { rewrite E, split_app_space by reflexivity.
    rewrite split_app_space by reflexivity. reflexivity. }
  split; [exact S|]. split.
  - rewrite E. unfold len. rewrite !length_app. cbn [length]. rewrite length_app.
    cbn [length]. change (length (lit "[STDERR]")) with 8%nat. lia.
  - rewrite <- !split_count, S. unfold len. rewrite !length_app. cbn [length]. lia.
Qed.

(** ** TokenCounter *)

(** The fallback counter is a function of the number of words. *)
Lemma count_tokens_fallback_words text :
  count_tokens_fallback text =
  rbind (py_mul (PInt (word_count text)) (PFloat float_1_3)) py_int.
Proof.
  destruct text as [| c text]; [vm_compute; reflexivity|].
  unfold count_tokens_fallback. rewrite split_count. reflexivity.
Qed.

(** X1. The fallback counter depends on the number of words only, not
    on the amount of whitespace or on the length of the text.  For a text
    of fewer than [2^47] characters it returns [w + 3w/10] for [w] words:
    at least the number of words, at most twice that number, and [0]
    exactly for a text without a non-whitespace character (empty or
    blank). *)
Theorem count_tokens_fallback_range text :
  len text < 2 ^ 47 ->
  exists k,
    count_tokens_fallback text = Ok k /\
    k = word_count text + 3 * word_count text / 10 /\
    word_count text <= k <= 2 * word_count text /\
    (k = 0 <-> forallb isspace text = true) /\
    (forall text', word_count text' = word_count text -> count_tokens_fallback text' = Ok k).
Proof.
  intros Hlen. pose proof (word_count_le text) as Hw.
  destruct (count_tokens_fallback_eq text) as (k & E & Hk & Et).
  { unfold sys_maxsize. lia. }
  rewrite int_of_product_1_3 in Et by lia. injection Et as <-.
  exists (13 * word_count text / 10). split; [exact E|].
  pose proof (Z.div_mod (13 * word_count text) 10 ltac:(lia)).
  pose proof (Z.mod_pos_bound (13 * word_count text) 10 ltac:(lia)).
  pose proof (Z.div_mod (3 * word_count text) 10 ltac:(lia)).
  pose proof (Z.mod_pos_bound (3 * word_count text) 10 ltac:(lia)).
  split; [lia|]. split; [lia|]. split.
  - rewrite <- split_nil. rewrite <- split_count in *. unfold len in *.
    destruct (split text); cbn [length] in *; split; intros; try discriminate; try lia.
    reflexivity.
  - intros text' Hw'. rewrite count_tokens_fallback_words, Hw', <- count_tokens_fallback_words.
    exact E.
Qed.

(** An instance: a blank text, and a text with the same words as another. *)
Lemma count_tokens_fallback_range_witness :
  count_tokens_fallback [32; 9; 32]%N = Ok 0 /\
  count_tokens_fallback (lit "  cat" ++ [newline] ++ lit "   A.java  ") =
    count_tokens_fallback (lit "cat A.java").
Proof.
  split.
  - destruct (count_tokens_fallback_range [32; 9; 32]%N) as (k & E & _ & _ & [_ H0] & _).
    + vm_compute. reflexivity.
    + rewrite E. f_equal. apply H0. reflexivity.
  - destruct (count_tokens_fallback_range (lit "cat A.java")) as (k & E & _ & _ & _ & H).
    + vm_compute. reflexivity.
    + rewrite E. apply H. reflexivity.
Defined.

(** ** The sign of a float, and of a token count *)

(** Rounding keeps the sign, and yields no NaN. *)
Lemma binary_round_aux_sign sx mx ex lx :
  0 <= mx -> has_sign sx (binary_round_aux prec emax sx mx ex lx).
Proof.
  intros Hm. unfold binary_round_aux.
  destruct (shr_fexp_m mx ex lx Hm) as [E1 M1]. cbv zeta in E1, M1.
  rewrite E1. set (mrs1 := fst (shr_fexp prec emax mx ex lx)) in *.
  set (e1 := if 0 <? _ then _ else ex) in *. clearbody e1.
  assert (H1 : 0 <= shr_m mrs1).
  { rewrite M1. destruct (Z.ltb_spec 0 (fexp prec emax (Zdigits2 mx + ex) - ex)); [|exact Hm].
    apply Z.div_pos; [exact Hm | apply Z.pow_pos_nonneg; lia]. }
  pose proof (round_nearest_even_bounds (shr_m mrs1) (loc_of_shr_record mrs1)) as Hr.
  set (m1 := round_nearest_even _ _) in *.
  destruct (shr_fexp_m m1 e1 loc_Exact ltac:(lia)) as [E2 M2]. cbv zeta in E2, M2.
  rewrite E2. set (mrs2 := fst (shr_fexp prec emax m1 e1 loc_Exact)) in *.
  assert (H2 : 0 <= shr_m mrs2).
  { rewrite M2. destruct (Z.ltb_spec 0 (fexp prec emax (Zdigits2 m1 + e1) - e1)); [|lia].
    apply Z.div_pos; [lia | apply Z.pow_pos_nonneg; lia]. }
  destruct (shr_m mrs2) as [| p | p]; [reflexivity | | lia].
  destruct (_ <=? _); reflexivity.
Qed.

Lemma float_of_Z_sign n : 0 <= n -> has_sign false (float_of_Z n).
Proof.
  intros Hn. unfold float_of_Z, binary_normalize.
  destruct n as [| p | p]; [reflexivity | | lia].
  unfold binary_round. destruct (shl_align _ _ _) as [mz ez].
  apply binary_round_aux_sign. lia.
Qed.

(** The product of two floats that are not infinities. *)
Lemma fmul_sign x y sx sy :
  has_sign sx x -> has_sign sy y ->
  (forall s, x <> S754_infinity s) -> (forall s, y <> S754_infinity s) ->
  has_sign (xorb sx sy) (fmul x y).
Proof.
  destruct x as [s1 | s1 | | s1 m1 e1], y as [s2 | s2 | | s2 m2 e2];
    cbn [has_sign]; intros Hx Hy Ix Iy; subst; try contradiction; try reflexivity;
    try (exfalso; eapply Ix; reflexivity); try (exfalso; eapply Iy; reflexivity).
  apply binary_round_aux_sign. lia.
Qed.

Lemma float_to_int_sign f :
  has_sign false f ->
  only_overflow (float_to_int f) /\ forall k, float_to_int f = Ok k -> 0 <= k.
Proof.
  destruct f as [s | s | | s m e]; cbn [has_sign float_to_int only_overflow];
    intros Hs; try contradiction; (split; [exact I|]); intros k E;
    try discriminate; injection E as <-; [lia|].
  subst s. cbn [cond_Zopp]. apply Z.shiftl_nonneg. lia.
Qed.

(** A token count is never negative, and the counter raises at most
    [OverflowError]. *)
Lemma count_tokens_sign env text :
  only_overflow (count_tokens env text) /\
  forall k, count_tokens env text = Ok k -> 0 <= k.
Proof.
  unfold count_tokens. destruct (tiktoken env) as [enc |].
  - split; [exact I|]. intros k E. injection E as <-. unfold len. lia.
  - unfold count_tokens_fallback. destruct text as [| c text].
    + split; [exact I|]. intros k E. injection E as <-. lia.
    + set (n := len (split (c :: text))).
      assert (Hn : 0 <= n) by (unfold n, len; lia).
      unfold py_mul, arith. cbn [to_float]. unfold int_to_float.
      pose proof (float_of_Z_sign n Hn) as Hs.
      destruct (float_of_Z n) as [s | s | | s m e] eqn:Ef; cbn [rbind py_int];
        try contradiction.
      * apply float_to_int_sign. apply (fmul_sign _ _ false false); try reflexivity;
          try exact Hs; discriminate.
      * split; [exact I | discriminate].
      * apply float_to_int_sign. apply (fmul_sign _ _ false false); try reflexivity;
          try exact Hs; discriminate.
Qed.

(** X2. The contract of the token counter, for the fallback and for a
    tokenizer that accepts every text (as the environment has it), and for
    every text: a count is never negative, the only exception the counter
    can raise is [OverflowError], and it raises none on a text within the
    size limit of Python strings. *)
Theorem count_tokens_contract env text :
  (forall k, count_tokens env text = Ok k -> 0 <= k) /\
  only_overflow (count_tokens env text) /\
  (len text <= sys_maxsize -> exists k, count_tokens env text = Ok k).
Proof.
  destruct (count_tokens_sign env text) as [Ho Hk].
  split; [exact Hk|]. split; [exact Ho|].
  intros Hlen. destruct (count_tokens_total env text Hlen) as (k & E & _). eauto.
Qed.

(** An instance: a text of three words, without the tokenizer library. *)
Lemma count_tokens_contract_witness :
  exists k, count_tokens empty_env (lit "a b c") = Ok k /\ 0 <= k.
Proof.
  destruct (count_tokens_contract empty_env (lit "a b c")) as (Hk & _ & H).
  destruct H as [k E]; [vm_compute; discriminate|].
  exists k. split; [exact E | apply Hk, E].
Defined.

Lemma sum_tokens_from l : forall a, fold_left Z.add l a = a + sum_tokens l.
Proof.
  unfold sum_tokens. induction l as [| x l IH]; intros a; cbn [fold_left].
  - lia.
  - rewrite IH, (IH (0 + x)). lia.
Qed.

Lemma sum_tokens_app l1 l2 : sum_tokens (l1 ++ l2) = sum_tokens l1 + sum_tokens l2.
Proof. unfold sum_tokens at 1. rewrite fold_left_app. apply sum_tokens_from. Qed.

(** The sum of counts in [[0, B)]. *)
Lemma sum_tokens_bounds B l :
  Forall (fun x => 0 <= x < B) l -> 0 <= sum_tokens l <= len l * B.
Proof.
  induction 1 as [| x l Hx _ IH].
  - unfold len, sum_tokens. cbn [fold_left length]. lia.
  - change (x :: l) with ([x] ++ l). rewrite sum_tokens_app.
    change (sum_tokens [x]) with (0 + x). unfold len in *. rewrite length_app.
    cbn [length]. nia.
Qed.

Lemma step_of_counts env c :
  Forall (fun s => 0 <= tokens s /\ 0 <= output_len s) (step_of env c).
Proof.
  unfold step_of. destruct (count_tokens env (c_output c)) as [n |] eqn:E; constructor;
    [|constructor]. cbn [tokens output_len]. split.
  - eapply count_tokens_sign, E.
  - unfold len. lia.
Qed.

(** ** ResultTracker *)

Section TrackerMore.

Variable env : Env.

(** X3. [add_step] on a tracker that satisfies the invariant is all or
    nothing: when the token count of the output can be computed, the step
    is appended, both totals are updated and one progress line is printed;
    when it cannot, the exception leaves the world exactly as it was.  The
    tracker is never left half updated. *)
Theorem add_step_all_or_nothing self tl cmd output d w :
  (self < length (heap w))%nat ->
  tracker_inv (tracker_at self w) ->
  match count_tokens env output with
  | Ok toks =>
      let s := mkStep tl cmd toks d (len output) in
      add_step env self tl cmd output d w =
        (Ok tt,
         mkWorld (stdout w ++ [step_line (len (steps (tracker_at self w)) + 1) s])
           (subprocess_calls w) (ticks w) (update self (record_step s) (heap w))) /\
      tracker_inv (record_step s (tracker_at self w))
  | Raise e => add_step env self tl cmd output d w = (Raise e, w)
  end.
Proof.
  intros Hr Hinv. destruct (count_tokens env output) as [toks | e] eqn:Hc.
  - split.
    + apply add_step_ok; auto using tracker_inv_time_ok.
    + apply tracker_inv_record, Hinv.
  - apply add_step_raise, Hc.
Qed.

(** X4. The progress lines of a sequence of [add_step] calls are numbered
    consecutively, from the number of steps already recorded plus one:
    there is one line per recorded step, in order, a call that raises
    prints nothing and uses no number, and [add_step] neither starts a
    process nor reads the clock. *)
Theorem progress_lines_numbered self calls : forall w,
  (self < length (heap w))%nat ->
  tracker_inv (tracker_at self w) ->
  stdout (run_calls env self calls w) =
    stdout w ++
    numbered_lines (len (steps (tracker_at self w)) + 1) (flat_map (step_of env) calls) /\
  subprocess_calls (run_calls env self calls w) = subprocess_calls w /\
  ticks (run_calls env self calls w) = ticks w.
Proof.
  induction calls as [| c calls IH]; intros w Hr Hinv.
  - simpl. rewrite app_nil_r. auto.
  - change (run_calls env self (c :: calls) w) with
      (run_calls env self calls
         (snd (add_step env self (c_tool c) (c_command c) (c_output c) (c_duration c) w))).
    cbn [flat_map]. unfold step_of at 1.
    destruct (count_tokens env (c_output c)) as [toks | e] eqn:Ec.
    + rewrite (add_step_ok env self _ _ _ _ _ _ Ec Hr (tracker_inv_time_ok _ Hinv)).
      cbn [snd].
      set (s := mkStep (c_tool c) (c_command c) toks (c_duration c) (len (c_output c))).
      set (w1 := mkWorld _ _ _ _).
      assert (Hr1 : (self < length (heap w1))%nat).
      { unfold w1. cbn [heap]. rewrite update_length. exact Hr. }
      assert (Et : tracker_at self w1 = record_step s (tracker_at self w)).
      { unfold w1, tracker_at. cbn [heap]. apply nth_update_same, Hr. }
      assert (Hi1 : tracker_inv (tracker_at self w1)).
      { rewrite Et. apply tracker_inv_record, Hinv. }
      destruct (IH w1 Hr1 Hi1) as (Ho & Hc & Ht). rewrite Ho, Hc, Ht, Et.
      cbn [record_step steps]. unfold w1. cbn [stdout subprocess_calls ticks].
      rewrite <- app_assoc. cbn [app numbered_lines].
      replace (len (steps (tracker_at self w) ++ [s]) + 1)
        with (len (steps (tracker_at self w)) + 1 + 1); [auto|].
      unfold len. rewrite length_app. cbn [length]. lia.
    + rewrite (add_step_raise env self _ _ _ _ _ _ Ec). cbn [snd app].
      apply IH; assumption.
Qed.

(** X5. Every step [add_step] records has a non-negative token count and
    a non-negative output length, so the total of tokens and the number
    of steps of a tracker never decrease. *)
Theorem recorded_counts_nonneg self calls w :
  (self < length (heap w))%nat ->
  tracker_inv (tracker_at self w) ->
  let w' := run_calls env self calls w in
  Forall (fun s => 0 <= tokens s /\ 0 <= output_len s) (flat_map (step_of env) calls) /\
  total_tokens (tracker_at self w) <= total_tokens (tracker_at self w') /\
  len (steps (tracker_at self w)) <= len (steps (tracker_at self w')).
Proof.
  intros Hr Hinv w'.
  assert (HF : Forall (fun s => 0 <= tokens s /\ 0 <= output_len s)
                 (flat_map (step_of env) calls)).
  { induction calls as [| c calls IH]; [constructor|]. cbn [flat_map].
    apply Forall_app. split; [apply step_of_counts | exact IH]. }
  split; [exact HF|].
  destruct (run_calls_inv env self calls w Hr Hinv) as (_ & [Ht' _] & Hs & _).
  fold w' in Ht', Hs. destruct Hinv as [Ht _].
  rewrite Ht', Ht, Hs, map_app, sum_tokens_app. unfold len. rewrite length_app.
  split; [|lia].
  assert (0 <= sum_tokens (map tokens (flat_map (step_of env) calls))); [|lia].
  clear - HF. induction HF as [| s l [Hs _] _ IH]; [reflexivity|].
  cbn [map]. change (tokens s :: map tokens l) with ([tokens s] ++ map tokens l).
  rewrite sum_tokens_app. change (sum_tokens [tokens s]) with (0 + tokens s). lia.
Qed.

End TrackerMore.

(** An instance: one step on a fresh tracker. *)
Lemma add_step_all_or_nothing_witness :
  add_step empty_env 0%nat (lit "cat") (lit "cat A.java") (lit "class A { }")
    (quarter_clock 1) fresh_world =
  (Ok tt,
   mkWorld [lit "[Step 1] Tool: cat, Tokens: 5, Time: 0.2500s, OutputLen: 11"] [] 0%nat
     [mkResult (lit "Baseline (grep/cat)")
        [mkStep (lit "cat") (lit "cat A.java") 5 (quarter_clock 1) 11]
        5 (PFloat (quarter_clock 1))]).
Proof.
  pose proof (add_step_all_or_nothing empty_env 0%nat (lit "cat") (lit "cat A.java")
                (lit "class A { }") (quarter_clock 1) fresh_world) as H.
  destruct H as [H _].
  - vm_compute. lia.
  - split; reflexivity.
  - rewrite H. vm_compute. reflexivity.
Defined.

(** An instance: two steps on a fresh tracker. *)
Lemma progress_lines_numbered_witness :
  stdout (run_calls empty_env 0%nat
            [mkCall (lit "find") (lit "find .") (lit "./A.java") (quarter_clock 1);
             mkCall (lit "cat") (lit "cat A.java") (lit "class A { }") (quarter_clock 2)]
            fresh_world) =
  [lit "[Step 1] Tool: find, Tokens: 1, Time: 0.2500s, OutputLen: 8";
   lit "[Step 2] Tool: cat, Tokens: 5, Time: 0.5000s, OutputLen: 11"].
Proof.
  destruct (progress_lines_numbered empty_env 0%nat
              [mkCall (lit "find") (lit "find .") (lit "./A.java") (quarter_clock 1);
               mkCall (lit "cat") (lit "cat A.java") (lit "class A { }") (quarter_clock 2)]
              fresh_world) as (H & _).
  - vm_compute. lia.
  - split; reflexivity.
  - rewrite H. vm_compute. reflexivity.
Defined.

(** An instance. *)
Lemma recorded_counts_nonneg_witness :
  total_tokens (tracker_at 0%nat fresh_world) <=
  total_tokens (tracker_at 0%nat
    (run_calls empty_env 0%nat
       [mkCall (lit "cat") (lit "cat A.java") (lit "class A { }") (quarter_clock 2)]
       fresh_world)).
Proof.
  apply (recorded_counts_nonneg empty_env 0%nat
           [mkCall (lit "cat") (lit "cat A.java") (lit "class A { }") (quarter_clock 2)]
           fresh_world).
  - vm_compute. lia.
  - split; reflexivity.
Defined.

(** ** CommandRunner *)

Lemma nth_update_cases {A} i j (f : A -> A) l d :
  nth j (update i f l) d = nth j l d \/
  (j = i /\ nth j (update i f l) d = f (nth j l d)).
Proof.
  destruct (Nat.eq_dec i j) as [<- | Hne].
  - destruct (Nat.lt_ge_cases i (length l)) as [Hlt | Hge].
    + right. split; [reflexivity | apply nth_update_same, Hlt].
    + left. rewrite !nth_overflow; [reflexivity | lia | rewrite update_length; lia].
  - left. apply nth_update_other, Hne.
Qed.

Section RunnerMore.

Variable env : Env.

(** What [add_step] can do to the world, whatever the tracker and the
    outcome: it prints at most one line, and the steps of a tracker only
    grow, by a step that carries the token count of the output. *)
Lemma add_step_frame self tl cmd output d w :
  let res := add_step env self tl cmd output d w in
  only_overflow (fst res) /\
  subprocess_calls (snd res) = subprocess_calls w /\
  ticks (snd res) = ticks w /\
  length (heap (snd res)) = length (heap w) /\
  (forall r, r <> self -> tracker_at r (snd res) = tracker_at r w) /\
  (exists lines, stdout (snd res) = stdout w ++ lines /\ (length lines <= 1)%nat) /\
  (forall r, exists new,
     steps (tracker_at r (snd res)) = steps (tracker_at r w) ++ new /\
     Forall (fun s => count_tokens env output = Ok (tokens s)) new).
Proof.
  cbv zeta. destruct (count_tokens_sign env output) as [Ho _].
  assert (Hnil : forall l : list str, exists lines, l = l ++ lines /\ (length lines <= 1)%nat).
  { intros l. exists []. rewrite app_nil_r. split; [reflexivity | simpl; lia]. }
  unfold add_step, bind, lift, modify, load, print.
  destruct (count_tokens env output) as [toks | e] eqn:Hc.
  - set (s := mkStep tl cmd toks d (len output)).
    assert (Hgrow : forall f r,
              (forall x, steps (f x) = steps x ++ [s]) ->
              exists new,
                steps (nth r (update self f (heap w)) empty_result) =
                  steps (nth r (heap w) empty_result) ++ new /\
                Forall (fun s => Ok toks = Ok (tokens s)) new).
    { intros f r Hf.
      destruct (nth_update_cases self r f (heap w) empty_result) as [-> | [_ ->]].
      - exists []. rewrite app_nil_r. split; [reflexivity | constructor].
      - exists [s]. split; [apply Hf|]. constructor; [reflexivity | constructor]. }
    cbn [heap stdout subprocess_calls ticks fst snd].
    rewrite update_update.
    match goal with |- context [py_add ?a ?b] =>
      pose proof (arith_oo Z.add fadd a b) as Ha; fold py_add in Ha;
      destruct (py_add a b) as [t | e]
    end; cbn [heap stdout subprocess_calls ticks fst snd];
      rewrite ?update_update, ?update_length; unfold tracker_at; cbn [heap];
      (split; [assumption || exact I|]); (split; [reflexivity|]); (split; [reflexivity|]);
      (split; [reflexivity|]);
      (split; [intros r Hne; apply nth_update_other; auto|]); split.
    + eexists. split; [reflexivity | simpl; lia].
    + intros r. apply Hgrow. reflexivity.
    + apply Hnil.
    + intros r. apply Hgrow. reflexivity.
  - cbn [fst snd]. split; [exact Ho|]. repeat (split; [reflexivity|]).
    split; [apply Hnil|].
    intros r. exists []. rewrite app_nil_r. split; [reflexivity | constructor].
Qed.

(** [run_cmd] up to the call of [add_step]. *)
Lemma run_cmd_eq self cmd r w :
  run_cmd env self cmd r w =
  (let w1 := mkWorld (stdout w ++ [lit "Running: " ++ cmd])
               (subprocess_calls w ++ [(cwd self, cmd)]) (S (S (ticks w))) (heap w) in
   match split cmd with
   | [] => (Raise IndexError, w1)
   | tok :: _ =>
       match add_step env r tok cmd (cmd_output env self cmd w)
               (fsub (clock env (S (ticks w))) (clock env (ticks w))) w1 with
       | (Ok _, w2) => (Ok (cmd_output env self cmd w), w2)
       | (Raise e, w2) => (Raise e, w2)
       end
   end).
Proof.
  unfold run_cmd. rewrite bind_print, bind_time.
  erewrite bind_ok by apply capture_ok.
  rewrite bind_time. cbn [stdout subprocess_calls ticks heap]. cbv zeta.
  destruct (split cmd) as [| tok rest]; [reflexivity|].
  cbn [index0]. erewrite (bind_ok (lift (Ok tok))) by reflexivity.
  unfold bind at 1. unfold cmd_output.
  destruct (add_step _ _ _ _ _ _ _) as [[[] | e] w2]; reflexivity.
Qed.

(** X6. Whatever the command, the tracker and the outcome, one call of
    [run_cmd] starts exactly one process, in the runner's directory, reads
    the clock exactly twice, prints the line [Running: cmd] first and at
    most one progress line after it, creates no tracker and leaves every
    tracker but its own untouched; the only exceptions that can leave it
    are [IndexError] (no tool name) and [OverflowError] (a failure of the
    process invocation is absorbed, and the tokenizer of the environment
    accepts every text). *)
Theorem run_cmd_frame self cmd r w :
  let res := run_cmd env self cmd r w in
  subprocess_calls (snd res) = subprocess_calls w ++ [(cwd self, cmd)] /\
  ticks (snd res) = S (S (ticks w)) /\
  length (heap (snd res)) = length (heap w) /\
  (forall r', r' <> r -> tracker_at r' (snd res) = tracker_at r' w) /\
  (exists lines,
     stdout (snd res) = stdout w ++ (lit "Running: " ++ cmd) :: lines /\
     (length lines <= 1)%nat) /\
  match fst res with
  | Ok _ | Raise IndexError | Raise OverflowError => True
  | Raise _ => False
  end.
Proof.
  cbv zeta. rewrite run_cmd_eq. cbv zeta.
  destruct (split cmd) as [| tok rest].
  - cbn [fst snd stdout subprocess_calls ticks heap].
    repeat (split; [reflexivity|]). split; [|exact I].
    exists []. split; [reflexivity | simpl; lia].
  - match goal with |- context [add_step env r tok cmd ?o ?d ?w1] =>
      pose proof (add_step_frame r tok cmd o d w1) as H; cbv zeta in H;
      destruct (add_step env r tok cmd o d w1) as [[[] | e] w2]
    end; cbn [fst snd stdout subprocess_calls ticks heap] in *;
      destruct H as (Ho & Hc & Ht & Hl & Hf & (lines & Hs & Hn) & _);
      (split; [exact Hc|]); (split; [exact Ht|]); (split; [exact Hl|]);
      (split; [exact Hf|]);
      (split; [exists lines; rewrite Hs, <- app_assoc; split; [reflexivity | exact Hn]|]).
    + exact I.
    + destruct e; try contradiction; exact I.
Qed.

Hypothesis wf : env_wf env.

(** X7. For a process that completes, [run_cmd] returns its standard
    output, followed, when the standard error is not empty, by the marker
    line [[STDERR]] and the standard error.  The length recorded in the
    step is that of the whole text, marker included ([10] characters more
    than the two streams), and the marker counts as one more word. *)
Theorem run_cmd_completed self cmd r w tok rest out err :
  split cmd = tok :: rest ->
  (r < length (heap w))%nat ->
  tracker_inv (tracker_at r w) ->
  spawn env (length (subprocess_calls w)) (cwd self) cmd = Completed out err ->
  let text :=
    match err with
    | [] => out
    | _ => out ++ [newline] ++ lit "[STDERR]" ++ [newline] ++ err
    end in
  exists s w',
    run_cmd env self cmd r w = (Ok text, w') /\
    steps (tracker_at r w') = steps (tracker_at r w) ++ [s] /\
    count_tokens env text = Ok (tokens s) /\
    output_len s = len out + match err with [] => 0 | _ => 10 + len err end /\
    split text = split out ++ match err with [] => [] | _ => lit "[STDERR]" :: split err end.
Proof.
  intros Hs Hr Hinv Hsp text.
  destruct (run_cmd_spec env wf self cmd r w tok rest Hs Hr Hinv)
    as (E & _ & Hsteps & Hc & _).
  assert (Hout : cmd_output env self cmd w = text).
  { unfold cmd_output. rewrite Hsp. destruct err; reflexivity. }
  rewrite Hout in E, Hc.
  exists (step_for env self cmd w), (after_cmd env self cmd r w).
  split; [exact E|]. split; [exact Hsteps|]. split; [exact Hc|].
  unfold step_for. cbn [output_len]. rewrite Hout. unfold text.
  destruct err as [| c err].
  - rewrite app_nil_r. split; [lia | reflexivity].
  - destruct (captured_words out (c :: err) ltac:(discriminate)) as (S & L & _).
    change (captured (Completed out (c :: err)))
      with (out ++ [newline] ++ lit "[STDERR]" ++ [newline] ++ c :: err) in S, L.
    split; [rewrite L; lia | exact S].
Qed.

(** X8. One call of [run_cmd] that records a step reads the clock
    exactly twice, and the duration of the step is the second of these
    readings minus the first, subtracted as floats; the total time of the
    tracker becomes the float sum of its former value and this
    duration. *)
Theorem run_cmd_duration self cmd r w tok rest :
  split cmd = tok :: rest ->
  (r < length (heap w))%nat ->
  tracker_inv (tracker_at r w) ->
  exists s w',
    run_cmd env self cmd r w = (Ok (cmd_output env self cmd w), w') /\
    steps (tracker_at r w') = steps (tracker_at r w) ++ [s] /\
    duration s = fsub (clock env (S (ticks w))) (clock env (ticks w)) /\
    ticks w' = S (S (ticks w)) /\
    total_time (tracker_at r w') =
      PFloat (fadd (time_float (total_time (tracker_at r w))) (duration s)).
Proof.
  intros Hs Hr Hinv.
  destruct (run_cmd_spec env wf self cmd r w tok rest Hs Hr Hinv) as (E & _ & Hsteps & _).
  exists (step_for env self cmd w), (after_cmd env self cmd r w).
  split; [exact E|]. split; [exact Hsteps|]. split; [reflexivity|]. split; [reflexivity|].
  unfold after_cmd, tracker_at. cbn [heap]. rewrite nth_update_same by exact Hr. reflexivity.
Qed.

End RunnerMore.

(** An instance: the fourth process of the demonstration environment
    prints nothing and complains on its standard error. *)
Lemma run_cmd_completed_witness :
  exists s w',
    run_cmd demo_env (mkRunner (lit "/srv/ruoyi")) (lit "ls") 0%nat
      (mkWorld [] [(lit "/srv/ruoyi", lit "a"); (lit "/srv/ruoyi", lit "b");
                   (lit "/srv/ruoyi", lit "c")] 0%nat
         [mkResult (lit "Baseline (grep/cat)") [] 0 (PInt 0)]) =
      (Ok ([newline] ++ lit "[STDERR]" ++ [newline] ++ lit "grep: ./x: Permission denied"),
       w') /\
    steps (tracker_at 0%nat w') = [s] /\
    tokens s = 6 /\
    output_len s = 38.
Proof.
  assert (wf : env_wf demo_env).
  { intros k dir cmd. do 5 (destruct k as [| k]; [vm_compute; discriminate|]).
    vm_compute. discriminate. }
  destruct (run_cmd_completed demo_env wf (mkRunner (lit "/srv/ruoyi")) (lit "ls") 0%nat
              (mkWorld [] [(lit "/srv/ruoyi", lit "a"); (lit "/srv/ruoyi", lit "b");
                           (lit "/srv/ruoyi", lit "c")] 0%nat
                 [mkResult (lit "Baseline (grep/cat)") [] 0 (PInt 0)])
              (lit "ls") [] [] (lit "grep: ./x: Permission denied"))
    as (s & w' & E & Hs & Hc & Hl & _).
  - reflexivity.
  - simpl. lia.
  - split; reflexivity.
  - reflexivity.
  - exists s, w'. split; [exact E|]. split; [exact Hs|]. split; [|exact Hl].
    vm_compute in Hc. injection Hc as Hc. symmetry. exact Hc.
Defined.

(** An instance: the clock of the demonstration environment advances by a
    quarter of a second at each reading. *)
Lemma run_cmd_duration_witness :
  exists s w',
    run_cmd demo_env (mkRunner (lit "/srv/ruoyi")) (lit "find . -name A.java") 0%nat
      fresh_world =
      (Ok (lit "./ruoyi-system/src/SysUserServiceImpl.java" ++ [newline]), w') /\
    steps (tracker_at 0%nat w') = [s] /\
    format_float_f 4 (duration s) = lit "0.2500" /\
    ticks w' = 2%nat.
Proof.
  destruct (run_cmd_duration demo_env demo_env_wf (mkRunner (lit "/srv/ruoyi"))
              (lit "find . -name A.java") 0%nat fresh_world (lit "find")
              [lit "."; lit "-name"; lit "A.java"])
    as (s & w' & E & Hs & Hd & Ht & _).
  - reflexivity.
  - vm_compute. lia.
  - split; reflexivity.
  - exists s, w'. split; [exact E|]. split; [exact Hs|]. split; [|exact Ht].
    rewrite Hd. vm_compute. reflexivity.
Defined.

(** ** WorkflowDrivers *)

(** The first element a filter keeps. *)
Lemma filter_head {A} (f : A -> bool) l x rest :
  filter f l = x :: rest ->
  exists before after,
    l = before ++ x :: after /\ forallb (fun y => negb (f y)) before = true /\ f x = true.
Proof.
  induction l as [| y l IH]; cbn [filter]; [discriminate|].
  destruct (f y) eqn:Ey.
  - intros E. injection E as <- <-. exists [], l. auto.
  - intros E. destruct (IH E) as (before & after & -> & Hb & Hx).
    exists (y :: before), after. cbn [forallb app]. rewrite Ey, Hb. auto.
Qed.

Lemma filter_nil {A} (f : A -> bool) l :
  filter f l = [] -> forallb (fun y => negb (f y)) l = true.
Proof.
  induction l as [| y l IH]; cbn [filter forallb]; [reflexivity|].
  destruct (f y); [discriminate|]. exact IH.
Qed.

(** The tools of a list of commands are determined by the commands. *)
Lemma first_tokens_unique cmds : forall tools tools',
  Forall2 is_first_token cmds tools -> Forall2 is_first_token cmds tools' -> tools = tools'.
Proof.
  induction cmds as [| c cmds IH]; intros tools tools' H H'; inversion H; inversion H'; subst.
  - reflexivity.
  - f_equal; [eapply is_first_token_unique; eassumption | apply IH; assumption].
Qed.

Section DriversMore.

Variable env : Env.
Hypothesis wf : env_wf env.

(** X9. The file the baseline driver works on is the first line of the
    output of [find], in order, that ends with [SysUserServiceImpl.java]
    once stripped, and it is used stripped; without such a line it is the
    default path.  Either way the path ends with
    [SysUserServiceImpl.java].  It is the path of the [grep] and [cat]
    steps when [int()] accepts the line number that the [grep -n] output
    starts with, and the path of the [grep] step, the last one, when
    [int()] raises. *)
Theorem baseline_target_first_match runner w :
  exists target,
    (forall n, search_line_num env (grep_output env runner w) = Ok n ->
     exists w',
       run_baseline env runner w = (Ok (length (heap w)), w') /\
       subprocess_calls w' =
         subprocess_calls w ++ map (pair (cwd runner)) (baseline_commands target)) /\
    (forall e, search_line_num env (grep_output env runner w) = Raise e ->
     exists w',
       run_baseline env runner w = (Raise e, w') /\
       subprocess_calls w' =
         subprocess_calls w ++ map (pair (cwd runner)) (baseline_commands_2 target)) /\
    endswith target target_name = true /\
    let lines := split_on newline (find_output env runner w) in
    let other line := negb (endswith (strip line) target_name) in
    (forallb other lines = true /\ target = default_target_file \/
     exists before line after,
       lines = before ++ line :: after /\
       forallb other before = true /\
       target = strip line).
Proof.
  exists (baseline_target env runner w).
  split; [|split].
  - intros n Hn. destruct (run_baseline_spec env wf runner w n Hn) as (w' & E & P).
    exists w'. split; [exact E | apply P].
  - intros e He. destruct (run_baseline_stops env wf runner w e He) as (w' & E & P).
    exists w'. split; [exact E | apply P].
  - unfold baseline_target, matching_paths. cbv zeta.
    destruct (filter _ _) as [| p rest] eqn:Ef.
    + split; [vm_compute; reflexivity|]. left. split; [|reflexivity].
      apply filter_nil in Ef. exact Ef.
    + destruct (filter_head _ _ _ _ Ef) as (before & after & El & Hb & Hp).
      split; [exact Hp|]. right. exists before, p, after. auto.
Qed.

(** X10. The tool names the drivers record do not depend on the file
    found, nor on what the commands print beyond the line number read on
    line 86: the baseline driver records [find], [grep], [cat], [grep],
    [cat], in this order, when [int()] accepts that line number, and
    [find], [grep] when [int()] raises; the experimental driver records
    [git-ai] four times. *)
Theorem drivers_record_tool_names runner w :
  (forall n, search_line_num env (grep_output env runner w) = Ok n ->
   exists wa,
     run_baseline env runner w = (Ok (length (heap w)), wa) /\
     map tool (steps (tracker_at (length (heap w)) wa)) =
       [lit "find"; lit "grep"; lit "cat"; lit "grep"; lit "cat"]) /\
  (forall e, search_line_num env (grep_output env runner w) = Raise e ->
   exists wa,
     run_baseline env runner w = (Raise e, wa) /\
     map tool (steps (tracker_at (length (heap w)) wa)) = [lit "find"; lit "grep"]) /\
  exists wb,
    run_git_ai env runner w = (Ok (length (heap w)), wb) /\
    map tool (steps (tracker_at (length (heap w)) wb)) =
      [lit "git-ai"; lit "git-ai"; lit "git-ai"; lit "git-ai"].
Proof.
  split; [|split].
  - intros n Hn. destruct (run_baseline_spec env wf runner w n Hn) as (wa & Ea & Pa).
    exists wa. split; [exact Ea|].
    destruct Pa as (_ & _ & _ & _ & Ht & _).
    apply (first_tokens_unique _ _ _ Ht). unfold baseline_commands.
    set (target := baseline_target env runner w).
    destruct (split_grep_n target) as [r2 H2].
    destruct (split_cat target) as [r3 H3].
    repeat constructor.
    + apply (split_head _ _ (split (lit ". -name SysUserServiceImpl.java"))).
      vm_compute. reflexivity.
    + eapply split_head, H2.
    + eapply split_head, H3.
    + apply (split_head _ _ (split (lit "-r 'selectUserList' . | head -n 20"))).
      vm_compute. reflexivity.
    + apply (split_head _ _
        (split (lit "ruoyi-admin/src/main/java/com/ruoyi/web/controller/system/SysUserController.java"))).
      vm_compute. reflexivity.
  - intros e He. destruct (run_baseline_stops env wf runner w e He) as (wa & Ea & Pa).
    exists wa. split; [exact Ea|].
    destruct Pa as (_ & _ & _ & _ & Ht & _).
    apply (first_tokens_unique _ _ _ Ht). unfold baseline_commands_2.
    set (target := baseline_target env runner w).
    destruct (split_grep_n target) as [r2 H2].
    repeat constructor.
    + apply (split_head _ _ (split (lit ". -name SysUserServiceImpl.java"))).
      vm_compute. reflexivity.
    + eapply split_head, H2.
  - destruct (run_git_ai_spec env wf runner w) as (wb & Eb & Pb).
    exists wb. split; [exact Eb|].
    destruct Pb as (_ & _ & _ & _ & Ht & _).
    apply (first_tokens_unique _ _ _ Ht). unfold git_ai_commands.
    repeat constructor.
    + apply (split_head _ _ (split (lit "ai query 'SysUserServiceImpl selectUserList'"))).
      vm_compute. reflexivity.
    + apply (split_head _ _ (split (lit "ai graph callers selectUserList"))).
      vm_compute. reflexivity.
    + apply (split_head _ _ (split (lit "ai graph chain selectUserList"))).
      vm_compute. reflexivity.
    + apply (split_head _ _
        (split (lit "ai semantic 'How does selectUserList work in SysUserServiceImpl?' --topk 2"))).
      vm_compute. reflexivity.
Qed.

End DriversMore.

(** The [grep -n] output of the demonstration environment starts with
    [87:]. *)
Lemma demo_line_num :
  search_line_num demo_env
    (grep_output demo_env (mkRunner (lit "/srv/ruoyi")) initial_world) = Ok 87.
Proof. vm_compute. reflexivity. Qed.

(** An instance: the demonstration environment, where [find] prints one path. *)
Lemma baseline_target_first_match_witness :
  exists w',
    run_baseline demo_env (mkRunner (lit "/srv/ruoyi")) initial_world = (Ok 0%nat, w') /\
    subprocess_calls w' =
      map (pair (lit "/srv/ruoyi"))
        (baseline_commands (lit "./ruoyi-system/src/SysUserServiceImpl.java")).
Proof.
  destruct (baseline_target_first_match demo_env demo_env_wf (mkRunner (lit "/srv/ruoyi"))
              initial_world) as (target & H1 & _ & _ & H).
  destruct (H1 87 demo_line_num) as (w' & E & Hc).
  exists w'. split; [exact E|]. rewrite Hc. cbn [subprocess_calls initial_world app].
  f_equal. f_equal. cbv zeta in H. destruct H as [[H _] | (before & line & after & El & Hb & ->)].
  - vm_compute in H. discriminate H.
  - vm_compute in El. destruct before as [| b before].
    + injection El as <- _. vm_compute. reflexivity.
    + injection El as <- El. vm_compute in Hb. discriminate Hb.
Defined.

(** Two instances: the demonstration environment, and a [grep -n] output
    of 4301 digits and a colon. *)
Lemma drivers_record_tool_names_witness :
  (exists wa,
     run_baseline demo_env (mkRunner (lit "/srv/ruoyi")) initial_world = (Ok 0%nat, wa) /\
     map tool (steps (tracker_at 0%nat wa)) =
       [lit "find"; lit "grep"; lit "cat"; lit "grep"; lit "cat"]) /\
  (exists wa,
     run_baseline long_numeral_env (mkRunner (lit "/srv/ruoyi")) initial_world =
       (Raise ValueError, wa) /\
     map tool (steps (tracker_at 0%nat wa)) = [lit "find"; lit "grep"]).
Proof.
  split.
  - destruct (drivers_record_tool_names demo_env demo_env_wf (mkRunner (lit "/srv/ruoyi"))
                initial_world) as (H & _).
    destruct (H 87 demo_line_num) as (wa & E & Ht).
    exists wa. split; [exact E | exact Ht].
  - destruct (drivers_record_tool_names long_numeral_env long_numeral_env_wf
                (mkRunner (lit "/srv/ruoyi")) initial_world) as (_ & H & _).
    destruct (H ValueError ltac:(vm_compute; reflexivity)) as (wa & E & Ht).
    exists wa. split; [exact E | exact Ht].
Defined.

(** ** The line number of the definition *)

Section LineNumber.

Variable env : Env.
Hypothesis digits_ok : ascii_digits env.

Lemma span_digits_numeral u rest :
  span_digits env (uint_str u ++ 58%N :: rest) = (uint_values u, 58%N :: rest).
Proof.
  destruct digits_ok as [Hd Hc].
  induction u; cbn [uint_str uint_values app span_digits];
    try (rewrite Hd by lia; rewrite IHu; reflexivity).
  rewrite Hc. reflexivity.
Qed.

Lemma uint_values_acc u : forall acc,
  fold_left (fun a x => 10 * a + x) (uint_values u) (Zpos acc) = Zpos (Pos.of_uint_acc u acc).
Proof.
  induction u; intros acc; cbn [uint_values fold_left Pos.of_uint_acc];
    try reflexivity;
    match goal with |- fold_left _ _ ?a = Zpos (Pos.of_uint_acc _ ?b) =>
      replace a with (Zpos b) by lia; apply IHu
    end.
Qed.

Lemma uint_values_value u :
  fold_left (fun a x => 10 * a + x) (uint_values u) 0 = Z.of_N (Pos.of_uint u).
Proof.
  induction u; cbn [uint_values fold_left Pos.of_uint]; try reflexivity;
    try exact IHu;
    match goal with |- fold_left _ _ ?a = Z.of_N (Npos (Pos.of_uint_acc _ ?b)) =>
      change a with (Zpos b); apply uint_values_acc
    end.
Qed.

Lemma uint_values_nonnil u : u <> Decimal.Nil -> uint_values u <> [].
Proof. destruct u; cbn [uint_values]; intros H; try discriminate. contradiction. Qed.

Lemma to_uint_nonnil n : N.to_uint n <> Decimal.Nil.
Proof.
  destruct n as [| p]; [discriminate | apply DecimalPos.Unsigned.to_uint_nonnil].
Qed.

Lemma uint_values_length u : length (uint_values u) = length (uint_str u).
Proof. induction u; cbn [uint_values uint_str length]; congruence. Qed.

(** X11. The line number the baseline driver reads from the output of
    [grep -n] on lines 83 to 86.  An output that starts with the decimal
    numeral of [n] followed by a colon gives [n], whatever follows, when
    [int()] converts a numeral of this length: one of at most [640]
    digits, or within the limit of the interpreter, or any when no limit
    is set; for a longer numeral [int()] raises [ValueError].  An empty
    output, or one that does not start with a digit, leaves the line
    number [1]. *)
Theorem search_line_num_numeral n rest :
  0 <= n ->
  search_line_num env (str_of_int n ++ lit ":" ++ rest) =
    (if int_refuses env (length (str_of_int n)) then Raise ValueError else Ok n) /\
  ((length (str_of_int n) <= 640)%nat \/ int_max_str_digits env = 0%nat \/
   (length (str_of_int n) <= int_max_str_digits env)%nat ->
   search_line_num env (str_of_int n ++ lit ":" ++ rest) = Ok n) /\
  search_line_num env [] = Ok 1 /\
  (forall c out, decimal_digit env c = None -> search_line_num env (c :: out) = Ok 1).
Proof.
  intros Hn.
  assert (H : search_line_num env (str_of_int n ++ lit ":" ++ rest) =
              if int_refuses env (length (str_of_int n)) then Raise ValueError else Ok n).
  { unfold str_of_int. destruct (Z.ltb_spec n 0) as [|_]; [lia|].
    cbn [minus_sign app]. rewrite Z.abs_eq by exact Hn. unfold digits.
    change (lit ":" ++ rest) with (58%N :: rest).
    unfold search_line_num, match_line_num. rewrite span_digits_numeral.
    pose proof (uint_values_nonnil _ (to_uint_nonnil (Z.to_N n))) as Hne.
    pose proof (uint_values_value (N.to_uint (Z.to_N n))) as Hv.
    pose proof (uint_values_length (N.to_uint (Z.to_N n))) as Hl.
    change (Pos.of_uint (N.to_uint (Z.to_N n))) with (N.of_uint (N.to_uint (Z.to_N n))) in Hv.
    rewrite DecimalN.Unsigned.of_to, Z2N.id in Hv by exact Hn.
    destruct (uint_values (N.to_uint (Z.to_N n))) as [| d ds]; [contradiction|].
    unfold int_of_digits. rewrite Hv, Hl. reflexivity. }
  split; [exact H|]. split; [|split].
  - intros Hk. rewrite H. unfold int_refuses.
    destruct (Nat.ltb_spec 640 (length (str_of_int n))) as [H1 | H1]; [|reflexivity].
    destruct (Nat.eqb_spec (int_max_str_digits env) 0) as [H2 | H2]; [reflexivity|].
    destruct (Nat.ltb_spec (int_max_str_digits env) (length (str_of_int n))) as [H3 | H3];
      [|reflexivity].
    lia.
  - reflexivity.
  - intros c out Hc. unfold search_line_num, match_line_num. cbn [span_digits].
    rewrite Hc. reflexivity.
Qed.

End LineNumber.

(** An instance: a line of [grep -n]. *)
Lemma search_line_num_numeral_witness :
  search_line_num demo_env
    (lit "87:    public List<SysUser> selectUserList(SysUser user)") = Ok 87.
Proof.
  assert (Hd : ascii_digits demo_env).
  { split; [|reflexivity]. intros c Hc. unfold demo_env, decimal_digit, ascii_digit.
    destruct (N.leb_spec 48 c); [|lia]. destruct (N.leb_spec c 57); [|lia]. reflexivity. }
  destruct (search_line_num_numeral demo_env Hd 87
              (lit "    public List<SysUser> selectUserList(SysUser user)")) as (_ & H & _).
  - lia.
  - apply H. left. apply Nat.leb_le. vm_compute. reflexivity.
Defined.

(** ** ReportPrinter *)

(** The quotient of two positive integers before rounding: a mantissa no
    larger than the dividend. *)
Lemma SFdiv_core_binary_digits m1 m2 :
  0 < m1 -> 0 < m2 ->
  let '(q, e, _) := SFdiv_core_binary prec emax m1 0 m2 0 in
  0 <= q /\ Zdigits2 q + e <= Zdigits2 m1.
Proof.
  intros H1 H2. unfold SFdiv_core_binary.
  set (e' := Z.min _ _).
  assert (He : e' <= 0) by (unfold e'; lia).
  set (m' := match 0 - 0 - e' with 0 => m1 | Zpos _ => Z.shiftl m1 (0 - 0 - e') | Zneg _ => 0 end).
  assert (Hm : m' = m1 * 2 ^ (- e')).
  { unfold m'. destruct (0 - 0 - e') as [| p | p] eqn:E; try lia.
    - replace (- e') with 0 by lia. lia.
    - rewrite Z.shiftl_mul_pow2 by lia. f_equal. f_equal. lia. }
  clearbody m'. pose proof (Z.div_eucl_eq m' m2 ltac:(lia)) as Hd.
  pose proof (Z.mod_pos_bound m' m2 H2) as Hr. unfold Z.modulo in Hr.
  destruct (Z.div_eucl m' m2) as [q r].
  assert (Hp : 0 < 2 ^ (- e')) by (apply Z.pow_pos_nonneg; lia).
  assert (Hq : 0 <= q) by nia.
  split; [exact Hq|].
  pose proof (Zdigits2_nonneg m1) as Hn.
  assert (Hlt : m1 < 2 ^ Zdigits2 m1) by (apply Zdigits2_le; lia).
  assert (Hqd : Zdigits2 q <= Zdigits2 m1 + - e'); [|lia].
  apply Zdigits2_le; try lia. rewrite Z.pow_add_r by lia. nia.
Qed.

(** The true division of integers raises no [OverflowError] below [2^971]. *)
Lemma int_truediv_ok a b :
  b <> 0 -> Z.abs a < 2 ^ 971 -> exists f, int_truediv a b = Ok f.
Proof.
  intros Hb Ha. unfold int_truediv.
  destruct b as [| pb | pb]; [contradiction | |];
    (destruct a as [| pa | pa]; [eexists; reflexivity | |]);
    match goal with |- context [SFdiv_core_binary _ _ ?m1 0 ?m2 0] =>
      pose proof (SFdiv_core_binary_digits m1 m2 ltac:(cbn; lia) ltac:(cbn; lia)) as H;
      assert (Hd : Zdigits2 m1 <= 971) by (apply Zdigits2_le; cbn [Z.abs] in *; lia);
      destruct (SFdiv_core_binary prec emax m1 0 m2 0) as [[q e] l]
    end;
    destruct H as [Hq He];
    match goal with |- context [binary_round_aux _ _ ?s ?q' ?e' ?l'] =>
      pose proof (binary_round_aux_bounded s q' e' l' 971 Hq ltac:(lia) ltac:(lia)) as Hbd;
      destruct (binary_round_aux prec emax s q' e' l'); cbn [bounded_by] in Hbd;
        try contradiction; eexists; reflexivity
    end.
Qed.

Lemma py_mul_100 f : py_mul (PFloat f) (PInt 100) = Ok (PFloat (fmul f (float_of_Z 100))).
Proof. reflexivity. Qed.

(** The percentage change of two integers below [2^970]. *)
Lemma pct_change_int_ok b e :
  Z.abs b < 2 ^ 970 -> Z.abs e < 2 ^ 970 ->
  exists x, pct_change (PInt b) (PInt e) = Ok x /\ time_ok x = true.
Proof.
  intros Hb He. unfold pct_change. cbn [py_gt].
  destruct (Z.ltb_spec 0 b) as [Hpos | _]; [|exists (PInt 0); split; reflexivity].
  cbn [py_sub arith rbind py_truediv].
  destruct (int_truediv_ok (e - b) b) as [f Ef]; [lia | |].
  { change (2 ^ 971) with (2 * 2 ^ 970). lia. }
  rewrite Ef. cbn [rbind]. rewrite py_mul_100. eexists. split; reflexivity.
Qed.

(** The average of tokens per step. *)
Lemma density_ok tok n :
  Z.abs tok < 2 ^ 970 ->
  exists x,
    (if py_gt (PInt n) (PInt 0) then py_truediv (PInt tok) (PInt n) else Ok (PInt 0)) = Ok x /\
    time_ok x = true.
Proof.
  intros Ht. cbn [py_gt].
  destruct (Z.ltb_spec 0 n) as [Hpos | _]; [|exists (PInt 0); split; reflexivity].
  cbn [py_truediv].
  destruct (int_truediv_ok tok n) as [f Ef]; [lia | |].
  { change (2 ^ 971) with (2 * 2 ^ 970). lia. }
  rewrite Ef. eexists. split; reflexivity.
Qed.

(** The percentage change of two averages. *)
Lemma pct_change_density_ok b e :
  time_ok b = true -> time_ok e = true ->
  exists x, pct_change b e = Ok x /\ time_ok x = true.
Proof.
  intros Hb He. unfold pct_change.
  destruct (py_gt b (PInt 0)) eqn:G; [|exists (PInt 0); split; reflexivity].
  destruct b as [[| z | z] | f]; try discriminate.
  apply py_gt_float_nonzero in G.
  assert (Es : exists d, py_sub e (PFloat f) = Ok (PFloat d)).
  { destruct e as [[| z | z] | g]; try discriminate; eexists; reflexivity. }
  destruct Es as [d ->]. cbn [rbind py_truediv to_float]. unfold float_truediv.
  rewrite G. cbn [rbind]. rewrite py_mul_100. eexists. split; reflexivity.
Qed.

Lemma report_metrics_ok b e :
  reportable b -> reportable e ->
  exists m,
    report_metrics b e = Ok m /\
    time_ok (diff_tok m) = true /\ time_ok (diff_steps m) = true /\
    time_ok (base_density m) = true /\ time_ok (exp_density m) = true /\
    time_ok (diff_density m) = true.
Proof.
  intros (_ & Hb & Hbs) (_ & He & Hes). rewrite report_metrics_eq.
  assert (Hmax : sys_maxsize < 2 ^ 970) by (unfold sys_maxsize; lia).
  assert (H0b : 0 <= len (steps b)) by (unfold len; lia).
  assert (H0e : 0 <= len (steps e)) by (unfold len; lia).
  destruct (pct_change_int_ok (total_tokens b) (total_tokens e) Hb He) as (dt & -> & Hdt).
  destruct (pct_change_int_ok (len (steps b)) (len (steps e))) as (ds & -> & Hds); try lia.
  destruct (density_ok (total_tokens b) (len (steps b)) Hb) as (bd & -> & Hbd).
  destruct (density_ok (total_tokens e) (len (steps e)) He) as (ed & -> & Hed).
  cbn [rbind].
  destruct (pct_change_density_ok bd ed Hbd Hed) as (dd & -> & Hdd).
  eexists. split; [reflexivity|]. cbn [diff_tok diff_steps base_density exp_density diff_density].
  auto.
Qed.

(** The metrics and the four rows of two trackers in range. *)
Lemma report_rows_ok b e :
  reportable b -> reportable e ->
  exists m r1 r2 r3 r4,
    report_metrics b e = Ok m /\
    row_tokens m = Ok r1 /\ row_steps m = Ok r2 /\ row_density m = Ok r3 /\
    row_time b e = Ok r4.
Proof.
  intros Hb He.
  destruct (report_metrics_ok b e Hb He) as (m & Em & Hdt & Hds & Hbd & Hed & Hdd).
  destruct Hb as (Htb & _), He as (Hte & _).
  assert (R1 : exists r, row_tokens m = Ok r).
  { unfold row_tokens. destruct (format_f_ok 1 _ Hdt) as [s ->]. eexists. reflexivity. }
  assert (R2 : exists r, row_steps m = Ok r).
  { unfold row_steps. destruct (format_f_ok 1 _ Hds) as [s ->]. eexists. reflexivity. }
  assert (R3 : exists r, row_density m = Ok r).
  { unfold row_density. destruct (format_f_ok 1 _ Hbd) as [s1 ->].
    destruct (format_f_ok 1 _ Hed) as [s2 ->]. destruct (format_f_ok 1 _ Hdd) as [s3 ->].
    eexists. reflexivity. }
  assert (R4 : exists r, row_time b e = Ok r).
  { unfold row_time. destruct (format_f_ok 2 _ Htb) as [s1 ->].
    destruct (format_f_ok 2 _ Hte) as [s2 ->]. cbn [rbind].
    destruct (py_sub_time_ok _ _ Hte Htb) as (d & -> & Hd). cbn [rbind].
    destruct (format_f_ok 2 _ Hd) as [s3 ->]. eexists. reflexivity. }
  destruct R1 as [r1 E1], R2 as [r2 E2], R3 as [r3 E3], R4 as [r4 E4].
  exists m, r1, r2, r3, r4. auto.
Qed.

(** X12. The report is always printed for trackers as the drivers leave
    them (a total time that is [0] or a float, a total of tokens below
    [2^970] in magnitude, a list of steps within the size limit):
    the metrics and the four rows are computed without an exception, and
    [print_report] prints the banner and the table of these rows, in [5]
    calls of [print] with the table library (the table is one of them)
    and [10] without it; it raises nothing, starts no process, reads no
    clock and touches no tracker. *)
Theorem print_report_total env b e w :
  time_ok (total_time b) = true -> time_ok (total_time e) = true ->
  Z.abs (total_tokens b) < 2 ^ 970 -> Z.abs (total_tokens e) < 2 ^ 970 ->
  len (steps b) <= sys_maxsize -> len (steps e) <= sys_maxsize ->
  exists m r1 r2 r3 r4,
    report_metrics b e = Ok m /\
    row_tokens m = Ok r1 /\ row_steps m = Ok r2 /\ row_density m = Ok r3 /\
    row_time b e = Ok r4 /\
    print_report env b e w =
      (Ok tt,
       mkWorld (stdout w ++ report_lines env [r1; r2; r3; r4])
         (subprocess_calls w) (ticks w) (heap w)) /\
    length (report_lines env [r1; r2; r3; r4]) =
      match tabulate env with Some _ => 5%nat | None => 10%nat end.
Proof.
  intros Htb Hte Hb He Hsb Hse.
  destruct (report_rows_ok b e) as (m & r1 & r2 & r3 & r4 & Em & E1 & E2 & E3 & E4).
  { repeat split; assumption. }
  { repeat split; assumption. }
  exists m, r1, r2, r3, r4. repeat (split; [assumption|]). split.
  - apply (print_report_rows env b e w m); assumption.
  - unfold report_lines. destruct (tabulate env); reflexivity.
Qed.

(** An instance: the trackers of the example, without the table library. *)
Lemma print_report_total_witness :
  exists lines,
    print_report demo_env baseline_example experimental_example initial_world =
      (Ok tt, mkWorld lines [] 0%nat []) /\
    length lines = 10%nat.
Proof.
  destruct (print_report_total demo_env baseline_example experimental_example initial_world)
    as (m & r1 & r2 & r3 & r4 & _ & _ & _ & _ & _ & E & L);
    try reflexivity; try (vm_compute; reflexivity); try (vm_compute; discriminate).
  eexists. split; [exact E | exact L].
Defined.

(** ** The table *)

Lemma ljust_len n s : len (ljust n s) = Z.max (Z.of_nat n) (len s).
Proof. unfold ljust, len. rewrite length_app, repeat_length. lia. Qed.

(** X13. The rows of the fallback table: a cell is padded to the width of
    its column ([25], [20], [20], [15]) and never truncated, so a row is
    [89] characters wide when its cells fit and wider when one does not;
    the row of headers is [90] wide, the width of the rule, since
    [Experimental (git-ai)] has [21] characters. *)
Theorem row_format_width a b c d :
  len (row_format [a; b; c; d]) =
    Z.max 25 (len a) + Z.max 20 (len b) + Z.max 20 (len c) + Z.max 15 (len d) + 9 /\
  (exists pa pb pc pd,
     row_format [a; b; c; d] =
       (a ++ pa) ++ lit " | " ++ (b ++ pb) ++ lit " | " ++ (c ++ pc) ++ lit " | " ++ (d ++ pd) /\
     Forall (fun p => forallb (N.eqb 32) p = true) [pa; pb; pc; pd]) /\
  len (row_format headers) = 90 /\
  len (replicate 90 45%N) = 90.
Proof.
  split; [|split; [|split; vm_compute; reflexivity]].
  - unfold row_format. cbn [nth]. unfold len at 1. rewrite !length_app.
    rewrite !Nat2Z.inj_add. fold (len (ljust 25 a)) (len (ljust 20 b)) (len (ljust 20 c))
      (len (ljust 15 d)). rewrite !ljust_len.
    change (Z.of_nat (length (lit " | "))) with 3. lia.
  - unfold row_format, ljust. cbn [nth]. do 4 eexists. split; [reflexivity|].
    assert (Hs : forall n, forallb (N.eqb 32) (repeat 32%N n) = true).
    { induction n; [reflexivity | exact IHn]. }
    repeat constructor; apply Hs.
Qed.

(** X14. The report reads three attributes of a tracker: the total of
    tokens, the number of steps and the total time.  Two pairs of trackers
    that agree on these print the same report: neither the name of a
    tracker nor the data of its steps reaches the table. *)
Theorem print_report_reads_totals env b e b' e' :
  total_tokens b = total_tokens b' -> len (steps b) = len (steps b') ->
  total_time b = total_time b' ->
  total_tokens e = total_tokens e' -> len (steps e) = len (steps e') ->
  total_time e = total_time e' ->
  print_report env b e = print_report env b' e'.
Proof.
  intros Hb1 Hb2 Hb3 He1 He2 He3.
  unfold print_report, report_metrics, row_time.
  rewrite Hb1, Hb2, Hb3, He1, He2, He3. reflexivity.
Qed.

(** An instance: trackers with the totals of the example, other names and
    other steps. *)
Lemma print_report_reads_totals_witness :
  print_report demo_env baseline_example experimental_example =
  print_report demo_env
    (mkResult (lit "A")
       [mkStep (lit "ls") (lit "ls") 350 (quarter_clock 6) 0;
        mkStep (lit "ls") (lit "ls") 0 (quarter_clock 0) 0;
        mkStep (lit "ls") (lit "ls") 0 (quarter_clock 0) 0]
       350 (PFloat (quarter_clock 6)))
    (mkResult (lit "B")
       [mkStep (lit "ls") (lit "ls") 70 (quarter_clock 2) 0;
        mkStep (lit "ls") (lit "ls") 0 (quarter_clock 0) 0]
       70 (PFloat (quarter_clock 2))).
Proof. apply print_report_reads_totals; reflexivity. Defined.

(** ** The sign of a change *)

(** The true division keeps the sign of the dividend over a positive
    divisor, and yields no infinity. *)
Lemma int_truediv_sign a b :
  0 < b -> Z.abs a < 2 ^ 971 ->
  exists f, int_truediv a b = Ok f /\ has_sign (a <? 0) f /\ forall s, f <> S754_infinity s.
Proof.
  intros Hb Ha. destruct (int_truediv_ok a b ltac:(lia) Ha) as [f E].
  exists f. split; [exact E|]. unfold int_truediv in E.
  destruct b as [| pb | pb]; try lia.
  change (Zpos pb <? 0) with false in E. rewrite xorb_false_r in E.
  destruct a as [| pa | pa].
  - injection E as <-. split; [reflexivity | discriminate].
  - pose proof (SFdiv_core_binary_digits (Z.abs (Zpos pa)) (Z.abs (Zpos pb))
                  ltac:(cbn; lia) ltac:(cbn; lia)) as H.
    destruct (SFdiv_core_binary _ _ _ _ _ _) as [[q e] l]. destruct H as [Hq _].
    pose proof (binary_round_aux_sign (Zpos pa <? 0) q e l Hq) as Hs.
    destruct (binary_round_aux _ _ _ _ _ _); try discriminate; injection E as <-;
      (split; [exact Hs | discriminate]).
  - pose proof (SFdiv_core_binary_digits (Z.abs (Zneg pa)) (Z.abs (Zpos pb))
                  ltac:(cbn; lia) ltac:(cbn; lia)) as H.
    destruct (SFdiv_core_binary _ _ _ _ _ _) as [[q e] l]. destruct H as [Hq _].
    pose proof (binary_round_aux_sign (Zneg pa <? 0) q e l Hq) as Hs.
    destruct (binary_round_aux _ _ _ _ _ _); try discriminate; injection E as <-;
      (split; [exact Hs | discriminate]).
Qed.

Lemma uint_str_head u :
  u <> Decimal.Nil -> exists c r, uint_str u = c :: r /\ c <> 45%N.
Proof.
  destruct u; cbn [uint_str]; intros H; try contradiction;
    eexists; eexists; (split; [reflexivity | discriminate]).
Qed.

Lemma fixed_head p n : exists c r, fixed p n = c :: r /\ c <> 45%N.
Proof.
  unfold fixed, digits.
  destruct (uint_str_head _ (to_uint_nonnil (Z.to_N (n / 10 ^ Z.of_nat p))))
    as (c & r & -> & Hc).
  exists c. eexists. split; [reflexivity | exact Hc].
Qed.

(** A formatted float starts with a minus sign exactly when its sign bit
    is set. *)
Lemma format_float_f_sign p g s :
  has_sign s g -> startswith (format_float_f p g) (lit "-") = s.
Proof.
  assert (H : forall body, (exists c r, body = c :: r /\ c <> 45%N) ->
            startswith (minus_sign s ++ body) (lit "-") = s).
  { intros body (c & r & -> & Hc). destruct s; [reflexivity|].
    cbn [minus_sign app]. change (lit "-") with [45%N]. cbn [startswith].
    destruct (N.eqb_spec 45 c); [congruence | reflexivity]. }
  destruct g as [s' | s' | | s' m e]; cbn [has_sign format_float_f]; intros Hs;
    try contradiction; subst s'; apply H.
  - apply fixed_head.
  - exists 105%N. eexists. split; [reflexivity | discriminate].
  - apply fixed_head.
Qed.

(** X15. The sign convention of the "Improvement" column for tokens and
    steps: with a positive baseline, the percentage printed carries a
    minus sign exactly when the experimental count is smaller than the
    baseline, also when it rounds to [-0.0]; an equal or larger count is
    printed without a sign. *)
Theorem pct_change_sign base exp :
  0 < base < 2 ^ 970 -> Z.abs exp < 2 ^ 970 ->
  exists x cell,
    pct_change (PInt base) (PInt exp) = Ok (PFloat x) /\
    format_f 1 (PFloat x) = Ok cell /\
    startswith (cell ++ percent) (lit "-") = (exp <? base).
Proof.
  intros Hb He. unfold pct_change. cbn [py_gt].
  destruct (Z.ltb_spec 0 base) as [_ |]; [|lia].
  cbn [py_sub arith rbind py_truediv].
  destruct (int_truediv_sign (exp - base) base) as (f & -> & Hs & Hi); [lia | |].
  { change (2 ^ 971) with (2 * 2 ^ 970). lia. }
  cbn [rbind]. rewrite py_mul_100.
  exists (fmul f (float_of_Z 100)), (format_float_f 1 (fmul f (float_of_Z 100))).
  split; [reflexivity|]. split; [reflexivity|].
  assert (Hp : has_sign (exp - base <? 0) (fmul f (float_of_Z 100))).
  { rewrite <- (xorb_false_r (exp - base <? 0)).
    apply fmul_sign; [exact Hs | reflexivity | exact Hi | discriminate]. }
  apply (format_float_f_sign 1) in Hp.
  replace (exp <? base) with (exp - base <? 0)
    by (destruct (Z.ltb_spec (exp - base) 0), (Z.ltb_spec exp base); lia || reflexivity).
  rewrite <- Hp. destruct (format_float_f 1 (fmul f (float_of_Z 100))) as [| c r].
  - destruct (exp - base <? 0); [discriminate Hp | reflexivity].
  - change (lit "-") with [45%N]. cbn [app startswith].
    generalize (r ++ percent). intros r'. destruct r, r'; reflexivity.
Qed.

(** An instance: [350] tokens against [70]. *)
Lemma pct_change_sign_witness :
  exists x cell,
    pct_change (PInt 350) (PInt 70) = Ok (PFloat x) /\
    format_f 1 (PFloat x) = Ok cell /\
    startswith (cell ++ percent) (lit "-") = true.
Proof.
  apply (pct_change_sign 350 70); [split; [lia | vm_compute; reflexivity] |].
  vm_compute. reflexivity.
Defined.

(** ** The whole script *)

(** [int(f)] of a non-negative float below [2^j]. *)
Lemma float_to_int_lt f j n :
  bounded_by j false f -> 0 <= j -> float_to_int f = Ok n -> 0 <= n < 2 ^ j.
Proof.
  destruct f as [s | s | | s m e]; cbn [bounded_by float_to_int]; try contradiction.
  - intros _ Hj E. injection E as <-. split; [lia | apply Z.pow_pos_nonneg; lia].
  - intros [-> Hd] Hj E. injection E as <-. cbn [cond_Zopp].
    split; [apply Z.shiftl_nonneg; lia|].
    assert (Hm : Zpos m < 2 ^ Zdigits2 (Zpos m)).
    { apply Zdigits2_le; try lia. apply Zdigits2_nonneg. }
    pose proof (Zdigits2_nonneg (Zpos m)) as Hn.
    destruct (Z.le_gt_cases 0 e) as [He | He].
    + rewrite Z.shiftl_mul_pow2 by exact He.
      assert (Hp : 0 < 2 ^ e) by (apply Z.pow_pos_nonneg; lia).
      apply Z.lt_le_trans with (2 ^ (Zdigits2 (Zpos m) + e)).
      * rewrite Z.pow_add_r by lia. nia.
      * apply Z.pow_le_mono_r; lia.
    + rewrite Z.shiftl_div_pow2 by lia.
      pose proof (Zdigits2_div_pow2 (Zpos m) (- e) (Zdigits2 (Zpos m))
                    ltac:(lia) ltac:(lia) ltac:(lia)) as Hq.
      assert (H0 : 0 <= Zpos m / 2 ^ (- e)).
      { apply Z.div_pos; [lia | apply Z.pow_pos_nonneg; lia]. }
      apply (Zdigits2_le _ (Z.max 0 (Zdigits2 (Zpos m) - - e))) in Hq; try lia.
      eapply Z.lt_le_trans; [exact Hq|]. apply Z.pow_le_mono_r; lia.
Qed.

(** The range of a token count. *)
Lemma count_tokens_bound env text k :
  encoder_wf env -> len text <= sys_maxsize ->
  count_tokens env text = Ok k -> 0 <= k < 2 ^ 66.
Proof.
  intros Henc Hlen. unfold count_tokens. destruct (tiktoken env) as [enc |] eqn:Et.
  - intros E. injection E as <-. specialize (Henc enc text Et).
    unfold sys_maxsize in Henc. unfold len in *. lia.
  - destruct text as [| c text].
    + intros E. injection E as <-. lia.
    + unfold count_tokens_fallback. rewrite split_count.
      pose proof (word_count_le (c :: text)) as Hw.
      destruct (count_times_1_3 (word_count (c :: text))) as [-> Hb]; [lia|].
      cbn [rbind py_int]. apply (float_to_int_lt _ 66 k Hb). lia.
Qed.

Lemma tracker_reportable t :
  tracker_inv t ->
  Forall (fun s => 0 <= tokens s < 2 ^ 66) (steps t) ->
  len (steps t) <= sys_maxsize ->
  reportable t.
Proof.
  intros Hinv HF Hlen. split; [apply tracker_inv_time_ok, Hinv|]. split; [|exact Hlen].
  destruct Hinv as [-> _].
  assert (HB : Forall (fun x => 0 <= x < 2 ^ 66) (map tokens (steps t))).
  { apply Forall_map. exact HF. }
  apply sum_tokens_bounds in HB. unfold len in *. rewrite length_map in HB.
  unfold sys_maxsize in Hlen.
  assert (2 ^ 63 * 2 ^ 66 < 2 ^ 970) by (rewrite <- Z.pow_add_r by lia; apply Z.pow_lt_mono_r; lia).
  assert (0 < 2 ^ 66) by lia.
  nia.
Qed.

Section Preserves.

Variable I : World -> Prop.

Lemma preserves_bind {A B} (m : M A) (k : A -> M B) :
  preserves I m -> (forall a, preserves I (k a)) -> preserves I (bind m k).
Proof.
  intros Hm Hk w Hw. unfold bind. specialize (Hm w Hw).
  destruct (m w) as [[a | e] w1]; cbn [snd] in *; [apply Hk, Hm | exact Hm].
Qed.

Lemma preserves_ret {A} (a : A) : preserves I (ret a).
Proof. intros w Hw. exact Hw. Qed.

Lemma preserves_lift {A} (r : result A) : preserves I (lift r).
Proof. intros w Hw. destruct r; exact Hw. Qed.

End Preserves.

Section Script.

Variable env : Env.
Hypothesis wf : env_wf env.
Hypothesis enc_wf : encoder_wf env.

Lemma tokens_bounded_heap w w' : heap w' = heap w -> tokens_bounded w -> tokens_bounded w'.
Proof. intros E H r. unfold tracker_at. rewrite E. apply H. Qed.

Lemma preserves_print s : preserves tokens_bounded (print s).
Proof. intros w Hw. eapply tokens_bounded_heap; [|exact Hw]. reflexivity. Qed.

Lemma preserves_init name : preserves tokens_bounded (BenchmarkResult_init name).
Proof.
  intros w Hw r. unfold BenchmarkResult_init, alloc, tracker_at. cbn [snd heap].
  destruct (Nat.lt_ge_cases r (length (heap w))) as [Hlt | Hge].
  - rewrite app_nth1 by exact Hlt. apply Hw.
  - rewrite app_nth2 by exact Hge.
    destruct (r - length (heap w))%nat as [| [| n]]; constructor.
Qed.

Lemma preserves_run_cmd self cmd r : preserves tokens_bounded (run_cmd env self cmd r).
Proof.
  intros w Hw. rewrite run_cmd_eq. cbv zeta.
  set (w1 := mkWorld _ _ _ (heap w)).
  assert (H1 : tokens_bounded w1) by (eapply tokens_bounded_heap; [|exact Hw]; reflexivity).
  destruct (split cmd) as [| tok rest]; [exact H1|].
  match goal with |- context [add_step env r tok cmd ?o ?d w1] =>
    pose proof (add_step_frame env r tok cmd o d w1) as H; cbv zeta in H;
    destruct H as (_ & _ & _ & _ & _ & _ & Hg);
    assert (H2 : tokens_bounded (snd (add_step env r tok cmd o d w1)));
    [|destruct (add_step env r tok cmd o d w1) as [[[] | e] w2]; exact H2]
  end.
  intros r'. destruct (Hg r') as (new & -> & Hnew).
  apply Forall_app. split; [apply H1|].
  eapply Forall_impl; [|exact Hnew]. cbv beta. intros s Hs.
  eapply count_tokens_bound; [exact enc_wf | apply wf | exact Hs].
Qed.

Lemma preserves_run_baseline runner : preserves tokens_bounded (run_baseline env runner).
Proof.
  unfold run_baseline.
  repeat (apply preserves_bind; [apply preserves_print | intros _]).
  apply preserves_bind; [apply preserves_init | intros res].
  apply preserves_bind; [apply preserves_print | intros _].
  apply preserves_bind; [apply preserves_run_cmd | intros out1].
  apply preserves_bind.
  { destruct (matching_paths out1).
    - apply preserves_bind; [apply preserves_print | intros _]. apply preserves_ret.
    - apply preserves_ret. }
  intros target.
  repeat first
    [ apply preserves_ret
    | apply preserves_bind;
      [first [apply preserves_print | apply preserves_run_cmd | apply preserves_lift]
      | intros ?] ].
Qed.

Lemma preserves_run_git_ai runner : preserves tokens_bounded (run_git_ai env runner).
Proof.
  unfold run_git_ai.
  repeat (apply preserves_bind; [apply preserves_print | intros _]).
  apply preserves_bind; [apply preserves_init | intros res].
  repeat first
    [ apply preserves_ret
    | apply preserves_bind;
      [first [apply preserves_print | apply preserves_run_cmd] | intros ?] ].
Qed.

(** The fields of the metrics, once computed. *)
Lemma report_metrics_fields b e m :
  report_metrics b e = Ok m ->
  base_tok m = total_tokens b /\ exp_tok m = total_tokens e /\
  base_steps m = len (steps b) /\ exp_steps m = len (steps e) /\
  pct_change (PInt (len (steps b))) (PInt (len (steps e))) = Ok (diff_steps m).
Proof.
  rewrite report_metrics_eq.
  destruct (pct_change (PInt (total_tokens b)) _) as [dt |]; cbn [rbind]; [|discriminate].
  destruct (pct_change (PInt (len (steps b))) _) as [ds |]; cbn [rbind]; [|discriminate].
  destruct (if py_gt (PInt (len (steps b))) (PInt 0) then _ else _) as [bd |];
    cbn [rbind]; [|discriminate].
  destruct (if py_gt (PInt (len (steps e))) (PInt 0) then _ else _) as [ed |];
    cbn [rbind]; [|discriminate].
  destruct (pct_change bd ed) as [dd |]; cbn [rbind]; [|discriminate].
  intros E. injection E as <-. cbn [base_tok exp_tok base_steps exp_steps diff_steps]. auto.
Qed.

(** The run of the script with an existing target directory and a line
    number that [int()] accepts: the world [w2] after the two drivers, and
    the metrics and rows of the report. *)
Lemma script_run argv w n :
  tokens_bounded w ->
  path_exists env (target_dir_of argv) = true ->
  search_line_num env (grep_output env (mkRunner (target_dir_of argv)) w) = Ok n ->
  exists w2 m r1 r2 r3 r4,
    script env argv w =
      (Ok tt,
       mkWorld (stdout w2 ++ report_lines env [r1; r2; r3; r4])
         (subprocess_calls w2) (ticks w2) (heap w2)) /\
    length (heap w2) = S (S (length (heap w))) /\
    tracker_inv (tracker_at (length (heap w)) w2) /\
    tracker_inv (tracker_at (S (length (heap w))) w2) /\
    len (steps (tracker_at (length (heap w)) w2)) = 5 /\
    len (steps (tracker_at (S (length (heap w))) w2)) = 4 /\
    report_metrics (tracker_at (length (heap w)) w2)
      (tracker_at (S (length (heap w))) w2) = Ok m /\
    row_tokens m = Ok r1 /\ row_steps m = Ok r2 /\ row_density m = Ok r3 /\
    row_time (tracker_at (length (heap w)) w2) (tracker_at (S (length (heap w))) w2) = Ok r4.
Proof.
  intros Hw Hp Hn. unfold script.
  assert (Ei : exists s, import_tiktoken env = print s).
  { unfold import_tiktoken. destruct (tiktoken env); eexists; reflexivity. }
  destruct Ei as [s0 ->]. rewrite bind_print.
  set (wi := mkWorld (stdout w ++ [s0]) (subprocess_calls w) (ticks w) (heap w)).
  assert (Hwi : tokens_bounded wi) by (eapply tokens_bounded_heap; [|exact Hw]; reflexivity).
  unfold main. cbv zeta. rewrite Hp. cbn [negb]. rewrite bind_ret.
  unfold Runner_init.
  set (runner := mkRunner (target_dir_of argv)).
  match goal with |- context [bind (bind (print ?s) ?k1) ?k2 ?w0] =>
    change (bind (bind (print s) k1) k2 w0)
      with (k2 runner (mkWorld (stdout w0 ++ [s]) (subprocess_calls w0) (ticks w0) (heap w0)))
  end.
  cbv beta.
  set (w0 := mkWorld _ (subprocess_calls wi) (ticks wi) (heap wi)).
  assert (Hw0 : tokens_bounded w0) by (eapply tokens_bounded_heap; [|exact Hwi]; reflexivity).
  pose proof (preserves_run_baseline runner w0 Hw0) as Hb1.
  change (grep_output env (mkRunner (target_dir_of argv)) w)
    with (grep_output env runner w0) in Hn.
  destruct (run_baseline_spec env wf runner w0 n Hn) as (w1 & E1 & P1).
  rewrite E1 in Hb1. cbn [snd] in Hb1. rewrite (bind_ok _ _ _ _ _ E1).
  pose proof (preserves_run_git_ai runner w1 Hb1) as Hb2.
  destruct (run_git_ai_spec env wf runner w1) as (w2 & E2 & P2).
  rewrite E2 in Hb2. cbn [snd] in Hb2. rewrite (bind_ok _ _ _ _ _ E2).
  rewrite !bind_load.
  destruct P1 as (_ & Hl1 & _ & Hs1 & _ & Hi1 & _).
  destruct P2 as (_ & Hl2 & _ & Hs2 & _ & Hi2 & Hf2).
  change (heap w0) with (heap w) in *. rewrite Hl1 in *.
  assert (Eb : tracker_at (length (heap w)) w2 = tracker_at (length (heap w)) w1)
    by (apply Hf2; lia).
  assert (Lb : len (steps (tracker_at (length (heap w)) w2)) = 5).
  { rewrite Eb. unfold len. rewrite <- (length_map command), Hs1. reflexivity. }
  assert (Le : len (steps (tracker_at (S (length (heap w))) w2)) = 4).
  { unfold len. rewrite <- (length_map command), Hs2. reflexivity. }
  destruct (report_rows_ok (tracker_at (length (heap w)) w2)
              (tracker_at (S (length (heap w))) w2))
    as (m & r1 & r2 & r3 & r4 & Em & R1 & R2 & R3 & R4).
  - apply tracker_reportable; [rewrite Eb; exact Hi1 | apply Hb2 |].
    rewrite Lb. unfold sys_maxsize. lia.
  - apply tracker_reportable; [exact Hi2 | apply Hb2 |].
    rewrite Le. unfold sys_maxsize. lia.
  - rewrite (print_report_rows env _ _ w2 m r1 r2 r3 r4 Em R1 R2 R3 R4).
    exists w2, m, r1, r2, r3, r4. rewrite Eb at 1. rewrite Hl2. auto 12.
Qed.

(** With an existing target directory and a line number that [int()]
    refuses, the script ends with the [ValueError] of line 86. *)
Lemma script_stops argv w e :
  path_exists env (target_dir_of argv) = true ->
  search_line_num env (grep_output env (mkRunner (target_dir_of argv)) w) = Raise e ->
  fst (script env argv w) = Raise ValueError.
Proof.
  intros Hp He. unfold script.
  assert (Ei : exists s, import_tiktoken env = print s).
  { unfold import_tiktoken. destruct (tiktoken env); eexists; reflexivity. }
  destruct Ei as [s0 ->]. rewrite bind_print.
  set (wi := mkWorld (stdout w ++ [s0]) (subprocess_calls w) (ticks w) (heap w)).
  change (grep_output env (mkRunner (target_dir_of argv)) w)
    with (grep_output env (mkRunner (target_dir_of argv)) wi) in He.
  destruct (main_stops env wf argv wi e Hp He) as (Hr & _).
  rewrite Hr, (search_line_num_raises env _ _ He). reflexivity.
Qed.

(** X16. With an existing target directory, in an environment whose
    captured outputs and token lists respect the size limit of Python
    objects (the tokenizer, when present, accepting every text), the
    script has two outcomes.  When [int()] accepts the line number that the
    [grep -n] output starts with, the script runs to its end: both drivers
    return, two trackers with [5] and [4] steps are created, the report is
    printed and no exception leaves the script, whether the commands fail
    or cannot be started.  When [int()] refuses it, the script ends with
    [ValueError]. *)
Theorem script_completes argv w :
  tokens_bounded w ->
  path_exists env (target_dir_of argv) = true ->
  (forall n,
     search_line_num env (grep_output env (mkRunner (target_dir_of argv)) w) = Ok n ->
     exists w',
       script env argv w = (Ok tt, w') /\
       length (heap w') = S (S (length (heap w))) /\
       len (steps (tracker_at (length (heap w)) w')) = 5 /\
       len (steps (tracker_at (S (length (heap w))) w')) = 4) /\
  (forall e,
     search_line_num env (grep_output env (mkRunner (target_dir_of argv)) w) = Raise e ->
     fst (script env argv w) = Raise ValueError).
Proof.
  intros Hw Hp. split.
  - intros n Hn.
    destruct (script_run argv w n Hw Hp Hn)
      as (w2 & m & r1 & r2 & r3 & r4 & E & Hl & _ & _ & Lb & Le & _).
    eexists. split; [exact E|]. unfold tracker_at in *. cbn [heap]. auto.
  - intros e He. exact (script_stops argv w e Hp He).
Qed.

(** X17. The report the script prints when it runs to its end (the line
    number of line 86 being one that [int()] accepts).  The row of steps
    is then a constant of the script, [5], [4] and [-20.0%]; the row of
    tokens shows, with thousands separators, the sums of the token counts
    of the steps of the two trackers; and the banner and the table of
    these rows are what the last calls of [print] write. *)
Theorem script_report_rows argv w n :
  tokens_bounded w ->
  path_exists env (target_dir_of argv) = true ->
  search_line_num env (grep_output env (mkRunner (target_dir_of argv)) w) = Ok n ->
  exists w' change r3 r4 before,
    script env argv w = (Ok tt, w') /\
    stdout w' =
      before ++
      report_lines env
        [[lit "Total Search Tokens";
          format_int_commas
            (sum_tokens (map tokens (steps (tracker_at (length (heap w)) w'))));
          format_int_commas
            (sum_tokens (map tokens (steps (tracker_at (S (length (heap w))) w'))));
          change];
         [lit "Steps to Solution"; lit "5"; lit "4"; lit "-20.0%"];
         r3; r4].
Proof.
  intros Hw Hp Hn.
  destruct (script_run argv w n Hw Hp Hn)
    as (w2 & m & r1 & r2 & r3 & r4 & E & _ & [Hb _] & [He _] & Lb & Le & Em & R1 & R2 & _).
  destruct (report_metrics_fields _ _ _ Em) as (Hbt & Het & Hbs & Hes & Hds).
  rewrite Lb, Le in Hds. rewrite Lb in Hbs. rewrite Le in Hes.
  assert (Hrow : forall d, pct_change (PInt 5) (PInt 4) = Ok d ->
            rbind (format_f 1 d) (fun s =>
              Ok [lit "Steps to Solution"; str_of_int 5; str_of_int 4; s ++ percent]) =
            Ok [lit "Steps to Solution"; lit "5"; lit "4"; lit "-20.0%"]).
  { intros d Hd. vm_compute in Hd. injection Hd as <-. vm_compute. reflexivity. }
  unfold row_steps in R2. rewrite Hbs, Hes, (Hrow _ Hds) in R2. injection R2 as <-.
  unfold row_tokens in R1. rewrite Hbt, Het, Hb, He in R1.
  destruct (format_f 1 (diff_tok m)) as [d |]; cbn [rbind] in R1; [|discriminate].
  injection R1 as <-.
  eexists. exists (d ++ percent), r3, r4, (stdout w2). split; [exact E|]. reflexivity.
Qed.

End Script.

(** Two instances: the demonstration environment, where [git-ai] is
    missing, and a [grep -n] output of 4301 digits and a colon. *)
Lemma script_completes_witness :
  (exists w',
     script demo_env [lit "benchmark.py"; lit "/srv/ruoyi"] initial_world = (Ok tt, w') /\
     length (heap w') = 2%nat) /\
  fst (script long_numeral_env [lit "benchmark.py"; lit "/srv/ruoyi"] initial_world) =
    Raise ValueError.
Proof.
  split.
  - destruct (script_completes demo_env demo_env_wf) with
      (argv := [lit "benchmark.py"; lit "/srv/ruoyi"]) (w := initial_world)
      as [H _].
    + intros enc text H. discriminate H.
    + intros r. destruct r; constructor.
    + reflexivity.
    + destruct (H 87 demo_line_num) as (w' & E & Hl & _).
      exists w'. split; [exact E | exact Hl].
  - destruct (script_completes long_numeral_env long_numeral_env_wf) with
      (argv := [lit "benchmark.py"; lit "/srv/ruoyi"]) (w := initial_world)
      as [_ H].
    + intros enc text H. discriminate H.
    + intros r. destruct r; constructor.
    + reflexivity.
    + apply (H ValueError). vm_compute. reflexivity.
Defined.

(** An instance: the run in the demonstration environment. *)
Lemma script_report_rows_witness :
  exists w' before rows,
    script demo_env [lit "benchmark.py"; lit "/srv/ruoyi"] initial_world = (Ok tt, w') /\
    stdout w' = before ++ report_lines demo_env rows /\
    nth 1 rows [] = [lit "Steps to Solution"; lit "5"; lit "4"; lit "-20.0%"].
Proof.
  destruct (script_report_rows demo_env demo_env_wf) with
    (argv := [lit "benchmark.py"; lit "/srv/ruoyi"]) (w := initial_world) (n := 87)
    as (w' & change & r3 & r4 & before & E & Hs).
  - intros enc text H. discriminate H.
  - intros r. destruct r; constructor.
  - reflexivity.
  - exact demo_line_num.
  - exists w', before. eexists. split; [exact E|]. split; [exact Hs | reflexivity].
Defined.
